(** * Sample-document generators: a shallow embedding

    The repository is four Python scripts.  Each one defines renderer
    functions [create_*] that read a flat record (a Python dict), lay text out
    with the reportlab engine and save one PDF, and one batch driver
    [generate_*_docs] that owns literal sample records and calls the renderers
    in a fixed sequence.

    The embedding follows the scripts statement by statement:
    - a record is a finite map from field names to Python values;
    - [d['k']] is [getitem], which raises [KeyError]; [d.get('k')] is a plain
      lookup; f-string replacement fields are [str] and [format];
    - the canvas [c] and the list [story] are the state of a small
      state-and-exception monad, the file system is the state of [IO];
    - what reaches the engine is kept as data: the drawing operations of a
      canvas, or the flowables of a story.  The engine itself (fonts,
      pagination, PDF bytes) is outside the model; only its effect on the
      file system is modelled. *)

From Stdlib Require Import ZArith QArith String Ascii List DecimalString Lia.
From Stdlib Require Import Floats.SpecFloat.
From stdpp Require Import gmap strings list fin_maps.

Open Scope string_scope.
Open Scope Z_scope.
Open Scope list_scope.

(** ** Python values *)

(** The values a record holds: strings, numbers (int or float) and lists of
    strings.  Strings are UTF-8 byte strings; a float is an IEEE 754 binary64
    value. *)
Inductive Value : Type :=
  | VStr (s : string)
  | VInt (n : Z)
  | VFloat (f : spec_float)
  | VList (l : list string).

Coercion VStr : string >-> Value.

Abbreviation Record := (gmap string Value).

(** The exceptions of the model.  [KeyError] is what the spec calls
    MissingFieldError; [IOError] is raised by the engine when it saves. *)
Inductive PyError : Type :=
  | KeyError (key : string)
  | TypeError
  | ValueError
  | OverflowError
  | AttributeError
  | IOError (filename : string).

Inductive Result (A : Type) : Type :=
  | Ok (a : A)
  | Raise (e : PyError).
Arguments Ok {A} a.
Arguments Raise {A} e.

Definition error_of {A} (r : Result A) : option PyError :=
  match r with Ok _ => None | Raise e => Some e end.

Definition is_KeyError (e : PyError) : bool :=
  match e with KeyError _ => true | _ => false end.

(** ** Binary64 arithmetic *)

Definition prec : Z := 53.
Definition emax : Z := 1024.

(** [float(n)] for an int: correctly rounded, OverflowError beyond the range. *)
Definition float_of_int (n : Z) : Result spec_float :=
  match binary_normalize prec emax n 0 false with
  | S754_infinity _ => Raise OverflowError
  | f => Ok f
  end.

(** A decimal literal [num / 10^places], as the parser rounds it. *)
Definition float_literal (num : Z) (places : nat) : spec_float :=
  SFdiv prec emax (binary_normalize prec emax num 0 false)
                  (binary_normalize prec emax (10 ^ Z.of_nat places) 0 false).

Definition float_mul (x y : spec_float) : spec_float := SFmul prec emax x y.

(** [int(x)] for a float: truncation toward zero. *)
Definition int_of_float (x : spec_float) : Result Z :=
  match x with
  | S754_nan => Raise ValueError
  | S754_infinity _ => Raise OverflowError
  | S754_zero _ => Ok 0
  | S754_finite s m e =>
      let a := if 0 <=? e then Zpos m * 2 ^ e else Zpos m / 2 ^ (- e) in
      Ok (if s then - a else a)
  end.

(** ** Decimal text *)

Definition comma : ascii := ",".
Definition dot : ascii := ".".
Definition minus : ascii := "-".

Definition digit_char (d : Z) : ascii := ascii_of_nat (48 + Z.to_nat d).

Fixpoint uint_digits (u : Decimal.uint) : list ascii :=
  match u with
  | Decimal.Nil => []
  | Decimal.D0 u => "0"%char :: uint_digits u
  | Decimal.D1 u => "1"%char :: uint_digits u
  | Decimal.D2 u => "2"%char :: uint_digits u
  | Decimal.D3 u => "3"%char :: uint_digits u
  | Decimal.D4 u => "4"%char :: uint_digits u
  | Decimal.D5 u => "5"%char :: uint_digits u
  | Decimal.D6 u => "6"%char :: uint_digits u
  | Decimal.D7 u => "7"%char :: uint_digits u
  | Decimal.D8 u => "8"%char :: uint_digits u
  | Decimal.D9 u => "9"%char :: uint_digits u
  end.

(** The decimal digits of a natural number, most significant first. *)
Definition digits (n : N) : list ascii :=
  match n with
  | N0 => ["0"%char]
  | Npos p => uint_digits (Pos.to_uint p)
  end.

Definition sign_of (negative : bool) : list ascii :=
  if negative then [minus] else [].

(** [str(n)] for an int. *)
Definition str_of_int (n : Z) : string :=
  string_of_list_ascii (sign_of (n <? 0) ++ digits (Z.abs_N n)).

(** Commas between groups of three digits; the digits come least
    significant first. *)
Fixpoint group3 (rev_digits : list ascii) : list ascii :=
  match rev_digits with
  | a :: b :: c :: ((_ :: _) as rest) => a :: b :: c :: comma :: group3 rest
  | l => l
  end.

(** [format(n, ',')] for an int. *)
Definition int_grouped (n : Z) : string :=
  string_of_list_ascii
    (sign_of (n <? 0) ++ rev (group3 (rev (digits (Z.abs_N n))))).

(** The last [d] decimal digits of [x], zero padded. *)
Fixpoint frac_digits (d : nat) (x : Z) : list ascii :=
  match d with
  | O => []
  | S d' => frac_digits d' (x / 10) ++ [digit_char (x mod 10)]
  end.

Definition round_half_even (num den : Z) : Z :=
  let q := num / den in
  let r := num mod den in
  if 2 * r <? den then q
  else if den <? 2 * r then q + 1
  else if Z.even q then q else q + 1.

(** [m * 2^e * 10^d] rounded to the nearest integer, ties to even. *)
Definition scaled (d : nat) (m : positive) (e : Z) : Z :=
  if 0 <=? e then Zpos m * 2 ^ e * 10 ^ Z.of_nat d
  else round_half_even (Zpos m * 10 ^ Z.of_nat d) (2 ^ (- e)).

Definition fixed_digits (d : nat) (q : Z) : list ascii :=
  digits (Z.to_N (q / 10 ^ Z.of_nat d))
  ++ match d with O => [] | _ => dot :: frac_digits d (q mod 10 ^ Z.of_nat d) end.

(** [format(x, '.df')] for a float. *)
Definition float_fixed (d : nat) (x : spec_float) : string :=
  match x with
  | S754_nan => "nan"
  | S754_infinity s => string_of_list_ascii (sign_of s ++ list_ascii_of_string "inf")
  | S754_zero s => string_of_list_ascii (sign_of s ++ fixed_digits d 0)
  | S754_finite s m e => string_of_list_ascii (sign_of s ++ fixed_digits d (scaled d m e))
  end.

(** ** Built-ins left abstract

    Four built-ins of the Python runtime are taken as parameters: the text of
    a float ([repr], and [format] with a comma), the text of a list, and
    [str.lower].  Every theorem holds for all of them. *)
Class PyBuiltins : Type := {
  float_repr : spec_float -> string;
  float_grouped : spec_float -> string;
  list_repr : list string -> string;
  str_lower : string -> string
}.

(** Lower-casing of the ASCII letters, used where an example is evaluated. *)
Definition ascii_lower (a : ascii) : ascii :=
  let n := nat_of_ascii a in
  if ((65 <=? n) && (n <=? 90))%nat then ascii_of_nat (n + 32) else a.

Fixpoint string_map (f : ascii -> ascii) (s : string) : string :=
  match s with
  | EmptyString => EmptyString
  | String a s' => String (f a) (string_map f s')
  end.

(** The characters of a string: a UTF-8 continuation byte stays with the byte
    before it. *)
Definition is_continuation (a : ascii) : bool :=
  let n := nat_of_ascii a in ((128 <=? n) && (n <? 192))%nat.

Fixpoint chars (s : string) : list string :=
  match s with
  | EmptyString => []
  | String a s' =>
      match chars s' with
      | (String b _ as t) :: ts =>
          if is_continuation b then String a t :: ts
          else String a EmptyString :: t :: ts
      | ts => String a EmptyString :: ts
      end
  end.

Fixpoint str_repeat (s : string) (n : nat) : string :=
  match n with
  | O => EmptyString
  | S n' => s +:+ str_repeat s n'
  end.

(** The double-quote character, for the few literals that contain one. *)
Definition dq : string := String (ascii_of_nat 34) EmptyString.

(** The format specifications the scripts use: [','] and ['.df']. *)
Inductive FormatSpec : Type :=
  | grouped
  | fixed (d : nat).

(** Bool value of [d.get(k)] in an [if]. *)
Definition truthy (o : option Value) : bool :=
  match o with
  | None => false
  | Some (VStr s) => negb (String.eqb s EmptyString)
  | Some (VInt n) => negb (n =? 0)
  | Some (VFloat (S754_zero _)) => false
  | Some (VFloat _) => true
  | Some (VList l) => match l with [] => false | _ => true end
  end.

(** The items a [for] loop visits. *)
Definition iter_value (v : Value) : Result (list Value) :=
  match v with
  | VList l => Ok (map VStr l)
  | VStr s => Ok (map VStr (chars s))
  | VInt _ | VFloat _ => Raise TypeError
  end.

(** [v * w] for a float [w]. *)
Definition mul_value (v : Value) (w : spec_float) : Result spec_float :=
  match v with
  | VInt n =>
      match float_of_int n with
      | Ok x => Ok (float_mul x w)
      | Raise e => Raise e
      end
  | VFloat x => Ok (float_mul x w)
  | VStr _ | VList _ => Raise TypeError
  end.

Section Builtins.
Context `{PyBuiltins}.

(** [str(v)], the text of a replacement field without a format. *)
Definition str (v : Value) : string :=
  match v with
  | VStr s => s
  | VInt n => str_of_int n
  | VFloat f => float_repr f
  | VList l => list_repr l
  end.

(** [format(v, spec)], the text of a replacement field with a format. *)
Definition format_value (v : Value) (spec : FormatSpec) : Result string :=
  match v, spec with
  | VInt n, grouped => Ok (int_grouped n)
  | VFloat x, grouped => Ok (float_grouped x)
  | VInt n, fixed d =>
      match float_of_int n with
      | Ok x => Ok (float_fixed d x)
      | Raise e => Raise e
      end
  | VFloat x, fixed d => Ok (float_fixed d x)
  | VStr _, _ => Raise ValueError
  | VList _, _ => Raise TypeError
  end.

(** [v.lower()] *)
Definition lower_value (v : Value) : Result string :=
  match v with
  | VStr s => Ok (str_lower s)
  | _ => Raise AttributeError
  end.

End Builtins.

Arguments str {_} !v.
Arguments format_value {_} !v spec.
Arguments lower_value {_} !v.
Arguments iter_value !v.
Arguments mul_value !v w.
Arguments int_of_float : simpl never.
Arguments float_of_int : simpl never.
Arguments truthy !o : simpl nomatch.
Arguments int_grouped : simpl never.
Arguments float_fixed : simpl never.
Arguments str_of_int : simpl never.

(** ** The drawing monad

    [Py S A] is a computation over a mutable object of type [S] (the canvas
    or the story) that returns an [A] or raises. *)
Definition Py (S A : Type) : Type := S -> Result (A * S).

Definition ret {S A} (a : A) : Py S A := fun s => Ok (a, s).

Definition bind {S A B} (m : Py S A) (f : A -> Py S B) : Py S B :=
  fun s => match m s with
           | Ok (a, s') => f a s'
           | Raise e => Raise e
           end.

Definition lift {S A} (r : Result A) : Py S A :=
  fun s => match r with Ok a => Ok (a, s) | Raise e => Raise e end.

Declare Scope py_scope.
Delimit Scope py_scope with py.
Notation "x ← y ; z" := (bind y (fun x => z))
  (at level 20, y at level 100, z at level 200, only parsing) : py_scope.
Notation "y ;; z" := (bind y (fun _ => z))
  (at level 100, z at level 200, only parsing, right associativity) : py_scope.
Open Scope py_scope.

(** [d[k]] *)
Definition getitem {S} (d : Record) (k : string) : Py S Value :=
  lift (match d !! k with Some v => Ok v | None => Raise (KeyError k) end).

Definition format `{PyBuiltins} {S} (v : Value) (spec : FormatSpec) : Py S string :=
  lift (format_value v spec).

Definition lower `{PyBuiltins} {S} (v : Value) : Py S string :=
  lift (lower_value v).

Definition iter {S} (v : Value) : Py S (list Value) :=
  lift (iter_value v).

(** [v * w] and [int(x)] *)
Definition mul {S} (v : Value) (w : spec_float) : Py S spec_float :=
  lift (mul_value v w).

Definition int_ {S} (x : spec_float) : Py S Z :=
  lift (int_of_float x).

Arguments bind {S A B} m f _ /.
Arguments ret {S A} a _ /.
Arguments lift {S A} r _ /.
Arguments getitem {S} d k _ /.
Arguments format {_ S} v spec _ /.
Arguments lower {_ S} v _ /.
Arguments iter {S} v _ /.
Arguments mul {S} v w _ /.
Arguments int_ {S} x _ /.

(** [for x in l: body] *)
Fixpoint for_ {S A} (l : list A) (body : A -> Py S unit) : Py S unit :=
  match l with
  | [] => ret tt
  | x :: l' => body x ;; for_ l' body
  end.

(** [for x in l: body], where the body updates a local variable. *)
Fixpoint for_acc {S A B} (l : list A) (acc : B) (body : B -> A -> Py S B) : Py S B :=
  match l with
  | [] => ret acc
  | x :: l' => acc' ← body acc x; for_acc l' acc' body
  end.

(** ** What reaches the engine *)

Definition inch : Q := 72.
Definition letter : Q * Q := (612, 792)%Q.

Module colors.
Inductive Color : Type :=
  | black | white | grey | lightgrey | darkgrey
  | lightblue | lightcyan | red | whitesmoke.
End colors.

(** The calls on a canvas, in the order they were made. *)
Inductive CanvasOp : Type :=
  | SetFont (psfontname : string) (size : Z)
  | DrawString (x y : Q) (text : Value)
  | SetFillColor (aColor : colors.Color)
  | Rect (x y width height : Q) (fill : Z)
  | ShowPage.

Inductive ParaStyle : Type :=
  | SampleStyle (name : string)
  | ParagraphStyle (name : string) (fontSize : Z) (textColor : colors.Color).

(** [styles = getSampleStyleSheet()]; [styles['Title']] is [styles "Title"]. *)
Definition styles (name : string) : ParaStyle := SampleStyle name.

(** One directive of a [TableStyle]: its name, the two cell corners, and the
    remaining arguments. *)
Inductive StyleArg : Type :=
  | arg_s (s : string)
  | arg_n (n : Z)
  | arg_c (color : colors.Color).

Inductive TableCmd : Type :=
  | cmd (name : string) (start stop : Z * Z) (args : list StyleArg).

Definition TableStyle (cmds : list TableCmd) : list TableCmd := cmds.

Inductive Flowable : Type :=
  | Paragraph (text : string) (style : ParaStyle)
  | Spacer (width height : Q)
  | MkTable (data : list (list Value)) (colWidths : list Q) (style : list TableCmd).

Definition Table (data : list (list Value)) (colWidths : list Q) : Flowable :=
  MkTable data colWidths [].

Definition setStyle (t : Flowable) (cmds : list TableCmd) : Flowable :=
  match t with
  | MkTable data colWidths style => MkTable data colWidths (style ++ cmds)
  | f => f
  end.

Inductive Document : Type :=
  | CanvasDoc (pagesize : Q * Q) (ops : list CanvasOp)
  | PlatypusDoc (pagesize : Q * Q) (flowables : list Flowable).

(** The methods of the canvas [c]. *)
Module c.
Definition setFont (psfontname : string) (size : Z) : Py (list CanvasOp) unit :=
  fun ops => Ok (tt, ops ++ [SetFont psfontname size]).
Definition drawString (x y : Q) (text : Value) : Py (list CanvasOp) unit :=
  fun ops => Ok (tt, ops ++ [DrawString x y text]).
Definition setFillColor (aColor : colors.Color) : Py (list CanvasOp) unit :=
  fun ops => Ok (tt, ops ++ [SetFillColor aColor]).
Definition rect (x y width height : Q) (fill : Z) : Py (list CanvasOp) unit :=
  fun ops => Ok (tt, ops ++ [Rect x y width height fill]).
Definition showPage : Py (list CanvasOp) unit :=
  fun ops => Ok (tt, ops ++ [ShowPage]).
End c.
Arguments c.drawString (x y)%_Q text.
Arguments c.rect (x y width height)%_Q fill.
Arguments Spacer (width height)%_Q.

(** The one method of the list [story]. *)
Module story.
Definition append (f : Flowable) : Py (list Flowable) unit :=
  fun flowables => Ok (tt, flowables ++ [f]).
End story.

(** The document a canvas body draws, and the one a story body builds. *)
Definition canvas_document (pagesize : Q * Q) (body : Py (list CanvasOp) unit)
  : Result Document :=
  match body [] with
  | Ok (_, ops) => Ok (CanvasDoc pagesize ops)
  | Raise e => Raise e
  end.

Definition platypus_document (pagesize : Q * Q) (body : Py (list Flowable) unit)
  : Result Document :=
  match body [] with
  | Ok (_, flowables) => Ok (PlatypusDoc pagesize flowables)
  | Raise e => Raise e
  end.

(** The definitions of the renderers are unfolded through this database. *)
Create HintDb renderers.
#[global] Hint Unfold canvas_document platypus_document : renderers.

(** ** The file system *)

(** The directories that exist and the files written so far. *)
Record FileSystem : Type := {
  dirs : gset string;
  files : gmap string Document
}.

Definition IO (A : Type) : Type := FileSystem -> Result A * FileSystem.

Definition io_ret {A} (a : A) : IO A := fun fs => (Ok a, fs).

Definition io_bind {A B} (m : IO A) (f : A -> IO B) : IO B :=
  fun fs => match m fs with
            | (Ok a, fs') => f a fs'
            | (Raise e, fs') => (Raise e, fs')
            end.

Declare Scope io_scope.
Delimit Scope io_scope with io.
Notation "y ;; z" := (io_bind y (fun _ => z))
  (at level 100, z at level 200, only parsing, right associativity) : io_scope.

(** The part of a path before its last slash. *)
Fixpoint drop_to_slash (rev_path : list ascii) : list ascii :=
  match rev_path with
  | [] => []
  | a :: l => if Ascii.eqb a "/" then l else drop_to_slash l
  end.

Definition dirname (path : string) : string :=
  string_of_list_ascii (rev (drop_to_slash (rev (list_ascii_of_string path)))).

(** The engine opens the output file for writing when the document is saved:
    the directory of the path has to exist (the empty directory name is the
    working directory) and the path must not be a directory itself.  This is
    the spec's IOError for an unwritable output path; nothing else of the
    engine is modelled. *)
Definition writable (fs : FileSystem) (filename : string) : bool :=
  bool_decide ((dirname filename = EmptyString ∨ dirname filename ∈ dirs fs)
               ∧ filename ∉ dirs fs).

Definition write_file (filename : string) (doc : Document) : IO unit :=
  fun fs =>
    if writable fs filename
    then (Ok tt, {| dirs := dirs fs; files := <[filename := doc]> (files fs) |})
    else (Raise (IOError filename), fs).

(** [c.save()] and [doc.build(story)]: an exception raised while the
    document was drawn has already left the renderer; otherwise the file is
    written. *)
Definition save (filename : string) (drawn : Result Document) : IO unit :=
  fun fs =>
    match drawn with
    | Ok doc => write_file filename doc fs
    | Raise e => (Raise e, fs)
    end.
(** ** [src/generate_test_pdfs.py] *)
Module generate_test_pdfs.

Section Renderers.
Context `{PyBuiltins}.

(** The statements of [create_vehicle_registration], from the creation of the
    canvas to the call that saves it. *)
Definition vehicle_registration_body (vehicle_data : Record) : Py (list CanvasOp) unit :=
  let '(width, height) := letter in
  c.setFont "Helvetica-Bold" 16;;
  c.drawString 50 (height - 50) "DEPARTMENT OF MOTOR VEHICLES";;
  c.setFont "Helvetica-Bold" 14;;
  c.drawString 50 (height - 80) "CERTIFICATE OF REGISTRATION";;
  c.setFont "Helvetica" 10;;
  v_doc_number ← getitem vehicle_data "doc_number";
  c.drawString (width - 200) (height - 50) ("Document No: " +:+ str v_doc_number);;
  v_issue_date ← getitem vehicle_data "issue_date";
  c.drawString (width - 200) (height - 70) ("Issue Date: " +:+ str v_issue_date);;
  let y_pos := (height - 150)%Q in
  c.setFont "Helvetica-Bold" 12;;
  c.drawString 50 y_pos "VEHICLE INFORMATION";;
  let y_pos := (y_pos - 30)%Q in
  c.setFont "Helvetica" 11;;
  v_reg_number ← getitem vehicle_data "reg_number";
  v_make ← getitem vehicle_data "make";
  v_model ← getitem vehicle_data "model";
  v_year ← getitem vehicle_data "year";
  v_engine_number ← getitem vehicle_data "engine_number";
  v_chassis_number ← getitem vehicle_data "chassis_number";
  v_color ← getitem vehicle_data "color";
  v_fuel_type ← getitem vehicle_data "fuel_type";
  let details : list (Value * Value) := [
    (VStr "Registration Number:", v_reg_number);
    (VStr "Vehicle Make:", v_make);
    (VStr "Vehicle Model:", v_model);
    (VStr "Year of Manufacture:", v_year);
    (VStr "Engine Number:", v_engine_number);
    (VStr "Chassis Number:", v_chassis_number);
    (VStr "Color:", v_color);
    (VStr "Fuel Type:", v_fuel_type)
  ] in
  y_pos ← for_acc details y_pos (fun y_pos '(label, value) =>
      c.drawString 50 y_pos label;;
      c.drawString 200 y_pos value;;
      let y_pos := (y_pos - 25)%Q in
      ret y_pos);
  let y_pos := (y_pos - 20)%Q in
  c.setFont "Helvetica-Bold" 12;;
  c.drawString 50 y_pos "OWNER INFORMATION";;
  let y_pos := (y_pos - 30)%Q in
  c.setFont "Helvetica" 11;;
  v_owner_name ← getitem vehicle_data "owner_name";
  v_owner_address ← getitem vehicle_data "owner_address";
  v_owner_id ← getitem vehicle_data "owner_id";
  v_owner_phone ← getitem vehicle_data "owner_phone";
  let owner_details : list (Value * Value) := [
    (VStr "Full Name:", v_owner_name);
    (VStr "Address:", v_owner_address);
    (VStr "ID Number:", v_owner_id);
    (VStr "Phone:", v_owner_phone)
  ] in
  y_pos ← for_acc owner_details y_pos (fun y_pos '(label, value) =>
      c.drawString 50 y_pos label;;
      c.drawString 200 y_pos value;;
      let y_pos := (y_pos - 25)%Q in
      ret y_pos);
  c.setFont "Helvetica" 8;;
  c.drawString 50 50 "This is a sample document for testing purposes only";;
  c.drawString 50 35 "All information contained herein is fictional";;
  ret tt.

Definition vehicle_registration_document (vehicle_data : Record) : Result Document :=
  canvas_document letter (vehicle_registration_body vehicle_data).

(** Create a sample vehicle registration certificate *)
Definition create_vehicle_registration (filename : string) (vehicle_data : Record) : IO unit :=
  save filename (vehicle_registration_document vehicle_data).

(** The statements of [create_drivers_license], from the creation of the
    canvas to the call that saves it. *)
Definition drivers_license_body (driver_data : Record) : Py (list CanvasOp) unit :=
  let '(width, height) := (4 * inch, 2.5 * inch)%Q in
  c.setFillColor colors.lightblue;;
  c.rect 0 0 width height 1;;
  c.setFillColor colors.black;;
  c.setFont "Helvetica-Bold" 10;;
  c.drawString 10 (height - 20) "DRIVER LICENSE";;
  c.setFont "Helvetica" 8;;
  v_license_number ← getitem driver_data "license_number";
  c.drawString 10 (height - 40) ("License No: " +:+ str v_license_number);;
  v_license_class ← getitem driver_data "license_class";
  c.drawString 10 (height - 55) ("Class: " +:+ str v_license_class);;
  v_expiry_date ← getitem driver_data "expiry_date";
  c.drawString 10 (height - 70) ("Expires: " +:+ str v_expiry_date);;
  v_full_name ← getitem driver_data "full_name";
  c.drawString 10 (height - 95) ("Name: " +:+ str v_full_name);;
  v_date_of_birth ← getitem driver_data "date_of_birth";
  c.drawString 10 (height - 110) ("DOB: " +:+ str v_date_of_birth);;
  v_address ← getitem driver_data "address";
  c.drawString 10 (height - 125) ("Address: " +:+ str v_address);;
  c.setFillColor colors.grey;;
  c.rect (width - 80) (height - 120) 70 90 1;;
  c.setFillColor colors.white;;
  c.setFont "Helvetica" 6;;
  c.drawString (width - 75) (height - 70) "PHOTO";;
  c.showPage;;
  c.setFillColor colors.lightgrey;;
  c.rect 0 0 width height 1;;
  c.setFillColor colors.black;;
  c.setFont "Helvetica-Bold" 8;;
  c.drawString 10 (height - 20) "RESTRICTIONS & ENDORSEMENTS";;
  c.setFont "Helvetica" 7;;
  let restrictions := default (VList ["NONE"]) (driver_data !! "restrictions") in
  let y_pos := (height - 40)%Q in
  items ← iter restrictions;
  y_pos ← for_acc items y_pos (fun y_pos restriction =>
      c.drawString 10 y_pos ("• " +:+ str restriction);;
      let y_pos := (y_pos - 15)%Q in
      ret y_pos);
  c.drawString 10 20 "This is a sample document for testing purposes only";;
  ret tt.

Definition drivers_license_document (driver_data : Record) : Result Document :=
  canvas_document (4 * inch, 2.5 * inch)%Q (drivers_license_body driver_data).

(** Create a sample driver's license *)
Definition create_drivers_license (filename : string) (driver_data : Record) : IO unit :=
  save filename (drivers_license_document driver_data).

(** The statements of [create_vehicle_inspection_report], from the creation of the
    story to the call that saves it. *)
Definition vehicle_inspection_report_body (inspection_data : Record) : Py (list Flowable) unit :=
  let title := Paragraph "VEHICLE INSPECTION REPORT" (styles "Title") in
  story.append title;;
  story.append (Spacer 1 12);;
  v_inspection_date ← getitem inspection_data "inspection_date";
  v_inspector_name ← getitem inspection_data "inspector_name";
  v_inspector_license ← getitem inspection_data "inspector_license";
  v_station_name ← getitem inspection_data "station_name";
  v_certificate_number ← getitem inspection_data "certificate_number";
  let inspection_info : list (list Value) := [
    [VStr "Inspection Date:"; v_inspection_date];
    [VStr "Inspector:"; v_inspector_name];
    [VStr "License No:"; v_inspector_license];
    [VStr "Station:"; v_station_name];
    [VStr "Certificate No:"; v_certificate_number]
  ] in
  let info_table := Table inspection_info [2 * inch; 3 * inch]%Q in
  let info_table := setStyle info_table (TableStyle [
    cmd "ALIGN" (0, 0) (-1, -1) [arg_s "LEFT"];
    cmd "FONTNAME" (0, 0) (0, -1) [arg_s "Helvetica-Bold"];
    cmd "FONTSIZE" (0, 0) (-1, -1) [arg_n 10];
    cmd "BOTTOMPADDING" (0, 0) (-1, -1) [arg_n 6]
  ]) in
  story.append info_table;;
  story.append (Spacer 1 20);;
  let vehicle_title := Paragraph "VEHICLE DETAILS" (styles "Heading2") in
  story.append vehicle_title;;
  v_reg_number ← getitem inspection_data "reg_number";
  v_make ← getitem inspection_data "make";
  v_model ← getitem inspection_data "model";
  v_year ← getitem inspection_data "year";
  v_mileage ← getitem inspection_data "mileage";
  v_vin ← getitem inspection_data "vin";
  let vehicle_info : list (list Value) := [
    [VStr "Registration No:"; v_reg_number];
    [VStr "Make/Model:"; VStr (str v_make +:+ " " +:+ str v_model)];
    [VStr "Year:"; v_year];
    [VStr "Mileage:"; v_mileage];
    [VStr "VIN:"; v_vin]
  ] in
  let vehicle_table := Table vehicle_info [2 * inch; 3 * inch]%Q in
  let vehicle_table := setStyle vehicle_table (TableStyle [
    cmd "ALIGN" (0, 0) (-1, -1) [arg_s "LEFT"];
    cmd "FONTNAME" (0, 0) (0, -1) [arg_s "Helvetica-Bold"];
    cmd "FONTSIZE" (0, 0) (-1, -1) [arg_n 10];
    cmd "BOTTOMPADDING" (0, 0) (-1, -1) [arg_n 6]
  ]) in
  story.append vehicle_table;;
  story.append (Spacer 1 20);;
  let results_title := Paragraph "INSPECTION RESULTS" (styles "Heading2") in
  story.append results_title;;
  let inspection_items : list (list Value) := [
    [VStr "Component"; VStr "Status"; VStr "Notes"];
    [VStr "Brakes"; VStr "PASS"; VStr "Good condition"];
    [VStr "Lights"; VStr "PASS"; VStr "All functional"];
    [VStr "Tires"; VStr "PASS"; VStr ("7/32" +:+ dq +:+ " tread depth")];
    [VStr "Steering"; VStr "PASS"; VStr "No play detected"];
    [VStr "Exhaust"; VStr "PASS"; VStr "Secure mounting"];
    [VStr "Mirrors"; VStr "PASS"; VStr "Clean and secure"];
    [VStr "Windshield"; VStr "PASS"; VStr "No cracks"];
    [VStr "Horn"; VStr "PASS"; VStr "Audible"];
    [VStr "Seat Belts"; VStr "PASS"; VStr "Functional"]
  ] in
  let results_table := Table inspection_items [2 * inch; 1 * inch; 2.5 * inch]%Q in
  let results_table := setStyle results_table (TableStyle [
    cmd "BACKGROUND" (0, 0) (-1, 0) [arg_c colors.grey];
    cmd "TEXTCOLOR" (0, 0) (-1, 0) [arg_c colors.whitesmoke];
    cmd "ALIGN" (0, 0) (-1, -1) [arg_s "CENTER"];
    cmd "FONTNAME" (0, 0) (-1, 0) [arg_s "Helvetica-Bold"];
    cmd "FONTSIZE" (0, 0) (-1, -1) [arg_n 9];
    cmd "BOTTOMPADDING" (0, 0) (-1, -1) [arg_n 6];
    cmd "GRID" (0, 0) (-1, -1) [arg_n 1; arg_c colors.black]
  ]) in
  story.append results_table;;
  story.append (Spacer 1 20);;
  v_result ← getitem inspection_data "result";
  let conclusion := Paragraph ("<b>OVERALL RESULT: " +:+ str v_result +:+ "</b>") (styles "Normal") in
  story.append conclusion;;
  let footer := Paragraph "This is a sample document for testing purposes only. All information is fictional." (ParagraphStyle "Footer" 8 colors.grey) in
  story.append (Spacer 1 30);;
  story.append footer;;
  ret tt.

Definition vehicle_inspection_report_document (inspection_data : Record) : Result Document :=
  platypus_document letter (vehicle_inspection_report_body inspection_data).

(** Create a vehicle inspection report *)
Definition create_vehicle_inspection_report (filename : string) (inspection_data : Record) : IO unit :=
  save filename (vehicle_inspection_report_document inspection_data).

(** The statements of [create_insurance_policy], from the creation of the
    story to the call that saves it. *)
Definition insurance_policy_body (policy_data : Record) : Py (list Flowable) unit :=
  let title := Paragraph "MOTOR VEHICLE INSURANCE POLICY" (styles "Title") in
  story.append title;;
  story.append (Spacer 1 12);;
  v_policy_number ← getitem policy_data "policy_number";
  v_start_date ← getitem policy_data "start_date";
  v_end_date ← getitem policy_data "end_date";
  v_company_name ← getitem policy_data "company_name";
  v_agent_name ← getitem policy_data "agent_name";
  v_issue_date ← getitem policy_data "issue_date";
  let policy_info : list (list Value) := [
    [VStr "Policy Number:"; v_policy_number];
    [VStr "Policy Period:"; VStr (str v_start_date +:+ " to " +:+ str v_end_date)];
    [VStr "Insurance Company:"; v_company_name];
    [VStr "Agent:"; v_agent_name];
    [VStr "Issue Date:"; v_issue_date]
  ] in
  let info_table := Table policy_info [2 * inch; 4 * inch]%Q in
  let info_table := setStyle info_table (TableStyle [
    cmd "ALIGN" (0, 0) (-1, -1) [arg_s "LEFT"];
    cmd "FONTNAME" (0, 0) (0, -1) [arg_s "Helvetica-Bold"];
    cmd "FONTSIZE" (0, 0) (-1, -1) [arg_n 11];
    cmd "BOTTOMPADDING" (0, 0) (-1, -1) [arg_n 8]
  ]) in
  story.append info_table;;
  story.append (Spacer 1 20);;
  let insured_title := Paragraph "INSURED INFORMATION" (styles "Heading2") in
  story.append insured_title;;
  v_insured_name ← getitem policy_data "insured_name";
  v_insured_address ← getitem policy_data "insured_address";
  v_insured_phone ← getitem policy_data "insured_phone";
  v_insured_email ← getitem policy_data "insured_email";
  v_license_number ← getitem policy_data "license_number";
  let insured_info : list (list Value) := [
    [VStr "Name:"; v_insured_name];
    [VStr "Address:"; v_insured_address];
    [VStr "Phone:"; v_insured_phone];
    [VStr "Email:"; v_insured_email];
    [VStr "License Number:"; v_license_number]
  ] in
  let insured_table := Table insured_info [2 * inch; 4 * inch]%Q in
  let insured_table := setStyle insured_table (TableStyle [
    cmd "ALIGN" (0, 0) (-1, -1) [arg_s "LEFT"];
    cmd "FONTNAME" (0, 0) (0, -1) [arg_s "Helvetica-Bold"];
    cmd "FONTSIZE" (0, 0) (-1, -1) [arg_n 10];
    cmd "BOTTOMPADDING" (0, 0) (-1, -1) [arg_n 6]
  ]) in
  story.append insured_table;;
  story.append (Spacer 1 20);;
  let vehicle_title := Paragraph "COVERED VEHICLE" (styles "Heading2") in
  story.append vehicle_title;;
  v_vehicle_year ← getitem policy_data "vehicle_year";
  v_vehicle_make ← getitem policy_data "vehicle_make";
  v_vehicle_model ← getitem policy_data "vehicle_model";
  v_vehicle_vin ← getitem policy_data "vehicle_vin";
  v_license_plate ← getitem policy_data "license_plate";
  v_vehicle_use ← getitem policy_data "vehicle_use";
  let vehicle_info : list (list Value) := [
    [VStr "Year/Make/Model:"; VStr (str v_vehicle_year +:+ " " +:+ str v_vehicle_make +:+ " " +:+ str v_vehicle_model)];
    [VStr "VIN:"; v_vehicle_vin];
    [VStr "License Plate:"; v_license_plate];
    [VStr "Use:"; v_vehicle_use]
  ] in
  let vehicle_table := Table vehicle_info [2 * inch; 4 * inch]%Q in
  let vehicle_table := setStyle vehicle_table (TableStyle [
    cmd "ALIGN" (0, 0) (-1, -1) [arg_s "LEFT"];
    cmd "FONTNAME" (0, 0) (0, -1) [arg_s "Helvetica-Bold"];
    cmd "FONTSIZE" (0, 0) (-1, -1) [arg_n 10];
    cmd "BOTTOMPADDING" (0, 0) (-1, -1) [arg_n 6]
  ]) in
  story.append vehicle_table;;
  story.append (Spacer 1 20);;
  let coverage_title := Paragraph "COVERAGE DETAILS" (styles "Heading2") in
  story.append coverage_title;;
  let coverage_data : list (list Value) := [
    [VStr "Coverage Type"; VStr "Limit"; VStr "Deductible"; VStr "Premium"];
    [VStr "Liability - Bodily Injury"; VStr "$100,000/$300,000"; VStr "N/A"; VStr "$450.00"];
    [VStr "Liability - Property Damage"; VStr "$50,000"; VStr "N/A"; VStr "$200.00"];
    [VStr "Comprehensive"; VStr "ACV"; VStr "$500"; VStr "$180.00"];
    [VStr "Collision"; VStr "ACV"; VStr "$500"; VStr "$220.00"];
    [VStr "Uninsured Motorist"; VStr "$100,000/$300,000"; VStr "N/A"; VStr "$75.00"];
    [VStr EmptyString; VStr EmptyString; VStr "Total Annual Premium:"; VStr "$1,125.00"]
  ] in
  let coverage_table := Table coverage_data [2.5 * inch; 1.5 * inch; 1 * inch; 1 * inch]%Q in
  let coverage_table := setStyle coverage_table (TableStyle [
    cmd "BACKGROUND" (0, 0) (-1, 0) [arg_c colors.grey];
    cmd "TEXTCOLOR" (0, 0) (-1, 0) [arg_c colors.whitesmoke];
    cmd "ALIGN" (0, 0) (-1, -1) [arg_s "CENTER"];
    cmd "FONTNAME" (0, 0) (-1, 0) [arg_s "Helvetica-Bold"];
    cmd "FONTNAME" (0, -1) (-1, -1) [arg_s "Helvetica-Bold"];
    cmd "FONTSIZE" (0, 0) (-1, -1) [arg_n 9];
    cmd "BOTTOMPADDING" (0, 0) (-1, -1) [arg_n 6];
    cmd "GRID" (0, 0) (-1, -2) [arg_n 1; arg_c colors.black];
    cmd "LINEABOVE" (2, -1) (-1, -1) [arg_n 2; arg_c colors.black]
  ]) in
  story.append coverage_table;;
  let footer := Paragraph "This is a sample document for testing purposes only. All information is fictional." (ParagraphStyle "Footer" 8 colors.grey) in
  story.append (Spacer 1 30);;
  story.append footer;;
  ret tt.

Definition insurance_policy_document (policy_data : Record) : Result Document :=
  platypus_document letter (insurance_policy_body policy_data).

(** Create an insurance policy document *)
Definition create_insurance_policy (filename : string) (policy_data : Record) : IO unit :=
  save filename (insurance_policy_document policy_data).

(** The statements of [create_claim_form], from the creation of the
    story to the call that saves it. *)
Definition claim_form_body (claim_data : Record) (is_blank : bool) : Py (list Flowable) unit :=
  let title := Paragraph "MOTOR INSURANCE CLAIM FORM" (styles "Title") in
  story.append title;;
  story.append (Spacer 1 12);;
  (if negb is_blank then
      v_claim_number ← getitem claim_data "claim_number";
      story.append (Paragraph ("Claim Number: " +:+ str v_claim_number) (styles "Normal"));;
      v_report_date ← getitem claim_data "report_date";
      story.append (Paragraph ("Date of Report: " +:+ str v_report_date) (styles "Normal"));;
      ret tt
   else
      story.append (Paragraph "Claim Number: ________________________" (styles "Normal"));;
      story.append (Paragraph "Date of Report: ________________________" (styles "Normal"));;
      ret tt);;
  story.append (Spacer 1 20);;
  let section1 := Paragraph "SECTION 1: POLICY INFORMATION" (styles "Heading2") in
  story.append section1;;
  (if negb is_blank then
      v_policy_number ← getitem claim_data "policy_number";
      v_insured_name ← getitem claim_data "insured_name";
      v_phone ← getitem claim_data "phone";
      v_email ← getitem claim_data "email";
      let policy_info : list string := [
        ("Policy Number: " +:+ str v_policy_number);
        ("Insured Name: " +:+ str v_insured_name);
        ("Phone Number: " +:+ str v_phone);
        ("Email: " +:+ str v_email)
      ] in
      for_ policy_info (fun info =>
          story.append (Paragraph info (styles "Normal"));;
          ret tt);;
      ret tt
   else
      let blank_fields : list string := [
        "Policy Number: ________________________________________________";
        "Insured Name: ________________________________________________";
        "Phone Number: ________________________________________________";
        "Email: ________________________________________________"
      ] in
      for_ blank_fields (fun field =>
          story.append (Paragraph field (styles "Normal"));;
          ret tt);;
      ret tt);;
  story.append (Spacer 1 20);;
  let section2 := Paragraph "SECTION 2: INCIDENT DETAILS" (styles "Heading2") in
  story.append section2;;
  (if negb is_blank then
      v_loss_date ← getitem claim_data "loss_date";
      v_loss_time ← getitem claim_data "loss_time";
      v_location ← getitem claim_data "location";
      v_description ← getitem claim_data "description";
      let incident_info : list string := [
        ("Date of Loss: " +:+ str v_loss_date);
        ("Time of Loss: " +:+ str v_loss_time);
        ("Location: " +:+ str v_location);
        ("Description: " +:+ str v_description)
      ] in
      for_ incident_info (fun info =>
          story.append (Paragraph info (styles "Normal"));;
          ret tt);;
      ret tt
   else
      let incident_fields : list string := [
        "Date of Loss: ________________________________________________";
        "Time of Loss: ________________________________________________";
        "Location: ________________________________________________";
        "Description of Incident:";
        "________________________________________________________________";
        "________________________________________________________________";
        "________________________________________________________________"
      ] in
      for_ incident_fields (fun field =>
          story.append (Paragraph field (styles "Normal"));;
          ret tt);;
      ret tt);;
  story.append (Spacer 1 20);;
  let section3 := Paragraph "SECTION 3: VEHICLE INFORMATION" (styles "Heading2") in
  story.append section3;;
  (if negb is_blank then
      v_vehicle ← getitem claim_data "vehicle";
      v_license_plate ← getitem claim_data "license_plate";
      v_vin ← getitem claim_data "vin";
      v_estimated_damage ← getitem claim_data "estimated_damage";
      let vehicle_info : list string := [
        ("Year/Make/Model: " +:+ str v_vehicle);
        ("License Plate: " +:+ str v_license_plate);
        ("VIN: " +:+ str v_vin);
        ("Estimated Damage: $" +:+ str v_estimated_damage)
      ] in
      for_ vehicle_info (fun info =>
          story.append (Paragraph info (styles "Normal"));;
          ret tt);;
      ret tt
   else
      let vehicle_fields : list string := [
        "Year/Make/Model: ________________________________________________";
        "License Plate: ________________________________________________";
        "VIN: ________________________________________________";
        "Estimated Damage: $________________________________________________"
      ] in
      for_ vehicle_fields (fun field =>
          story.append (Paragraph field (styles "Normal"));;
          ret tt);;
      ret tt);;
  story.append (Spacer 1 30);;
  let signature_section := Paragraph "CERTIFICATION" (styles "Heading2") in
  story.append signature_section;;
  let cert_text := "I certify that the information provided above is true and accurate to the best of my knowledge." in
  story.append (Paragraph cert_text (styles "Normal"));;
  story.append (Spacer 1 20);;
  (if negb is_blank then
      v_signature ← getitem claim_data "signature";
      story.append (Paragraph ("Signature: " +:+ str v_signature) (styles "Normal"));;
      v_signature_date ← getitem claim_data "signature_date";
      story.append (Paragraph ("Date: " +:+ str v_signature_date) (styles "Normal"));;
      ret tt
   else
      story.append (Paragraph "Signature: ________________________________________________" (styles "Normal"));;
      story.append (Paragraph "Date: ________________________________________________" (styles "Normal"));;
      ret tt);;
  let footer := Paragraph "This is a sample document for testing purposes only. All information is fictional." (ParagraphStyle "Footer" 8 colors.grey) in
  story.append (Spacer 1 30);;
  story.append footer;;
  ret tt.

Definition claim_form_document (claim_data : Record) (is_blank : bool) : Result Document :=
  platypus_document letter (claim_form_body claim_data is_blank).

(** Create a claim form (blank or completed) *)
Definition create_claim_form (filename : string) (claim_data : Record) (is_blank : bool) : IO unit :=
  save filename (claim_form_document claim_data is_blank).

End Renderers.

#[global] Hint Unfold vehicle_registration_body vehicle_registration_document : renderers.
#[global] Hint Unfold drivers_license_body drivers_license_document : renderers.
#[global] Hint Unfold vehicle_inspection_report_body vehicle_inspection_report_document : renderers.
#[global] Hint Unfold insurance_policy_body insurance_policy_document : renderers.
#[global] Hint Unfold claim_form_body claim_form_document : renderers.

(** The literal sample records of [generate_motor_insurance_docs]. *)
Definition vehicle_data_1 : Record := list_to_map [
  ("doc_number", VStr "REG-2024-001234");
  ("issue_date", VStr "2024-03-15");
  ("reg_number", VStr "ABC-123-DE");
  ("make", VStr "Toyota");
  ("model", VStr "Camry");
  ("year", VStr "2022");
  ("engine_number", VStr "ENG789456123");
  ("chassis_number", VStr "CHS456789012");
  ("color", VStr "Silver");
  ("fuel_type", VStr "Gasoline");
  ("owner_name", VStr "John Michael Smith");
  ("owner_address", VStr "123 Main Street, Springfield, IL 62701");
  ("owner_id", VStr "ID123456789");
  ("owner_phone", VStr "(555) 123-4567")
].

Definition vehicle_data_2 : Record := list_to_map [
  ("doc_number", VStr "REG-2024-005678");
  ("issue_date", VStr "2024-01-22");
  ("reg_number", VStr "XYZ-789-FG");
  ("make", VStr "Honda");
  ("model", VStr "Civic");
  ("year", VStr "2023");
  ("engine_number", VStr "ENG321654987");
  ("chassis_number", VStr "CHS987654321");
  ("color", VStr "Blue");
  ("fuel_type", VStr "Gasoline");
  ("owner_name", VStr "Sarah Elizabeth Johnson");
  ("owner_address", VStr "456 Oak Avenue, Chicago, IL 60601");
  ("owner_id", VStr "ID987654321");
  ("owner_phone", VStr "(555) 987-6543")
].

Definition driver_data_1 : Record := list_to_map [
  ("license_number", VStr "DL123456789");
  ("license_class", VStr "Class C");
  ("expiry_date", VStr "2027-05-15");
  ("full_name", VStr "John Michael Smith");
  ("date_of_birth", VStr "1985-08-22");
  ("address", VStr "123 Main Street, Springfield, IL");
  ("restrictions", VList ["CORRECTIVE LENSES"])
].

Definition driver_data_2 : Record := list_to_map [
  ("license_number", VStr "DL987654321");
  ("license_class", VStr "Class C");
  ("expiry_date", VStr "2026-11-30");
  ("full_name", VStr "Sarah Elizabeth Johnson");
  ("date_of_birth", VStr "1990-03-10");
  ("address", VStr "456 Oak Avenue, Chicago, IL");
  ("restrictions", VList ["NONE"])
].

Definition inspection_data : Record := list_to_map [
  ("inspection_date", VStr "2024-08-15");
  ("inspector_name", VStr "Robert Wilson");
  ("inspector_license", VStr "INS-54321");
  ("station_name", VStr "Central Auto Inspection Station");
  ("certificate_number", VStr "CERT-2024-789");
  ("reg_number", VStr "ABC-123-DE");
  ("make", VStr "Toyota");
  ("model", VStr "Camry");
  ("year", VStr "2022");
  ("mileage", VStr "25,485");
  ("vin", VStr "1HGCM82633A123456");
  ("result", VStr "PASS")
].

Definition policy_data : Record := list_to_map [
  ("policy_number", VStr "POL-2024-567890");
  ("start_date", VStr "2024-01-01");
  ("end_date", VStr "2024-12-31");
  ("company_name", VStr "Sample Insurance Company");
  ("agent_name", VStr "Michael Thompson");
  ("issue_date", VStr "2023-12-15");
  ("insured_name", VStr "John Michael Smith");
  ("insured_address", VStr "123 Main Street, Springfield, IL 62701");
  ("insured_phone", VStr "(555) 123-4567");
  ("insured_email", VStr "john.smith@email.com");
  ("license_number", VStr "DL123456789");
  ("vehicle_year", VStr "2022");
  ("vehicle_make", VStr "Toyota");
  ("vehicle_model", VStr "Camry");
  ("vehicle_vin", VStr "1HGCM82633A123456");
  ("license_plate", VStr "ABC-123-DE");
  ("vehicle_use", VStr "Personal")
].

Definition claim_data : Record := list_to_map [
  ("claim_number", VStr "CLM-2024-001234");
  ("report_date", VStr "2024-09-10");
  ("policy_number", VStr "POL-2024-567890");
  ("insured_name", VStr "John Michael Smith");
  ("phone", VStr "(555) 123-4567");
  ("email", VStr "john.smith@email.com");
  ("loss_date", VStr "2024-09-08");
  ("loss_time", VStr "2:30 PM");
  ("location", VStr "Intersection of Main St and Oak Ave, Springfield, IL");
  ("description", VStr "Rear-end collision at traffic light. Other driver failed to stop.");
  ("vehicle", VStr "2022 Toyota Camry");
  ("license_plate", VStr "ABC-123-DE");
  ("vin", VStr "1HGCM82633A123456");
  ("estimated_damage", VStr "3,500");
  ("signature", VStr "John M. Smith");
  ("signature_date", VStr "2024-09-10")
].

(** Generate all motor insurance documents *)
Definition generate_motor_insurance_docs `{PyBuiltins} : IO unit :=
  (create_vehicle_registration "test-documents/motor-insurance/vehicle_registration_1.pdf" vehicle_data_1;;
   create_vehicle_registration "test-documents/motor-insurance/vehicle_registration_2.pdf" vehicle_data_2;;
   create_drivers_license "test-documents/motor-insurance/drivers_license_1.pdf" driver_data_1;;
   create_drivers_license "test-documents/motor-insurance/drivers_license_2.pdf" driver_data_2;;
   create_vehicle_inspection_report "test-documents/motor-insurance/vehicle_inspection_report.pdf" inspection_data;;
   create_insurance_policy "test-documents/motor-insurance/insurance_policy.pdf" policy_data;;
   create_claim_form "test-documents/motor-insurance/claim_form_completed.pdf" claim_data false;;
   create_claim_form "test-documents/motor-insurance/claim_form_blank.pdf" ∅ true)%io.

End generate_test_pdfs.
(** ** [src/generate_fire_insurance_pdfs.py] *)
Module generate_fire_insurance_pdfs.

Section Renderers.
Context `{PyBuiltins}.

(** The statements of [create_property_deed], from the creation of the
    story to the call that saves it. *)
Definition property_deed_body (property_data : Record) : Py (list Flowable) unit :=
  let title := Paragraph "PROPERTY DEED" (styles "Title") in
  story.append title;;
  story.append (Spacer 1 12);;
  v_deed_number ← getitem property_data "deed_number";
  v_recording_date ← getitem property_data "recording_date";
  v_county ← getitem property_data "county";
  let doc_info := Paragraph ("Deed Number: " +:+ str v_deed_number +:+ "<br/>Recording Date: " +:+ str v_recording_date +:+ "<br/>County: " +:+ str v_county) (styles "Normal") in
  story.append doc_info;;
  story.append (Spacer 1 20);;
  let legal_title := Paragraph "LEGAL DESCRIPTION" (styles "Heading2") in
  story.append legal_title;;
  v_legal_description ← getitem property_data "legal_description";
  v_street_address ← getitem property_data "street_address";
  v_city ← getitem property_data "city";
  v_state ← getitem property_data "state";
  v_zip_code ← getitem property_data "zip_code";
  v_parcel_id ← getitem property_data "parcel_id";
  v_lot_size ← getitem property_data "lot_size";
  let legal_text := ("
    Property legally described as: " +:+ str v_legal_description +:+ "
    
    Street Address: " +:+ str v_street_address +:+ "
    City: " +:+ str v_city +:+ ", State: " +:+ str v_state +:+ ", ZIP: " +:+ str v_zip_code +:+ "
    
    Parcel ID: " +:+ str v_parcel_id +:+ "
    Lot Size: " +:+ str v_lot_size +:+ " square feet
    ") in
  let legal_para := Paragraph legal_text (styles "Normal") in
  story.append legal_para;;
  story.append (Spacer 1 20);;
  let ownership_title := Paragraph "OWNERSHIP INFORMATION" (styles "Heading2") in
  story.append ownership_title;;
  v_current_owner ← getitem property_data "current_owner";
  v_previous_owner ← getitem property_data "previous_owner";
  v_transfer_date ← getitem property_data "transfer_date";
  v_purchase_price ← getitem property_data "purchase_price";
  s_purchase_price ← format v_purchase_price grouped;
  v_property_type ← getitem property_data "property_type";
  let ownership_data : list (list Value) := [
    [VStr "Current Owner(s):"; v_current_owner];
    [VStr "Previous Owner:"; v_previous_owner];
    [VStr "Date of Transfer:"; v_transfer_date];
    [VStr "Purchase Price:"; VStr ("$" +:+ s_purchase_price)];
    [VStr "Property Type:"; v_property_type]
  ] in
  let ownership_table := Table ownership_data [2 * inch; 4 * inch]%Q in
  let ownership_table := setStyle ownership_table (TableStyle [
    cmd "ALIGN" (0, 0) (-1, -1) [arg_s "LEFT"];
    cmd "FONTNAME" (0, 0) (0, -1) [arg_s "Helvetica-Bold"];
    cmd "FONTSIZE" (0, 0) (-1, -1) [arg_n 10];
    cmd "BOTTOMPADDING" (0, 0) (-1, -1) [arg_n 6]
  ]) in
  story.append ownership_table;;
  story.append (Spacer 1 20);;
  let encumb_title := Paragraph "ENCUMBRANCES AND LIENS" (styles "Heading2") in
  story.append encumb_title;;
  (if truthy (property_data !! "encumbrances") then
      v_encumbrances ← getitem property_data "encumbrances";
      items ← iter v_encumbrances;
      for_ items (fun encumbrance =>
          story.append (Paragraph ("• " +:+ str encumbrance) (styles "Normal"));;
          ret tt);;
      ret tt
   else
      story.append (Paragraph "None recorded as of the date of this deed." (styles "Normal"));;
      ret tt);;
  story.append (Spacer 1 30);;
  let cert_text := "
    This deed has been recorded in the official records of the County Recorder's Office.
    This document certifies the legal ownership of the above-described property.
    " in
  let cert_para := Paragraph cert_text (styles "Normal") in
  story.append cert_para;;
  let footer := Paragraph "This is a sample document for testing purposes only. All information is fictional." (ParagraphStyle "Footer" 8 colors.grey) in
  story.append (Spacer 1 30);;
  story.append footer;;
  ret tt.

Definition property_deed_document (property_data : Record) : Result Document :=
  platypus_document letter (property_deed_body property_data).

(** Create a sample property deed document *)
Definition create_property_deed (filename : string) (property_data : Record) : IO unit :=
  save filename (property_deed_document property_data).

(** The statements of [create_building_permit], from the creation of the
    canvas to the call that saves it. *)
Definition building_permit_body (permit_data : Record) : Py (list CanvasOp) unit :=
  let '(width, height) := letter in
  c.setFont "Helvetica-Bold" 16;;
  c.drawString 50 (height - 50) "CITY BUILDING DEPARTMENT";;
  c.setFont "Helvetica-Bold" 14;;
  c.drawString 50 (height - 80) "BUILDING PERMIT";;
  c.setFont "Helvetica" 10;;
  v_permit_number ← getitem permit_data "permit_number";
  c.drawString (width - 250) (height - 50) ("Permit No: " +:+ str v_permit_number);;
  v_issue_date ← getitem permit_data "issue_date";
  c.drawString (width - 250) (height - 70) ("Issue Date: " +:+ str v_issue_date);;
  v_expiration_date ← getitem permit_data "expiration_date";
  c.drawString (width - 250) (height - 90) ("Expiration: " +:+ str v_expiration_date);;
  let y_pos := (height - 140)%Q in
  c.setFont "Helvetica-Bold" 12;;
  c.drawString 50 y_pos "PROPERTY INFORMATION";;
  let y_pos := (y_pos - 30)%Q in
  c.setFont "Helvetica" 11;;
  v_property_address ← getitem permit_data "property_address";
  v_parcel_number ← getitem permit_data "parcel_number";
  v_zoning ← getitem permit_data "zoning";
  v_property_owner ← getitem permit_data "property_owner";
  v_owner_phone ← getitem permit_data "owner_phone";
  let property_details : list (Value * Value) := [
    (VStr "Property Address:", v_property_address);
    (VStr "Parcel Number:", v_parcel_number);
    (VStr "Zoning:", v_zoning);
    (VStr "Property Owner:", v_property_owner);
    (VStr "Owner Phone:", v_owner_phone)
  ] in
  y_pos ← for_acc property_details y_pos (fun y_pos '(label, value) =>
      c.drawString 50 y_pos label;;
      c.drawString 200 y_pos value;;
      let y_pos := (y_pos - 25)%Q in
      ret y_pos);
  let y_pos := (y_pos - 20)%Q in
  c.setFont "Helvetica-Bold" 12;;
  c.drawString 50 y_pos "PERMIT DETAILS";;
  let y_pos := (y_pos - 30)%Q in
  c.setFont "Helvetica" 11;;
  v_work_description ← getitem permit_data "work_description";
  v_construction_type ← getitem permit_data "construction_type";
  v_estimated_cost ← getitem permit_data "estimated_cost";
  s_estimated_cost ← format v_estimated_cost grouped;
  v_square_footage ← getitem permit_data "square_footage";
  v_stories ← getitem permit_data "stories";
  let permit_details : list (Value * Value) := [
    (VStr "Work Description:", v_work_description);
    (VStr "Construction Type:", v_construction_type);
    (VStr "Estimated Cost:", VStr ("$" +:+ s_estimated_cost));
    (VStr "Square Footage:", VStr (str v_square_footage +:+ " sq ft"));
    (VStr "Number of Stories:", v_stories)
  ] in
  y_pos ← for_acc permit_details y_pos (fun y_pos '(label, value) =>
      c.drawString 50 y_pos label;;
      c.drawString 200 y_pos value;;
      let y_pos := (y_pos - 25)%Q in
      ret y_pos);
  let y_pos := (y_pos - 20)%Q in
  c.setFont "Helvetica-Bold" 12;;
  c.drawString 50 y_pos "CONTRACTOR INFORMATION";;
  let y_pos := (y_pos - 30)%Q in
  c.setFont "Helvetica" 11;;
  v_contractor_name ← getitem permit_data "contractor_name";
  v_contractor_license ← getitem permit_data "contractor_license";
  v_contractor_phone ← getitem permit_data "contractor_phone";
  v_contractor_address ← getitem permit_data "contractor_address";
  let contractor_details : list (Value * Value) := [
    (VStr "Contractor Name:", v_contractor_name);
    (VStr "License Number:", v_contractor_license);
    (VStr "Phone:", v_contractor_phone);
    (VStr "Address:", v_contractor_address)
  ] in
  y_pos ← for_acc contractor_details y_pos (fun y_pos '(label, value) =>
      c.drawString 50 y_pos label;;
      c.drawString 200 y_pos value;;
      let y_pos := (y_pos - 25)%Q in
      ret y_pos);
  let y_pos := (y_pos - 30)%Q in
  c.setFont "Helvetica-Bold" 12;;
  c.drawString 50 y_pos "APPROVALS REQUIRED";;
  let y_pos := (y_pos - 25)%Q in
  c.setFont "Helvetica" 10;;
  let approvals := default (VList []) (permit_data !! "approvals") in
  items ← iter approvals;
  y_pos ← for_acc items y_pos (fun y_pos approval =>
      c.drawString 70 y_pos ("☑ " +:+ str approval);;
      let y_pos := (y_pos - 20)%Q in
      ret y_pos);
  c.setFont "Helvetica" 8;;
  c.drawString 50 80 "This permit becomes void if work is not commenced within 180 days of issuance.";;
  c.drawString 50 65 "All work must be performed in accordance with approved plans and specifications.";;
  c.drawString 50 50 "This is a sample document for testing purposes only";;
  c.drawString 50 35 "All information contained herein is fictional";;
  ret tt.

Definition building_permit_document (permit_data : Record) : Result Document :=
  canvas_document letter (building_permit_body permit_data).

(** Create a building permit document *)
Definition create_building_permit (filename : string) (permit_data : Record) : IO unit :=
  save filename (building_permit_document permit_data).

(** The statements of [create_fire_safety_certificate], from the creation of the
    story to the call that saves it. *)
Definition fire_safety_certificate_body (safety_data : Record) : Py (list Flowable) unit :=
  let title := Paragraph "FIRE SAFETY CERTIFICATE" (styles "Title") in
  story.append title;;
  story.append (Spacer 1 12);;
  v_certificate_number ← getitem safety_data "certificate_number";
  v_issue_date ← getitem safety_data "issue_date";
  v_expiration_date ← getitem safety_data "expiration_date";
  v_issuing_authority ← getitem safety_data "issuing_authority";
  v_inspector_name ← getitem safety_data "inspector_name";
  let cert_info : list (list Value) := [
    [VStr "Certificate Number:"; v_certificate_number];
    [VStr "Issue Date:"; v_issue_date];
    [VStr "Expiration Date:"; v_expiration_date];
    [VStr "Issuing Authority:"; v_issuing_authority];
    [VStr "Inspector:"; v_inspector_name]
  ] in
  let info_table := Table cert_info [2 * inch; 4 * inch]%Q in
  let info_table := setStyle info_table (TableStyle [
    cmd "ALIGN" (0, 0) (-1, -1) [arg_s "LEFT"];
    cmd "FONTNAME" (0, 0) (0, -1) [arg_s "Helvetica-Bold"];
    cmd "FONTSIZE" (0, 0) (-1, -1) [arg_n 11];
    cmd "BOTTOMPADDING" (0, 0) (-1, -1) [arg_n 8]
  ]) in
  story.append info_table;;
  story.append (Spacer 1 20);;
  let property_title := Paragraph "PROPERTY INFORMATION" (styles "Heading2") in
  story.append property_title;;
  v_property_address ← getitem safety_data "property_address";
  v_building_type ← getitem safety_data "building_type";
  v_occupancy_type ← getitem safety_data "occupancy_type";
  v_floor_area ← getitem safety_data "floor_area";
  v_number_of_floors ← getitem safety_data "number_of_floors";
  let property_info : list (list Value) := [
    [VStr "Property Address:"; v_property_address];
    [VStr "Building Type:"; v_building_type];
    [VStr "Occupancy Type:"; v_occupancy_type];
    [VStr "Total Floor Area:"; VStr (str v_floor_area +:+ " sq ft")];
    [VStr "Number of Floors:"; v_number_of_floors]
  ] in
  let property_table := Table property_info [2 * inch; 4 * inch]%Q in
  let property_table := setStyle property_table (TableStyle [
    cmd "ALIGN" (0, 0) (-1, -1) [arg_s "LEFT"];
    cmd "FONTNAME" (0, 0) (0, -1) [arg_s "Helvetica-Bold"];
    cmd "FONTSIZE" (0, 0) (-1, -1) [arg_n 10];
    cmd "BOTTOMPADDING" (0, 0) (-1, -1) [arg_n 6]
  ]) in
  story.append property_table;;
  story.append (Spacer 1 20);;
  let systems_title := Paragraph "FIRE SAFETY SYSTEMS INSPECTION" (styles "Heading2") in
  story.append systems_title;;
  v_alarm_test_date ← getitem safety_data "alarm_test_date";
  v_sprinkler_test_date ← getitem safety_data "sprinkler_test_date";
  v_exit_test_date ← getitem safety_data "exit_test_date";
  v_extinguisher_test_date ← getitem safety_data "extinguisher_test_date";
  v_lighting_test_date ← getitem safety_data "lighting_test_date";
  v_door_test_date ← getitem safety_data "door_test_date";
  let systems_data : list (list Value) := [
    [VStr "System/Component"; VStr "Status"; VStr "Last Tested"; VStr "Notes"];
    [VStr "Fire Alarm System"; VStr "PASS"; v_alarm_test_date; VStr "All zones operational"];
    [VStr "Sprinkler System"; VStr "PASS"; v_sprinkler_test_date; VStr "Adequate pressure"];
    [VStr "Emergency Exits"; VStr "PASS"; v_exit_test_date; VStr "Clear and marked"];
    [VStr "Fire Extinguishers"; VStr "PASS"; v_extinguisher_test_date; VStr "Properly charged"];
    [VStr "Emergency Lighting"; VStr "PASS"; v_lighting_test_date; VStr "Battery backup OK"];
    [VStr "Fire Doors"; VStr "PASS"; v_door_test_date; VStr "Self-closing mechanism OK"]
  ] in
  let systems_table := Table systems_data [2 * inch; 0.8 * inch; 1.2 * inch; 2 * inch]%Q in
  let systems_table := setStyle systems_table (TableStyle [
    cmd "BACKGROUND" (0, 0) (-1, 0) [arg_c colors.grey];
    cmd "TEXTCOLOR" (0, 0) (-1, 0) [arg_c colors.whitesmoke];
    cmd "ALIGN" (0, 0) (-1, -1) [arg_s "CENTER"];
    cmd "FONTNAME" (0, 0) (-1, 0) [arg_s "Helvetica-Bold"];
    cmd "FONTSIZE" (0, 0) (-1, -1) [arg_n 9];
    cmd "BOTTOMPADDING" (0, 0) (-1, -1) [arg_n 6];
    cmd "GRID" (0, 0) (-1, -1) [arg_n 1; arg_c colors.black]
  ]) in
  story.append systems_table;;
  story.append (Spacer 1 20);;
  let cert_title := Paragraph "CERTIFICATION" (styles "Heading2") in
  story.append cert_title;;
  v_inspection_date ← getitem safety_data "inspection_date";
  v_expiration_date_2 ← getitem safety_data "expiration_date";
  let cert_text := ("
    This certifies that the above-described property has been inspected and found to be in 
    compliance with applicable fire safety codes and regulations as of " +:+ str v_inspection_date +:+ ".
    
    This certificate is valid until " +:+ str v_expiration_date_2 +:+ " unless revoked or suspended.
    ") in
  let cert_para := Paragraph cert_text (styles "Normal") in
  story.append cert_para;;
  story.append (Spacer 1 20);;
  v_marshal_signature ← getitem safety_data "marshal_signature";
  v_signature_date ← getitem safety_data "signature_date";
  v_badge_number ← getitem safety_data "badge_number";
  let signature_info : list (list Value) := [
    [VStr "Fire Marshal Signature:"; v_marshal_signature];
    [VStr "Date Signed:"; v_signature_date];
    [VStr "Badge Number:"; v_badge_number]
  ] in
  let signature_table := Table signature_info [2 * inch; 4 * inch]%Q in
  let signature_table := setStyle signature_table (TableStyle [
    cmd "ALIGN" (0, 0) (-1, -1) [arg_s "LEFT"];
    cmd "FONTNAME" (0, 0) (0, -1) [arg_s "Helvetica-Bold"];
    cmd "FONTSIZE" (0, 0) (-1, -1) [arg_n 10];
    cmd "BOTTOMPADDING" (0, 0) (-1, -1) [arg_n 6]
  ]) in
  story.append signature_table;;
  let footer := Paragraph "This is a sample document for testing purposes only. All information is fictional." (ParagraphStyle "Footer" 8 colors.grey) in
  story.append (Spacer 1 30);;
  story.append footer;;
  ret tt.

Definition fire_safety_certificate_document (safety_data : Record) : Result Document :=
  platypus_document letter (fire_safety_certificate_body safety_data).

(** Create a fire safety certificate *)
Definition create_fire_safety_certificate (filename : string) (safety_data : Record) : IO unit :=
  save filename (fire_safety_certificate_document safety_data).

(** The statements of [create_property_valuation], from the creation of the
    story to the call that saves it. *)
Definition property_valuation_body (valuation_data : Record) : Py (list Flowable) unit :=
  let title := Paragraph "PROPERTY VALUATION REPORT" (styles "Title") in
  story.append title;;
  story.append (Spacer 1 12);;
  v_report_number ← getitem valuation_data "report_number";
  v_valuation_date ← getitem valuation_data "valuation_date";
  v_report_date ← getitem valuation_data "report_date";
  v_appraiser_name ← getitem valuation_data "appraiser_name";
  v_appraiser_license ← getitem valuation_data "appraiser_license";
  v_purpose ← getitem valuation_data "purpose";
  let report_info : list (list Value) := [
    [VStr "Report Number:"; v_report_number];
    [VStr "Valuation Date:"; v_valuation_date];
    [VStr "Report Date:"; v_report_date];
    [VStr "Appraiser:"; v_appraiser_name];
    [VStr "License Number:"; v_appraiser_license];
    [VStr "Purpose:"; v_purpose]
  ] in
  let info_table := Table report_info [2 * inch; 4 * inch]%Q in
  let info_table := setStyle info_table (TableStyle [
    cmd "ALIGN" (0, 0) (-1, -1) [arg_s "LEFT"];
    cmd "FONTNAME" (0, 0) (0, -1) [arg_s "Helvetica-Bold"];
    cmd "FONTSIZE" (0, 0) (-1, -1) [arg_n 11];
    cmd "BOTTOMPADDING" (0, 0) (-1, -1) [arg_n 8]
  ]) in
  story.append info_table;;
  story.append (Spacer 1 20);;
  let property_title := Paragraph "PROPERTY DESCRIPTION" (styles "Heading2") in
  story.append property_title;;
  v_property_address ← getitem valuation_data "property_address";
  v_legal_description ← getitem valuation_data "legal_description";
  v_property_type ← getitem valuation_data "property_type";
  v_year_built ← getitem valuation_data "year_built";
  v_living_area ← getitem valuation_data "living_area";
  s_living_area ← format v_living_area grouped;
  v_lot_size ← getitem valuation_data "lot_size";
  s_lot_size ← format v_lot_size grouped;
  v_bedrooms ← getitem valuation_data "bedrooms";
  v_bathrooms ← getitem valuation_data "bathrooms";
  let property_info : list (list Value) := [
    [VStr "Property Address:"; v_property_address];
    [VStr "Legal Description:"; v_legal_description];
    [VStr "Property Type:"; v_property_type];
    [VStr "Year Built:"; v_year_built];
    [VStr "Total Living Area:"; VStr (s_living_area +:+ " sq ft")];
    [VStr "Lot Size:"; VStr (s_lot_size +:+ " sq ft")];
    [VStr "Bedrooms:"; v_bedrooms];
    [VStr "Bathrooms:"; v_bathrooms]
  ] in
  let property_table := Table property_info [2 * inch; 4 * inch]%Q in
  let property_table := setStyle property_table (TableStyle [
    cmd "ALIGN" (0, 0) (-1, -1) [arg_s "LEFT"];
    cmd "FONTNAME" (0, 0) (0, -1) [arg_s "Helvetica-Bold"];
    cmd "FONTSIZE" (0, 0) (-1, -1) [arg_n 10];
    cmd "BOTTOMPADDING" (0, 0) (-1, -1) [arg_n 6]
  ]) in
  story.append property_table;;
  story.append (Spacer 1 20);;
  let approaches_title := Paragraph "VALUATION APPROACHES" (styles "Heading2") in
  story.append approaches_title;;
  v_sales_comparison ← getitem valuation_data "sales_comparison";
  s_sales_comparison ← format v_sales_comparison grouped;
  v_sales_comparison_2 ← getitem valuation_data "sales_comparison";
  p_sales_comparison ← mul v_sales_comparison_2 (float_literal 6 1);
  n_sales_comparison ← int_ p_sales_comparison;
  s_sales_comparison_2 ← format (VInt n_sales_comparison) grouped;
  v_cost_approach ← getitem valuation_data "cost_approach";
  s_cost_approach ← format v_cost_approach grouped;
  v_cost_approach_2 ← getitem valuation_data "cost_approach";
  p_cost_approach ← mul v_cost_approach_2 (float_literal 25 2);
  n_cost_approach ← int_ p_cost_approach;
  s_cost_approach_2 ← format (VInt n_cost_approach) grouped;
  v_income_approach ← getitem valuation_data "income_approach";
  s_income_approach ← format v_income_approach grouped;
  v_income_approach_2 ← getitem valuation_data "income_approach";
  p_income_approach ← mul v_income_approach_2 (float_literal 15 2);
  n_income_approach ← int_ p_income_approach;
  s_income_approach_2 ← format (VInt n_income_approach) grouped;
  v_final_value ← getitem valuation_data "final_value";
  s_final_value ← format v_final_value grouped;
  let approaches_data : list (list Value) := [
    [VStr "Approach"; VStr "Value Estimate"; VStr "Weight"; VStr "Weighted Value"];
    [VStr "Sales Comparison"; VStr ("$" +:+ s_sales_comparison); VStr "60%"; VStr ("$" +:+ s_sales_comparison_2)];
    [VStr "Cost Approach"; VStr ("$" +:+ s_cost_approach); VStr "25%"; VStr ("$" +:+ s_cost_approach_2)];
    [VStr "Income Approach"; VStr ("$" +:+ s_income_approach); VStr "15%"; VStr ("$" +:+ s_income_approach_2)];
    [VStr EmptyString; VStr EmptyString; VStr "Final Value:"; VStr ("$" +:+ s_final_value)]
  ] in
  let approaches_table := Table approaches_data [2 * inch; 1.5 * inch; 1 * inch; 1.5 * inch]%Q in
  let approaches_table := setStyle approaches_table (TableStyle [
    cmd "BACKGROUND" (0, 0) (-1, 0) [arg_c colors.grey];
    cmd "TEXTCOLOR" (0, 0) (-1, 0) [arg_c colors.whitesmoke];
    cmd "ALIGN" (0, 0) (-1, -1) [arg_s "CENTER"];
    cmd "FONTNAME" (0, 0) (-1, 0) [arg_s "Helvetica-Bold"];
    cmd "FONTNAME" (0, -1) (-1, -1) [arg_s "Helvetica-Bold"];
    cmd "FONTSIZE" (0, 0) (-1, -1) [arg_n 9];
    cmd "BOTTOMPADDING" (0, 0) (-1, -1) [arg_n 6];
    cmd "GRID" (0, 0) (-1, -2) [arg_n 1; arg_c colors.black];
    cmd "LINEABOVE" (2, -1) (-1, -1) [arg_n 2; arg_c colors.black]
  ]) in
  story.append approaches_table;;
  story.append (Spacer 1 20);;
  let market_title := Paragraph "MARKET ANALYSIS" (styles "Heading2") in
  story.append market_title;;
  v_market_conditions ← getitem valuation_data "market_conditions";
  v_low_comp ← getitem valuation_data "low_comp";
  s_low_comp ← format v_low_comp grouped;
  v_high_comp ← getitem valuation_data "high_comp";
  s_high_comp ← format v_high_comp grouped;
  v_market_trend ← getitem valuation_data "market_trend";
  v_market_activity ← getitem valuation_data "market_activity";
  v_days_on_market ← getitem valuation_data "days_on_market";
  let market_text := ("
    The subject property is located in a " +:+ str v_market_conditions +:+ " market area. 
    Recent sales in the neighborhood range from $" +:+ s_low_comp +:+ " to $" +:+ s_high_comp +:+ ".
    
    Market trends indicate " +:+ str v_market_trend +:+ " property values in this area.
    The local real estate market has been " +:+ str v_market_activity +:+ " with an average
    days on market of " +:+ str v_days_on_market +:+ " days.
    ") in
  let market_para := Paragraph market_text (styles "Normal") in
  story.append market_para;;
  story.append (Spacer 1 20);;
  let cert_title := Paragraph "APPRAISER CERTIFICATION" (styles "Heading2") in
  story.append cert_title;;
  let cert_text := "
    I certify that, to the best of my knowledge and belief, the statements and information in this 
    report are true and correct. I have no present or prospective interest in the property that is 
    the subject of this report.
    
    This appraisal was prepared in accordance with the Uniform Standards of Professional Appraisal Practice.
    " in
  let cert_para := Paragraph cert_text (styles "Normal") in
  story.append cert_para;;
  story.append (Spacer 1 20);;
  v_appraiser_signature ← getitem valuation_data "appraiser_signature";
  v_signature_date ← getitem valuation_data "signature_date";
  let signature_text := ("Appraiser Signature: " +:+ str v_appraiser_signature +:+ "<br/>Date: " +:+ str v_signature_date) in
  let signature_para := Paragraph signature_text (styles "Normal") in
  story.append signature_para;;
  let footer := Paragraph "This is a sample document for testing purposes only. All information is fictional." (ParagraphStyle "Footer" 8 colors.grey) in
  story.append (Spacer 1 30);;
  story.append footer;;
  ret tt.

Definition property_valuation_document (valuation_data : Record) : Result Document :=
  platypus_document letter (property_valuation_body valuation_data).

(** Create a property valuation report *)
Definition create_property_valuation (filename : string) (valuation_data : Record) : IO unit :=
  save filename (property_valuation_document valuation_data).

(** The statements of [create_construction_specifications], from the creation of the
    story to the call that saves it. *)
Definition construction_specifications_body (construction_data : Record) : Py (list Flowable) unit :=
  let title := Paragraph "CONSTRUCTION SPECIFICATIONS" (styles "Title") in
  story.append title;;
  story.append (Spacer 1 12);;
  v_project_name ← getitem construction_data "project_name";
  v_project_address ← getitem construction_data "project_address";
  v_architect ← getitem construction_data "architect";
  v_contractor ← getitem construction_data "contractor";
  v_project_manager ← getitem construction_data "project_manager";
  v_spec_date ← getitem construction_data "spec_date";
  let project_info : list (list Value) := [
    [VStr "Project Name:"; v_project_name];
    [VStr "Project Address:"; v_project_address];
    [VStr "Architect:"; v_architect];
    [VStr "General Contractor:"; v_contractor];
    [VStr "Project Manager:"; v_project_manager];
    [VStr "Specification Date:"; v_spec_date]
  ] in
  let info_table := Table project_info [2 * inch; 4 * inch]%Q in
  let info_table := setStyle info_table (TableStyle [
    cmd "ALIGN" (0, 0) (-1, -1) [arg_s "LEFT"];
    cmd "FONTNAME" (0, 0) (0, -1) [arg_s "Helvetica-Bold"];
    cmd "FONTSIZE" (0, 0) (-1, -1) [arg_n 11];
    cmd "BOTTOMPADDING" (0, 0) (-1, -1) [arg_n 8]
  ]) in
  story.append info_table;;
  story.append (Spacer 1 20);;
  let foundation_title := Paragraph "SECTION 1: FOUNDATION" (styles "Heading2") in
  story.append foundation_title;;
  let foundation_specs : list (list Value) := [
    [VStr "Component"; VStr "Specification"; VStr "Standard/Code"];
    [VStr "Excavation"; VStr "Machine excavation to 8' depth"; VStr "ASTM D2488"];
    [VStr "Footings"; VStr ("24" +:+ dq +:+ " x 12" +:+ dq +:+ " reinforced concrete"); VStr "ACI 318"];
    [VStr "Foundation Walls"; VStr ("8" +:+ dq +:+ " concrete block, Type N mortar"); VStr "ASTM C90"];
    [VStr "Waterproofing"; VStr "Membrane waterproofing system"; VStr "ASTM D6164"];
    [VStr "Drainage"; VStr ("4" +:+ dq +:+ " perforated drain tile"); VStr "ASTM D3034"]
  ] in
  let foundation_table := Table foundation_specs [1.5 * inch; 2.5 * inch; 2 * inch]%Q in
  let foundation_table := setStyle foundation_table (TableStyle [
    cmd "BACKGROUND" (0, 0) (-1, 0) [arg_c colors.grey];
    cmd "TEXTCOLOR" (0, 0) (-1, 0) [arg_c colors.whitesmoke];
    cmd "ALIGN" (0, 0) (-1, -1) [arg_s "LEFT"];
    cmd "FONTNAME" (0, 0) (-1, 0) [arg_s "Helvetica-Bold"];
    cmd "FONTSIZE" (0, 0) (-1, -1) [arg_n 9];
    cmd "BOTTOMPADDING" (0, 0) (-1, -1) [arg_n 6];
    cmd "GRID" (0, 0) (-1, -1) [arg_n 1; arg_c colors.black]
  ]) in
  story.append foundation_table;;
  story.append (Spacer 1 20);;
  let framing_title := Paragraph "SECTION 2: FRAMING" (styles "Heading2") in
  story.append framing_title;;
  let framing_specs : list (list Value) := [
    [VStr "Component"; VStr "Specification"; VStr "Standard/Code"];
    [VStr "Floor Joists"; VStr ("2x10 SPF @ 16" +:+ dq +:+ " O.C."); VStr "IRC 502"];
    [VStr "Wall Studs"; VStr ("2x6 SPF @ 16" +:+ dq +:+ " O.C."); VStr "IRC 602"];
    [VStr "Roof Rafters"; VStr ("2x8 SPF @ 16" +:+ dq +:+ " O.C."); VStr "IRC 802"];
    [VStr "Sheathing"; VStr ("7/16" +:+ dq +:+ " OSB, APA rated"); VStr "APA PRP-108"];
    [VStr "Hardware"; VStr "Simpson Strong-Tie connectors"; VStr "ICC-ES reports"]
  ] in
  let framing_table := Table framing_specs [1.5 * inch; 2.5 * inch; 2 * inch]%Q in
  let framing_table := setStyle framing_table (TableStyle [
    cmd "BACKGROUND" (0, 0) (-1, 0) [arg_c colors.grey];
    cmd "TEXTCOLOR" (0, 0) (-1, 0) [arg_c colors.whitesmoke];
    cmd "ALIGN" (0, 0) (-1, -1) [arg_s "LEFT"];
    cmd "FONTNAME" (0, 0) (-1, 0) [arg_s "Helvetica-Bold"];
    cmd "FONTSIZE" (0, 0) (-1, -1) [arg_n 9];
    cmd "BOTTOMPADDING" (0, 0) (-1, -1) [arg_n 6];
    cmd "GRID" (0, 0) (-1, -1) [arg_n 1; arg_c colors.black]
  ]) in
  story.append framing_table;;
  story.append (Spacer 1 20);;
  let fire_safety_title := Paragraph "SECTION 3: FIRE SAFETY SYSTEMS" (styles "Heading2") in
  story.append fire_safety_title;;
  let fire_specs : list (list Value) := [
    [VStr "System"; VStr "Specification"; VStr "Standard/Code"];
    [VStr "Fire Alarm"; VStr "Addressable system, 24V DC"; VStr "NFPA 72"];
    [VStr "Sprinkler System"; VStr "Wet pipe system, standard response"; VStr "NFPA 13"];
    [VStr "Fire Extinguishers"; VStr "2A:10B:C rated, wall mounted"; VStr "NFPA 10"];
    [VStr "Emergency Exits"; VStr "Illuminated exit signs, LED"; VStr "NFPA 101"];
    [VStr "Fire Doors"; VStr "90-minute rated, self-closing"; VStr "NFPA 80"]
  ] in
  let fire_table := Table fire_specs [1.5 * inch; 2.5 * inch; 2 * inch]%Q in
  let fire_table := setStyle fire_table (TableStyle [
    cmd "BACKGROUND" (0, 0) (-1, 0) [arg_c colors.grey];
    cmd "TEXTCOLOR" (0, 0) (-1, 0) [arg_c colors.whitesmoke];
    cmd "ALIGN" (0, 0) (-1, -1) [arg_s "LEFT"];
    cmd "FONTNAME" (0, 0) (-1, 0) [arg_s "Helvetica-Bold"];
    cmd "FONTSIZE" (0, 0) (-1, -1) [arg_n 9];
    cmd "BOTTOMPADDING" (0, 0) (-1, -1) [arg_n 6];
    cmd "GRID" (0, 0) (-1, -1) [arg_n 1; arg_c colors.black]
  ]) in
  story.append fire_table;;
  story.append (Spacer 1 20);;
  let quality_title := Paragraph "QUALITY CONTROL" (styles "Heading2") in
  story.append quality_title;;
  let quality_text := "
    All materials and workmanship shall conform to applicable building codes and standards.
    Regular inspections will be conducted at key milestones:
    
    • Foundation inspection before concrete pour
    • Framing inspection before insulation
    • Electrical rough-in inspection
    • Plumbing rough-in inspection
    • Fire safety systems testing and inspection
    • Final building inspection
    
    All work must be performed by licensed contractors and inspected by certified inspectors.
    " in
  let quality_para := Paragraph quality_text (styles "Normal") in
  story.append quality_para;;
  let footer := Paragraph "This is a sample document for testing purposes only. All information is fictional." (ParagraphStyle "Footer" 8 colors.grey) in
  story.append (Spacer 1 30);;
  story.append footer;;
  ret tt.

Definition construction_specifications_document (construction_data : Record) : Result Document :=
  platypus_document letter (construction_specifications_body construction_data).

(** Create construction specifications document *)
Definition create_construction_specifications (filename : string) (construction_data : Record) : IO unit :=
  save filename (construction_specifications_document construction_data).

End Renderers.

#[global] Hint Unfold property_deed_body property_deed_document : renderers.
#[global] Hint Unfold building_permit_body building_permit_document : renderers.
#[global] Hint Unfold fire_safety_certificate_body fire_safety_certificate_document : renderers.
#[global] Hint Unfold property_valuation_body property_valuation_document : renderers.
#[global] Hint Unfold construction_specifications_body construction_specifications_document : renderers.

(** The literal sample records of [generate_fire_insurance_docs]. *)
Definition property_data : Record := list_to_map [
  ("deed_number", VStr "DEED-2024-789456");
  ("recording_date", VStr "2024-02-15");
  ("county", VStr "Cook County, Illinois");
  ("legal_description", VStr "Lot 15, Block 3, Meadowbrook Subdivision, as recorded in Plat Book 45, Page 123");
  ("street_address", VStr "789 Maple Drive");
  ("city", VStr "Springfield");
  ("state", VStr "Illinois");
  ("zip_code", VStr "62704");
  ("parcel_id", VStr "PIN-456-789-012");
  ("lot_size", VInt 8500);
  ("current_owner", VStr "Robert and Linda Wilson");
  ("previous_owner", VStr "Thomas Anderson");
  ("transfer_date", VStr "2024-02-10");
  ("purchase_price", VInt 485000);
  ("property_type", VStr "Single Family Residence");
  ("encumbrances", VList ["Mortgage to First National Bank - $350,000";
      "Utility easement - 10 ft rear yard"])
].

Definition permit_data : Record := list_to_map [
  ("permit_number", VStr "BP-2024-5678");
  ("issue_date", VStr "2024-06-01");
  ("expiration_date", VStr "2025-06-01");
  ("property_address", VStr "789 Maple Drive, Springfield, IL 62704");
  ("parcel_number", VStr "PIN-456-789-012");
  ("zoning", VStr "R-1 Single Family Residential");
  ("property_owner", VStr "Robert and Linda Wilson");
  ("owner_phone", VStr "(555) 234-5678");
  ("work_description", VStr "Two-story addition with family room and master bedroom");
  ("construction_type", VStr "Type V - Wood Frame");
  ("estimated_cost", VInt 85000);
  ("square_footage", VInt 750);
  ("stories", VStr "2");
  ("contractor_name", VStr "Superior Construction LLC");
  ("contractor_license", VStr "CON-789456");
  ("contractor_phone", VStr "(555) 345-6789");
  ("contractor_address", VStr "123 Builder Lane, Springfield, IL");
  ("approvals", VList ["Building Department Review";
      "Fire Department Review";
      "Electrical Permit";
      "Plumbing Permit";
      "HVAC Permit"])
].

Definition safety_data : Record := list_to_map [
  ("certificate_number", VStr "FSC-2024-3456");
  ("issue_date", VStr "2024-07-20");
  ("expiration_date", VStr "2025-07-20");
  ("issuing_authority", VStr "Springfield Fire Department");
  ("inspector_name", VStr "Captain James Rodriguez");
  ("property_address", VStr "789 Maple Drive, Springfield, IL 62704");
  ("building_type", VStr "Single Family Residence");
  ("occupancy_type", VStr "Residential - Single Family");
  ("floor_area", VInt 2850);
  ("number_of_floors", VStr "2");
  ("inspection_date", VStr "2024-07-18");
  ("alarm_test_date", VStr "2024-07-18");
  ("sprinkler_test_date", VStr "N/A - Not Required");
  ("exit_test_date", VStr "2024-07-18");
  ("extinguisher_test_date", VStr "2024-07-18");
  ("lighting_test_date", VStr "2024-07-18");
  ("door_test_date", VStr "2024-07-18");
  ("marshal_signature", VStr "Captain J. Rodriguez");
  ("signature_date", VStr "2024-07-20");
  ("badge_number", VStr "FD-4567")
].

Definition valuation_data : Record := list_to_map [
  ("report_number", VStr "APR-2024-7890");
  ("valuation_date", VStr "2024-08-01");
  ("report_date", VStr "2024-08-05");
  ("appraiser_name", VStr "Michelle Thompson, MAI");
  ("appraiser_license", VStr "CRA-5678");
  ("purpose", VStr "Insurance Coverage Determination");
  ("property_address", VStr "789 Maple Drive, Springfield, IL 62704");
  ("legal_description", VStr "Lot 15, Block 3, Meadowbrook Subdivision");
  ("property_type", VStr "Single Family Residence");
  ("year_built", VStr "2018");
  ("living_area", VInt 2850);
  ("lot_size", VInt 8500);
  ("bedrooms", VStr "4");
  ("bathrooms", VStr "3.5");
  ("sales_comparison", VInt 495000);
  ("cost_approach", VInt 485000);
  ("income_approach", VInt 490000);
  ("final_value", VInt 492000);
  ("market_conditions", VStr "stable");
  ("low_comp", VInt 450000);
  ("high_comp", VInt 525000);
  ("market_trend", VStr "slightly increasing");
  ("market_activity", VStr "moderate");
  ("days_on_market", VInt 35);
  ("appraiser_signature", VStr "Michelle Thompson, MAI");
  ("signature_date", VStr "2024-08-05")
].

Definition construction_data : Record := list_to_map [
  ("project_name", VStr "Wilson Residence Addition");
  ("project_address", VStr "789 Maple Drive, Springfield, IL 62704");
  ("architect", VStr "Johnson Architecture & Design");
  ("contractor", VStr "Superior Construction LLC");
  ("project_manager", VStr "David Martinez");
  ("spec_date", VStr "2024-05-15")
].

(** Generate all fire insurance documents *)
Definition generate_fire_insurance_docs `{PyBuiltins} : IO unit :=
  (create_property_deed "test-documents/fire-insurance/property_deed.pdf" property_data;;
   create_building_permit "test-documents/fire-insurance/building_permit.pdf" permit_data;;
   create_fire_safety_certificate "test-documents/fire-insurance/fire_safety_certificate.pdf" safety_data;;
   create_property_valuation "test-documents/fire-insurance/property_valuation_report.pdf" valuation_data;;
   create_construction_specifications "test-documents/fire-insurance/construction_specifications.pdf" construction_data)%io.

End generate_fire_insurance_pdfs.
(** ** [src/generate_liability_insurance_pdfs.py] *)
Module generate_liability_insurance_pdfs.

Section Renderers.
Context `{PyBuiltins}.

(** The statements of [create_business_registration], from the creation of the
    canvas to the call that saves it. *)
Definition business_registration_body (business_data : Record) : Py (list CanvasOp) unit :=
  let '(width, height) := letter in
  c.setFont "Helvetica-Bold" 16;;
  c.drawString 50 (height - 50) "STATE DEPARTMENT OF COMMERCE";;
  c.setFont "Helvetica-Bold" 14;;
  c.drawString 50 (height - 80) "CERTIFICATE OF BUSINESS REGISTRATION";;
  c.setFont "Helvetica" 10;;
  v_registration_number ← getitem business_data "registration_number";
  c.drawString (width - 250) (height - 50) ("Registration No: " +:+ str v_registration_number);;
  v_issue_date ← getitem business_data "issue_date";
  c.drawString (width - 250) (height - 70) ("Issue Date: " +:+ str v_issue_date);;
  v_expiration_date ← getitem business_data "expiration_date";
  c.drawString (width - 250) (height - 90) ("Expiration: " +:+ str v_expiration_date);;
  let y_pos := (height - 140)%Q in
  c.setFont "Helvetica-Bold" 12;;
  c.drawString 50 y_pos "BUSINESS INFORMATION";;
  let y_pos := (y_pos - 30)%Q in
  c.setFont "Helvetica" 11;;
  v_business_name ← getitem business_data "business_name";
  v_dba_name ← getitem business_data "dba_name";
  v_business_type ← getitem business_data "business_type";
  v_industry ← getitem business_data "industry";
  v_federal_ein ← getitem business_data "federal_ein";
  v_state_tax_id ← getitem business_data "state_tax_id";
  let business_details : list (Value * Value) := [
    (VStr "Business Name:", v_business_name);
    (VStr "DBA Name:", v_dba_name);
    (VStr "Business Type:", v_business_type);
    (VStr "Industry:", v_industry);
    (VStr "Federal EIN:", v_federal_ein);
    (VStr "State Tax ID:", v_state_tax_id)
  ] in
  y_pos ← for_acc business_details y_pos (fun y_pos '(label, value) =>
      c.drawString 50 y_pos label;;
      c.drawString 200 y_pos value;;
      let y_pos := (y_pos - 25)%Q in
      ret y_pos);
  let y_pos := (y_pos - 20)%Q in
  c.setFont "Helvetica-Bold" 12;;
  c.drawString 50 y_pos "BUSINESS ADDRESS";;
  let y_pos := (y_pos - 30)%Q in
  c.setFont "Helvetica" 11;;
  v_street_address ← getitem business_data "street_address";
  v_city ← getitem business_data "city";
  v_state ← getitem business_data "state";
  v_zip_code ← getitem business_data "zip_code";
  v_phone ← getitem business_data "phone";
  v_email ← getitem business_data "email";
  let address_details : list (Value * Value) := [
    (VStr "Street Address:", v_street_address);
    (VStr "City, State, ZIP:", VStr (str v_city +:+ ", " +:+ str v_state +:+ " " +:+ str v_zip_code));
    (VStr "Phone:", v_phone);
    (VStr "Email:", v_email)
  ] in
  y_pos ← for_acc address_details y_pos (fun y_pos '(label, value) =>
      c.drawString 50 y_pos label;;
      c.drawString 200 y_pos value;;
      let y_pos := (y_pos - 25)%Q in
      ret y_pos);
  let y_pos := (y_pos - 20)%Q in
  c.setFont "Helvetica-Bold" 12;;
  c.drawString 50 y_pos "OWNER/OFFICER INFORMATION";;
  let y_pos := (y_pos - 30)%Q in
  c.setFont "Helvetica" 11;;
  v_principal_owner ← getitem business_data "principal_owner";
  v_owner_title ← getitem business_data "owner_title";
  v_ownership_percentage ← getitem business_data "ownership_percentage";
  v_owner_address ← getitem business_data "owner_address";
  let owner_details : list (Value * Value) := [
    (VStr "Principal Owner:", v_principal_owner);
    (VStr "Title:", v_owner_title);
    (VStr "Ownership %:", v_ownership_percentage);
    (VStr "Owner Address:", v_owner_address)
  ] in
  y_pos ← for_acc owner_details y_pos (fun y_pos '(label, value) =>
      c.drawString 50 y_pos label;;
      c.drawString 200 y_pos value;;
      let y_pos := (y_pos - 25)%Q in
      ret y_pos);
  let y_pos := (y_pos - 20)%Q in
  c.setFont "Helvetica-Bold" 12;;
  c.drawString 50 y_pos "AUTHORIZED BUSINESS ACTIVITIES";;
  let y_pos := (y_pos - 25)%Q in
  c.setFont "Helvetica" 10;;
  let activities := default (VList []) (business_data !! "activities") in
  items ← iter activities;
  y_pos ← for_acc items y_pos (fun y_pos activity =>
      c.drawString 70 y_pos ("• " +:+ str activity);;
      let y_pos := (y_pos - 20)%Q in
      ret y_pos);
  c.setFont "Helvetica" 8;;
  c.drawString 50 80 "This certificate is valid only for the business activities listed above.";;
  c.drawString 50 65 "Any changes to business information must be reported within 30 days.";;
  c.drawString 50 50 "This is a sample document for testing purposes only";;
  c.drawString 50 35 "All information contained herein is fictional";;
  ret tt.

Definition business_registration_document (business_data : Record) : Result Document :=
  canvas_document letter (business_registration_body business_data).

(** Create a business registration certificate *)
Definition create_business_registration (filename : string) (business_data : Record) : IO unit :=
  save filename (business_registration_document business_data).

(** The statements of [create_financial_statement], from the creation of the
    story to the call that saves it. *)
Definition financial_statement_body (financial_data : Record) : Py (list Flowable) unit :=
  let title := Paragraph "FINANCIAL STATEMENT" (styles "Title") in
  story.append title;;
  story.append (Spacer 1 12);;
  v_company_name ← getitem financial_data "company_name";
  v_period_start ← getitem financial_data "period_start";
  v_period_end ← getitem financial_data "period_end";
  v_statement_date ← getitem financial_data "statement_date";
  v_prepared_by ← getitem financial_data "prepared_by";
  v_cpa_firm ← getitem financial_data "cpa_firm";
  let company_info : list (list Value) := [
    [VStr "Company Name:"; v_company_name];
    [VStr "Statement Period:"; VStr (str v_period_start +:+ " to " +:+ str v_period_end)];
    [VStr "Statement Date:"; v_statement_date];
    [VStr "Prepared By:"; v_prepared_by];
    [VStr "CPA Firm:"; v_cpa_firm]
  ] in
  let info_table := Table company_info [2 * inch; 4 * inch]%Q in
  let info_table := setStyle info_table (TableStyle [
    cmd "ALIGN" (0, 0) (-1, -1) [arg_s "LEFT"];
    cmd "FONTNAME" (0, 0) (0, -1) [arg_s "Helvetica-Bold"];
    cmd "FONTSIZE" (0, 0) (-1, -1) [arg_n 11];
    cmd "BOTTOMPADDING" (0, 0) (-1, -1) [arg_n 8]
  ]) in
  story.append info_table;;
  story.append (Spacer 1 20);;
  let balance_title := Paragraph "BALANCE SHEET" (styles "Heading2") in
  story.append balance_title;;
  let assets_title := Paragraph "ASSETS" (styles "Heading3") in
  story.append assets_title;;
  v_cash ← getitem financial_data "cash";
  s_cash ← format v_cash grouped;
  v_accounts_receivable ← getitem financial_data "accounts_receivable";
  s_accounts_receivable ← format v_accounts_receivable grouped;
  v_inventory ← getitem financial_data "inventory";
  s_inventory ← format v_inventory grouped;
  v_prepaid_expenses ← getitem financial_data "prepaid_expenses";
  s_prepaid_expenses ← format v_prepaid_expenses grouped;
  v_total_current_assets ← getitem financial_data "total_current_assets";
  s_total_current_assets ← format v_total_current_assets grouped;
  v_ppe ← getitem financial_data "ppe";
  s_ppe ← format v_ppe grouped;
  v_accumulated_depreciation ← getitem financial_data "accumulated_depreciation";
  s_accumulated_depreciation ← format v_accumulated_depreciation grouped;
  v_net_fixed_assets ← getitem financial_data "net_fixed_assets";
  s_net_fixed_assets ← format v_net_fixed_assets grouped;
  v_total_assets ← getitem financial_data "total_assets";
  s_total_assets ← format v_total_assets grouped;
  let assets_data : list (list Value) := [
    [VStr "Current Assets"; VStr EmptyString; VStr EmptyString];
    [VStr "Cash and Cash Equivalents"; VStr EmptyString; VStr ("$" +:+ s_cash)];
    [VStr "Accounts Receivable"; VStr EmptyString; VStr ("$" +:+ s_accounts_receivable)];
    [VStr "Inventory"; VStr EmptyString; VStr ("$" +:+ s_inventory)];
    [VStr "Prepaid Expenses"; VStr EmptyString; VStr ("$" +:+ s_prepaid_expenses)];
    [VStr "Total Current Assets"; VStr EmptyString; VStr ("$" +:+ s_total_current_assets)];
    [VStr EmptyString; VStr EmptyString; VStr EmptyString];
    [VStr "Fixed Assets"; VStr EmptyString; VStr EmptyString];
    [VStr "Property, Plant & Equipment"; VStr EmptyString; VStr ("$" +:+ s_ppe)];
    [VStr "Less: Accumulated Depreciation"; VStr EmptyString; VStr ("($" +:+ s_accumulated_depreciation +:+ ")")];
    [VStr "Net Fixed Assets"; VStr EmptyString; VStr ("$" +:+ s_net_fixed_assets)];
    [VStr EmptyString; VStr EmptyString; VStr EmptyString];
    [VStr "TOTAL ASSETS"; VStr EmptyString; VStr ("$" +:+ s_total_assets)]
  ] in
  let assets_table := Table assets_data [2.5 * inch; 1 * inch; 2.5 * inch]%Q in
  let assets_table := setStyle assets_table (TableStyle [
    cmd "ALIGN" (0, 0) (-1, -1) [arg_s "LEFT"];
    cmd "ALIGN" (2, 0) (2, -1) [arg_s "RIGHT"];
    cmd "FONTNAME" (0, 0) (0, 0) [arg_s "Helvetica-Bold"];
    cmd "FONTNAME" (0, 7) (0, 7) [arg_s "Helvetica-Bold"];
    cmd "FONTNAME" (0, -1) (-1, -1) [arg_s "Helvetica-Bold"];
    cmd "FONTSIZE" (0, 0) (-1, -1) [arg_n 9];
    cmd "BOTTOMPADDING" (0, 0) (-1, -1) [arg_n 4];
    cmd "LINEABOVE" (0, -1) (-1, -1) [arg_n 1; arg_c colors.black];
    cmd "LINEBELOW" (0, -1) (-1, -1) [arg_n 2; arg_c colors.black]
  ]) in
  story.append assets_table;;
  story.append (Spacer 1 20);;
  let liabilities_title := Paragraph "LIABILITIES AND EQUITY" (styles "Heading3") in
  story.append liabilities_title;;
  v_accounts_payable ← getitem financial_data "accounts_payable";
  s_accounts_payable ← format v_accounts_payable grouped;
  v_accrued_expenses ← getitem financial_data "accrued_expenses";
  s_accrued_expenses ← format v_accrued_expenses grouped;
  v_short_term_debt ← getitem financial_data "short_term_debt";
  s_short_term_debt ← format v_short_term_debt grouped;
  v_total_current_liabilities ← getitem financial_data "total_current_liabilities";
  s_total_current_liabilities ← format v_total_current_liabilities grouped;
  v_long_term_debt ← getitem financial_data "long_term_debt";
  s_long_term_debt ← format v_long_term_debt grouped;
  v_total_liabilities ← getitem financial_data "total_liabilities";
  s_total_liabilities ← format v_total_liabilities grouped;
  v_common_stock ← getitem financial_data "common_stock";
  s_common_stock ← format v_common_stock grouped;
  v_retained_earnings ← getitem financial_data "retained_earnings";
  s_retained_earnings ← format v_retained_earnings grouped;
  v_total_equity ← getitem financial_data "total_equity";
  s_total_equity ← format v_total_equity grouped;
  v_total_liab_equity ← getitem financial_data "total_liab_equity";
  s_total_liab_equity ← format v_total_liab_equity grouped;
  let liabilities_data : list (list Value) := [
    [VStr "Current Liabilities"; VStr EmptyString; VStr EmptyString];
    [VStr "Accounts Payable"; VStr EmptyString; VStr ("$" +:+ s_accounts_payable)];
    [VStr "Accrued Expenses"; VStr EmptyString; VStr ("$" +:+ s_accrued_expenses)];
    [VStr "Short-term Debt"; VStr EmptyString; VStr ("$" +:+ s_short_term_debt)];
    [VStr "Total Current Liabilities"; VStr EmptyString; VStr ("$" +:+ s_total_current_liabilities)];
    [VStr EmptyString; VStr EmptyString; VStr EmptyString];
    [VStr "Long-term Debt"; VStr EmptyString; VStr ("$" +:+ s_long_term_debt)];
    [VStr "Total Liabilities"; VStr EmptyString; VStr ("$" +:+ s_total_liabilities)];
    [VStr EmptyString; VStr EmptyString; VStr EmptyString];
    [VStr "Shareholders' Equity"; VStr EmptyString; VStr EmptyString];
    [VStr "Common Stock"; VStr EmptyString; VStr ("$" +:+ s_common_stock)];
    [VStr "Retained Earnings"; VStr EmptyString; VStr ("$" +:+ s_retained_earnings)];
    [VStr "Total Shareholders' Equity"; VStr EmptyString; VStr ("$" +:+ s_total_equity)];
    [VStr EmptyString; VStr EmptyString; VStr EmptyString];
    [VStr "TOTAL LIABILITIES & EQUITY"; VStr EmptyString; VStr ("$" +:+ s_total_liab_equity)]
  ] in
  let liabilities_table := Table liabilities_data [2.5 * inch; 1 * inch; 2.5 * inch]%Q in
  let liabilities_table := setStyle liabilities_table (TableStyle [
    cmd "ALIGN" (0, 0) (-1, -1) [arg_s "LEFT"];
    cmd "ALIGN" (2, 0) (2, -1) [arg_s "RIGHT"];
    cmd "FONTNAME" (0, 0) (0, 0) [arg_s "Helvetica-Bold"];
    cmd "FONTNAME" (0, 7) (0, 7) [arg_s "Helvetica-Bold"];
    cmd "FONTNAME" (0, 9) (0, 9) [arg_s "Helvetica-Bold"];
    cmd "FONTNAME" (0, -1) (-1, -1) [arg_s "Helvetica-Bold"];
    cmd "FONTSIZE" (0, 0) (-1, -1) [arg_n 9];
    cmd "BOTTOMPADDING" (0, 0) (-1, -1) [arg_n 4];
    cmd "LINEABOVE" (0, -1) (-1, -1) [arg_n 1; arg_c colors.black];
    cmd "LINEBELOW" (0, -1) (-1, -1) [arg_n 2; arg_c colors.black]
  ]) in
  story.append liabilities_table;;
  story.append (Spacer 1 30);;
  let income_title := Paragraph "INCOME STATEMENT" (styles "Heading2") in
  story.append income_title;;
  v_revenue ← getitem financial_data "revenue";
  s_revenue ← format v_revenue grouped;
  v_cogs ← getitem financial_data "cogs";
  s_cogs ← format v_cogs grouped;
  v_gross_profit ← getitem financial_data "gross_profit";
  s_gross_profit ← format v_gross_profit grouped;
  v_salaries ← getitem financial_data "salaries";
  s_salaries ← format v_salaries grouped;
  v_rent_utilities ← getitem financial_data "rent_utilities";
  s_rent_utilities ← format v_rent_utilities grouped;
  v_marketing ← getitem financial_data "marketing";
  s_marketing ← format v_marketing grouped;
  v_professional_services ← getitem financial_data "professional_services";
  s_professional_services ← format v_professional_services grouped;
  v_other_expenses ← getitem financial_data "other_expenses";
  s_other_expenses ← format v_other_expenses grouped;
  v_total_operating_expenses ← getitem financial_data "total_operating_expenses";
  s_total_operating_expenses ← format v_total_operating_expenses grouped;
  v_operating_income ← getitem financial_data "operating_income";
  s_operating_income ← format v_operating_income grouped;
  v_interest_expense ← getitem financial_data "interest_expense";
  s_interest_expense ← format v_interest_expense grouped;
  v_income_before_taxes ← getitem financial_data "income_before_taxes";
  s_income_before_taxes ← format v_income_before_taxes grouped;
  v_tax_expense ← getitem financial_data "tax_expense";
  s_tax_expense ← format v_tax_expense grouped;
  v_net_income ← getitem financial_data "net_income";
  s_net_income ← format v_net_income grouped;
  let income_data : list (list Value) := [
    [VStr "Revenue"; VStr EmptyString; VStr ("$" +:+ s_revenue)];
    [VStr "Cost of Goods Sold"; VStr EmptyString; VStr ("$" +:+ s_cogs)];
    [VStr "Gross Profit"; VStr EmptyString; VStr ("$" +:+ s_gross_profit)];
    [VStr EmptyString; VStr EmptyString; VStr EmptyString];
    [VStr "Operating Expenses"; VStr EmptyString; VStr EmptyString];
    [VStr "Salaries and Benefits"; VStr EmptyString; VStr ("$" +:+ s_salaries)];
    [VStr "Rent and Utilities"; VStr EmptyString; VStr ("$" +:+ s_rent_utilities)];
    [VStr "Marketing and Advertising"; VStr EmptyString; VStr ("$" +:+ s_marketing)];
    [VStr "Professional Services"; VStr EmptyString; VStr ("$" +:+ s_professional_services)];
    [VStr "Other Operating Expenses"; VStr EmptyString; VStr ("$" +:+ s_other_expenses)];
    [VStr "Total Operating Expenses"; VStr EmptyString; VStr ("$" +:+ s_total_operating_expenses)];
    [VStr EmptyString; VStr EmptyString; VStr EmptyString];
    [VStr "Operating Income"; VStr EmptyString; VStr ("$" +:+ s_operating_income)];
    [VStr "Interest Expense"; VStr EmptyString; VStr ("$" +:+ s_interest_expense)];
    [VStr "Net Income Before Taxes"; VStr EmptyString; VStr ("$" +:+ s_income_before_taxes)];
    [VStr "Income Tax Expense"; VStr EmptyString; VStr ("$" +:+ s_tax_expense)];
    [VStr "NET INCOME"; VStr EmptyString; VStr ("$" +:+ s_net_income)]
  ] in
  let income_table := Table income_data [2.5 * inch; 1 * inch; 2.5 * inch]%Q in
  let income_table := setStyle income_table (TableStyle [
    cmd "ALIGN" (0, 0) (-1, -1) [arg_s "LEFT"];
    cmd "ALIGN" (2, 0) (2, -1) [arg_s "RIGHT"];
    cmd "FONTNAME" (0, 4) (0, 4) [arg_s "Helvetica-Bold"];
    cmd "FONTNAME" (0, -1) (-1, -1) [arg_s "Helvetica-Bold"];
    cmd "FONTSIZE" (0, 0) (-1, -1) [arg_n 9];
    cmd "BOTTOMPADDING" (0, 0) (-1, -1) [arg_n 4];
    cmd "LINEABOVE" (0, -1) (-1, -1) [arg_n 1; arg_c colors.black];
    cmd "LINEBELOW" (0, -1) (-1, -1) [arg_n 2; arg_c colors.black]
  ]) in
  story.append income_table;;
  let footer := Paragraph "This is a sample document for testing purposes only. All information is fictional." (ParagraphStyle "Footer" 8 colors.grey) in
  story.append (Spacer 1 30);;
  story.append footer;;
  ret tt.

Definition financial_statement_document (financial_data : Record) : Result Document :=
  platypus_document letter (financial_statement_body financial_data).

(** Create a financial statement document *)
Definition create_financial_statement (filename : string) (financial_data : Record) : IO unit :=
  save filename (financial_statement_document financial_data).

(** The statements of [create_liability_policy], from the creation of the
    story to the call that saves it. *)
Definition liability_policy_body (policy_data : Record) : Py (list Flowable) unit :=
  let title := Paragraph "GENERAL LIABILITY INSURANCE POLICY" (styles "Title") in
  story.append title;;
  story.append (Spacer 1 12);;
  v_policy_number ← getitem policy_data "policy_number";
  v_effective_date ← getitem policy_data "effective_date";
  v_expiration_date ← getitem policy_data "expiration_date";
  v_insurance_company ← getitem policy_data "insurance_company";
  v_agent_name ← getitem policy_data "agent_name";
  v_issue_date ← getitem policy_data "issue_date";
  let policy_info : list (list Value) := [
    [VStr "Policy Number:"; v_policy_number];
    [VStr "Policy Period:"; VStr (str v_effective_date +:+ " to " +:+ str v_expiration_date)];
    [VStr "Insurance Company:"; v_insurance_company];
    [VStr "Producer/Agent:"; v_agent_name];
    [VStr "Issue Date:"; v_issue_date]
  ] in
  let info_table := Table policy_info [2 * inch; 4 * inch]%Q in
  let info_table := setStyle info_table (TableStyle [
    cmd "ALIGN" (0, 0) (-1, -1) [arg_s "LEFT"];
    cmd "FONTNAME" (0, 0) (0, -1) [arg_s "Helvetica-Bold"];
    cmd "FONTSIZE" (0, 0) (-1, -1) [arg_n 11];
    cmd "BOTTOMPADDING" (0, 0) (-1, -1) [arg_n 8]
  ]) in
  story.append info_table;;
  story.append (Spacer 1 20);;
  let insured_title := Paragraph "NAMED INSURED" (styles "Heading2") in
  story.append insured_title;;
  v_business_name ← getitem policy_data "business_name";
  v_business_address ← getitem policy_data "business_address";
  v_business_phone ← getitem policy_data "business_phone";
  v_principal_contact ← getitem policy_data "principal_contact";
  v_industry_classification ← getitem policy_data "industry_classification";
  let insured_info : list (list Value) := [
    [VStr "Business Name:"; v_business_name];
    [VStr "Business Address:"; v_business_address];
    [VStr "Business Phone:"; v_business_phone];
    [VStr "Principal Contact:"; v_principal_contact];
    [VStr "Industry Classification:"; v_industry_classification]
  ] in
  let insured_table := Table insured_info [2 * inch; 4 * inch]%Q in
  let insured_table := setStyle insured_table (TableStyle [
    cmd "ALIGN" (0, 0) (-1, -1) [arg_s "LEFT"];
    cmd "FONTNAME" (0, 0) (0, -1) [arg_s "Helvetica-Bold"];
    cmd "FONTSIZE" (0, 0) (-1, -1) [arg_n 10];
    cmd "BOTTOMPADDING" (0, 0) (-1, -1) [arg_n 6]
  ]) in
  story.append insured_table;;
  story.append (Spacer 1 20);;
  let coverage_title := Paragraph "COVERAGE DETAILS" (styles "Heading2") in
  story.append coverage_title;;
  v_each_occurrence ← getitem policy_data "each_occurrence";
  s_each_occurrence ← format v_each_occurrence grouped;
  v_general_aggregate ← getitem policy_data "general_aggregate";
  s_general_aggregate ← format v_general_aggregate grouped;
  v_bd_pd_premium ← getitem policy_data "bd_pd_premium";
  s_bd_pd_premium ← format v_bd_pd_premium grouped;
  v_personal_injury_limit ← getitem policy_data "personal_injury_limit";
  s_personal_injury_limit ← format v_personal_injury_limit grouped;
  v_personal_injury_premium ← getitem policy_data "personal_injury_premium";
  s_personal_injury_premium ← format v_personal_injury_premium grouped;
  v_products_ops_occurrence ← getitem policy_data "products_ops_occurrence";
  s_products_ops_occurrence ← format v_products_ops_occurrence grouped;
  v_products_ops_aggregate ← getitem policy_data "products_ops_aggregate";
  s_products_ops_aggregate ← format v_products_ops_aggregate grouped;
  v_products_ops_premium ← getitem policy_data "products_ops_premium";
  s_products_ops_premium ← format v_products_ops_premium grouped;
  v_medical_expenses ← getitem policy_data "medical_expenses";
  s_medical_expenses ← format v_medical_expenses grouped;
  v_medical_premium ← getitem policy_data "medical_premium";
  s_medical_premium ← format v_medical_premium grouped;
  v_total_premium ← getitem policy_data "total_premium";
  s_total_premium ← format v_total_premium grouped;
  let coverage_data : list (list Value) := [
    [VStr "Coverage"; VStr "Each Occurrence"; VStr "General Aggregate"; VStr "Premium"];
    [VStr "Bodily Injury & Property Damage"; VStr ("$" +:+ s_each_occurrence); VStr ("$" +:+ s_general_aggregate); VStr ("$" +:+ s_bd_pd_premium)];
    [VStr "Personal & Advertising Injury"; VStr ("$" +:+ s_personal_injury_limit); VStr "Included in General Aggregate"; VStr ("$" +:+ s_personal_injury_premium)];
    [VStr "Products-Completed Operations"; VStr ("$" +:+ s_products_ops_occurrence); VStr ("$" +:+ s_products_ops_aggregate); VStr ("$" +:+ s_products_ops_premium)];
    [VStr "Medical Expenses"; VStr ("$" +:+ s_medical_expenses); VStr "N/A"; VStr ("$" +:+ s_medical_premium)];
    [VStr EmptyString; VStr EmptyString; VStr "Total Annual Premium:"; VStr ("$" +:+ s_total_premium)]
  ] in
  let coverage_table := Table coverage_data [2.5 * inch; 1.5 * inch; 1.5 * inch; 1 * inch]%Q in
  let coverage_table := setStyle coverage_table (TableStyle [
    cmd "BACKGROUND" (0, 0) (-1, 0) [arg_c colors.grey];
    cmd "TEXTCOLOR" (0, 0) (-1, 0) [arg_c colors.whitesmoke];
    cmd "ALIGN" (0, 0) (-1, -1) [arg_s "CENTER"];
    cmd "FONTNAME" (0, 0) (-1, 0) [arg_s "Helvetica-Bold"];
    cmd "FONTNAME" (0, -1) (-1, -1) [arg_s "Helvetica-Bold"];
    cmd "FONTSIZE" (0, 0) (-1, -1) [arg_n 9];
    cmd "BOTTOMPADDING" (0, 0) (-1, -1) [arg_n 6];
    cmd "GRID" (0, 0) (-1, -2) [arg_n 1; arg_c colors.black];
    cmd "LINEABOVE" (2, -1) (-1, -1) [arg_n 2; arg_c colors.black]
  ]) in
  story.append coverage_table;;
  story.append (Spacer 1 20);;
  let deductible_title := Paragraph "DEDUCTIBLES" (styles "Heading2") in
  story.append deductible_title;;
  v_deductible ← getitem policy_data "deductible";
  s_deductible ← format v_deductible grouped;
  let deductible_text := ("
    Per Occurrence Deductible: $" +:+ s_deductible +:+ "
    
    The deductible applies to each covered occurrence. The insured is responsible for the 
    deductible amount before coverage begins.
    ") in
  let deductible_para := Paragraph deductible_text (styles "Normal") in
  story.append deductible_para;;
  story.append (Spacer 1 20);;
  let exclusions_title := Paragraph "KEY EXCLUSIONS" (styles "Heading2") in
  story.append exclusions_title;;
  let exclusions_text := "
    This policy does not cover claims arising from:
    
    • Professional services (requires separate Professional Liability coverage)
    • Cyber/data breach incidents (requires separate Cyber Liability coverage)
    • Employment practices (requires separate Employment Practices Liability coverage)
    • Pollution incidents (requires separate Environmental coverage)
    • Aircraft, auto, or watercraft operations (require separate coverage)
    • Workers' compensation (requires separate coverage)
    • Intentional criminal acts
    
    This is a summary only. Please refer to the complete policy for all terms and conditions.
    " in
  let exclusions_para := Paragraph exclusions_text (styles "Normal") in
  story.append exclusions_para;;
  story.append (Spacer 1 20);;
  let claims_title := Paragraph "CLAIMS REPORTING" (styles "Heading2") in
  story.append claims_title;;
  v_claims_phone ← getitem policy_data "claims_phone";
  v_claims_hotline ← getitem policy_data "claims_hotline";
  v_claims_website ← getitem policy_data "claims_website";
  let claims_text := ("
    Claims should be reported immediately to:
    
    Claims Department: " +:+ str v_claims_phone +:+ "
    24-Hour Claims Hotline: " +:+ str v_claims_hotline +:+ "
    Online Claims Reporting: " +:+ str v_claims_website +:+ "
    
    Prompt reporting is essential for proper claims handling.
    ") in
  let claims_para := Paragraph claims_text (styles "Normal") in
  story.append claims_para;;
  let footer := Paragraph "This is a sample document for testing purposes only. All information is fictional." (ParagraphStyle "Footer" 8 colors.grey) in
  story.append (Spacer 1 30);;
  story.append footer;;
  ret tt.

Definition liability_policy_document (policy_data : Record) : Result Document :=
  platypus_document letter (liability_policy_body policy_data).

(** Create a liability insurance policy template *)
Definition create_liability_policy (filename : string) (policy_data : Record) : IO unit :=
  save filename (liability_policy_document policy_data).

(** The statements of [create_contract_document], from the creation of the
    story to the call that saves it. *)
Definition contract_document_body (contract_data : Record) : Py (list Flowable) unit :=
  let title := Paragraph "SERVICE AGREEMENT CONTRACT" (styles "Title") in
  story.append title;;
  story.append (Spacer 1 12);;
  v_contract_number ← getitem contract_data "contract_number";
  v_effective_date ← getitem contract_data "effective_date";
  v_contract_term ← getitem contract_data "contract_term";
  v_contract_value ← getitem contract_data "contract_value";
  s_contract_value ← format v_contract_value grouped;
  let contract_info : list (list Value) := [
    [VStr "Contract Number:"; v_contract_number];
    [VStr "Effective Date:"; v_effective_date];
    [VStr "Contract Term:"; v_contract_term];
    [VStr "Total Contract Value:"; VStr ("$" +:+ s_contract_value)]
  ] in
  let info_table := Table contract_info [2 * inch; 4 * inch]%Q in
  let info_table := setStyle info_table (TableStyle [
    cmd "ALIGN" (0, 0) (-1, -1) [arg_s "LEFT"];
    cmd "FONTNAME" (0, 0) (0, -1) [arg_s "Helvetica-Bold"];
    cmd "FONTSIZE" (0, 0) (-1, -1) [arg_n 11];
    cmd "BOTTOMPADDING" (0, 0) (-1, -1) [arg_n 8]
  ]) in
  story.append info_table;;
  story.append (Spacer 1 20);;
  let parties_title := Paragraph "CONTRACTING PARTIES" (styles "Heading2") in
  story.append parties_title;;
  let provider_title := Paragraph "Service Provider:" (styles "Heading3") in
  story.append provider_title;;
  v_provider_name ← getitem contract_data "provider_name";
  v_provider_address ← getitem contract_data "provider_address";
  v_provider_contact ← getitem contract_data "provider_contact";
  v_provider_phone ← getitem contract_data "provider_phone";
  v_provider_email ← getitem contract_data "provider_email";
  let provider_info : list (list Value) := [
    [VStr "Company Name:"; v_provider_name];
    [VStr "Address:"; v_provider_address];
    [VStr "Contact Person:"; v_provider_contact];
    [VStr "Phone:"; v_provider_phone];
    [VStr "Email:"; v_provider_email]
  ] in
  let provider_table := Table provider_info [1.5 * inch; 4.5 * inch]%Q in
  let provider_table := setStyle provider_table (TableStyle [
    cmd "ALIGN" (0, 0) (-1, -1) [arg_s "LEFT"];
    cmd "FONTNAME" (0, 0) (0, -1) [arg_s "Helvetica-Bold"];
    cmd "FONTSIZE" (0, 0) (-1, -1) [arg_n 10];
    cmd "BOTTOMPADDING" (0, 0) (-1, -1) [arg_n 6]
  ]) in
  story.append provider_table;;
  story.append (Spacer 1 10);;
  let client_title := Paragraph "Client:" (styles "Heading3") in
  story.append client_title;;
  v_client_name ← getitem contract_data "client_name";
  v_client_address ← getitem contract_data "client_address";
  v_client_contact ← getitem contract_data "client_contact";
  v_client_phone ← getitem contract_data "client_phone";
  v_client_email ← getitem contract_data "client_email";
  let client_info : list (list Value) := [
    [VStr "Company Name:"; v_client_name];
    [VStr "Address:"; v_client_address];
    [VStr "Contact Person:"; v_client_contact];
    [VStr "Phone:"; v_client_phone];
    [VStr "Email:"; v_client_email]
  ] in
  let client_table := Table client_info [1.5 * inch; 4.5 * inch]%Q in
  let client_table := setStyle client_table (TableStyle [
    cmd "ALIGN" (0, 0) (-1, -1) [arg_s "LEFT"];
    cmd "FONTNAME" (0, 0) (0, -1) [arg_s "Helvetica-Bold"];
    cmd "FONTSIZE" (0, 0) (-1, -1) [arg_n 10];
    cmd "BOTTOMPADDING" (0, 0) (-1, -1) [arg_n 6]
  ]) in
  story.append client_table;;
  story.append (Spacer 1 20);;
  let scope_title := Paragraph "SCOPE OF WORK" (styles "Heading2") in
  story.append scope_title;;
  v_scope_of_work ← getitem contract_data "scope_of_work";
  v_service_location ← getitem contract_data "service_location";
  v_completion_date ← getitem contract_data "completion_date";
  let scope_text := ("
    The Service Provider agrees to provide the following services:
    
    " +:+ str v_scope_of_work +:+ "
    
    Services will be performed at the following location(s):
    " +:+ str v_service_location +:+ "
    
    Expected completion date: " +:+ str v_completion_date +:+ "
    ") in
  let scope_para := Paragraph scope_text (styles "Normal") in
  story.append scope_para;;
  story.append (Spacer 1 20);;
  let payment_title := Paragraph "PAYMENT TERMS" (styles "Heading2") in
  story.append payment_title;;
  v_initial_payment ← getitem contract_data "initial_payment";
  s_initial_payment ← format v_initial_payment grouped;
  v_initial_due_date ← getitem contract_data "initial_due_date";
  v_progress_payment_1 ← getitem contract_data "progress_payment_1";
  s_progress_payment_1 ← format v_progress_payment_1 grouped;
  v_progress_due_1 ← getitem contract_data "progress_due_1";
  v_progress_payment_2 ← getitem contract_data "progress_payment_2";
  s_progress_payment_2 ← format v_progress_payment_2 grouped;
  v_progress_due_2 ← getitem contract_data "progress_due_2";
  v_final_payment ← getitem contract_data "final_payment";
  s_final_payment ← format v_final_payment grouped;
  v_final_due_date ← getitem contract_data "final_due_date";
  v_total_payments ← getitem contract_data "total_payments";
  s_total_payments ← format v_total_payments grouped;
  let payment_data : list (list Value) := [
    [VStr "Payment Schedule"; VStr "Amount"; VStr "Due Date"];
    [VStr "Initial Payment"; VStr ("$" +:+ s_initial_payment); v_initial_due_date];
    [VStr "Progress Payment 1"; VStr ("$" +:+ s_progress_payment_1); v_progress_due_1];
    [VStr "Progress Payment 2"; VStr ("$" +:+ s_progress_payment_2); v_progress_due_2];
    [VStr "Final Payment"; VStr ("$" +:+ s_final_payment); v_final_due_date];
    [VStr "Total Contract Value"; VStr ("$" +:+ s_total_payments); VStr EmptyString]
  ] in
  let payment_table := Table payment_data [2.5 * inch; 1.5 * inch; 2 * inch]%Q in
  let payment_table := setStyle payment_table (TableStyle [
    cmd "BACKGROUND" (0, 0) (-1, 0) [arg_c colors.grey];
    cmd "TEXTCOLOR" (0, 0) (-1, 0) [arg_c colors.whitesmoke];
    cmd "ALIGN" (0, 0) (-1, -1) [arg_s "LEFT"];
    cmd "ALIGN" (1, 0) (1, -1) [arg_s "RIGHT"];
    cmd "FONTNAME" (0, 0) (-1, 0) [arg_s "Helvetica-Bold"];
    cmd "FONTNAME" (0, -1) (-1, -1) [arg_s "Helvetica-Bold"];
    cmd "FONTSIZE" (0, 0) (-1, -1) [arg_n 9];
    cmd "BOTTOMPADDING" (0, 0) (-1, -1) [arg_n 6];
    cmd "GRID" (0, 0) (-1, -1) [arg_n 1; arg_c colors.black]
  ]) in
  story.append payment_table;;
  story.append (Spacer 1 20);;
  let insurance_title := Paragraph "INSURANCE REQUIREMENTS" (styles "Heading2") in
  story.append insurance_title;;
  v_required_gl_coverage ← getitem contract_data "required_gl_coverage";
  s_required_gl_coverage ← format v_required_gl_coverage grouped;
  v_required_pl_coverage ← getitem contract_data "required_pl_coverage";
  s_required_pl_coverage ← format v_required_pl_coverage grouped;
  v_required_auto_coverage ← getitem contract_data "required_auto_coverage";
  s_required_auto_coverage ← format v_required_auto_coverage grouped;
  let insurance_text := ("
    The Service Provider shall maintain the following minimum insurance coverage:
    
    • General Liability: $" +:+ s_required_gl_coverage +:+ " per occurrence
    • Professional Liability: $" +:+ s_required_pl_coverage +:+ " per claim
    • Workers' Compensation: As required by state law
    • Commercial Auto: $" +:+ s_required_auto_coverage +:+ " combined single limit
    
    The Client shall be named as an additional insured on all applicable policies.
    Certificates of Insurance must be provided before work commences.
    ") in
  let insurance_para := Paragraph insurance_text (styles "Normal") in
  story.append insurance_para;;
  story.append (Spacer 1 20);;
  let signature_title := Paragraph "SIGNATURES" (styles "Heading2") in
  story.append signature_title;;
  v_provider_signatory ← getitem contract_data "provider_signatory";
  v_client_signatory ← getitem contract_data "client_signatory";
  v_provider_title ← getitem contract_data "provider_title";
  v_client_title ← getitem contract_data "client_title";
  let signature_data : list (list Value) := [
    [VStr "Service Provider"; VStr EmptyString; VStr "Client"; VStr EmptyString];
    [VStr EmptyString; VStr EmptyString; VStr EmptyString; VStr EmptyString];
    [VStr "Signature: _________________"; VStr "Date: ________"; VStr "Signature: _________________"; VStr "Date: ________"];
    [VStr EmptyString; VStr EmptyString; VStr EmptyString; VStr EmptyString];
    [VStr ("Print Name: " +:+ str v_provider_signatory); VStr EmptyString; VStr ("Print Name: " +:+ str v_client_signatory); VStr EmptyString];
    [VStr ("Title: " +:+ str v_provider_title); VStr EmptyString; VStr ("Title: " +:+ str v_client_title); VStr EmptyString]
  ] in
  let signature_table := Table signature_data [1.5 * inch; 1.5 * inch; 1.5 * inch; 1.5 * inch]%Q in
  let signature_table := setStyle signature_table (TableStyle [
    cmd "ALIGN" (0, 0) (-1, -1) [arg_s "LEFT"];
    cmd "FONTNAME" (0, 0) (-1, 0) [arg_s "Helvetica-Bold"];
    cmd "FONTSIZE" (0, 0) (-1, -1) [arg_n 9];
    cmd "BOTTOMPADDING" (0, 0) (-1, -1) [arg_n 6]
  ]) in
  story.append signature_table;;
  let footer := Paragraph "This is a sample document for testing purposes only. All information is fictional." (ParagraphStyle "Footer" 8 colors.grey) in
  story.append (Spacer 1 30);;
  story.append footer;;
  ret tt.

Definition contract_document_document (contract_data : Record) : Result Document :=
  platypus_document letter (contract_document_body contract_data).

(** Create a business contract document *)
Definition create_contract_document (filename : string) (contract_data : Record) : IO unit :=
  save filename (contract_document_document contract_data).

(** The statements of [create_risk_assessment], from the creation of the
    story to the call that saves it. *)
Definition risk_assessment_body (risk_data : Record) : Py (list Flowable) unit :=
  let title := Paragraph "BUSINESS RISK ASSESSMENT REPORT" (styles "Title") in
  story.append title;;
  story.append (Spacer 1 12);;
  v_assessment_id ← getitem risk_data "assessment_id";
  v_assessment_date ← getitem risk_data "assessment_date";
  v_assessor_name ← getitem risk_data "assessor_name";
  v_company_name ← getitem risk_data "company_name";
  v_industry ← getitem risk_data "industry";
  v_assessment_type ← getitem risk_data "assessment_type";
  let assessment_info : list (list Value) := [
    [VStr "Assessment ID:"; v_assessment_id];
    [VStr "Assessment Date:"; v_assessment_date];
    [VStr "Conducted By:"; v_assessor_name];
    [VStr "Company Assessed:"; v_company_name];
    [VStr "Industry:"; v_industry];
    [VStr "Assessment Type:"; v_assessment_type]
  ] in
  let info_table := Table assessment_info [2 * inch; 4 * inch]%Q in
  let info_table := setStyle info_table (TableStyle [
    cmd "ALIGN" (0, 0) (-1, -1) [arg_s "LEFT"];
    cmd "FONTNAME" (0, 0) (0, -1) [arg_s "Helvetica-Bold"];
    cmd "FONTSIZE" (0, 0) (-1, -1) [arg_n 11];
    cmd "BOTTOMPADDING" (0, 0) (-1, -1) [arg_n 8]
  ]) in
  story.append info_table;;
  story.append (Spacer 1 20);;
  let summary_title := Paragraph "EXECUTIVE SUMMARY" (styles "Heading2") in
  story.append summary_title;;
  v_overall_risk_rating ← getitem risk_data "overall_risk_rating";
  v_company_name_2 ← getitem risk_data "company_name";
  v_overall_risk_rating_2 ← getitem risk_data "overall_risk_rating";
  l_overall_risk_rating ← lower v_overall_risk_rating_2;
  v_key_concerns ← getitem risk_data "key_concerns";
  v_strengths ← getitem risk_data "strengths";
  let summary_text := ("
    Overall Risk Rating: " +:+ str v_overall_risk_rating +:+ "
    
    This risk assessment evaluates the potential liability exposures for " +:+ str v_company_name_2 +:+ ".
    Based on our analysis, the company presents a " +:+ l_overall_risk_rating +:+ " risk profile 
    for general liability insurance purposes.
    
    Key areas of concern include " +:+ str v_key_concerns +:+ " while strengths include " +:+ str v_strengths +:+ ".
    ") in
  let summary_para := Paragraph summary_text (styles "Normal") in
  story.append summary_para;;
  story.append (Spacer 1 20);;
  let categories_title := Paragraph "RISK CATEGORY ANALYSIS" (styles "Heading2") in
  story.append categories_title;;
  v_premises_risk ← getitem risk_data "premises_risk";
  v_product_risk ← getitem risk_data "product_risk";
  v_professional_risk ← getitem risk_data "professional_risk";
  v_cyber_risk ← getitem risk_data "cyber_risk";
  v_employment_risk ← getitem risk_data "employment_risk";
  v_environmental_risk ← getitem risk_data "environmental_risk";
  let categories_data : list (list Value) := [
    [VStr "Risk Category"; VStr "Risk Level"; VStr "Impact"; VStr "Likelihood"; VStr "Mitigation Measures"];
    [VStr "Premises Liability"; v_premises_risk; VStr "High"; VStr "Medium"; VStr "Regular inspections, maintenance"];
    [VStr "Product Liability"; v_product_risk; VStr "Medium"; VStr "Low"; VStr "Quality control, testing"];
    [VStr "Professional Liability"; v_professional_risk; VStr "High"; VStr "Medium"; VStr "Training, procedures"];
    [VStr "Cyber Security"; v_cyber_risk; VStr "High"; VStr "High"; VStr "Security systems, training"];
    [VStr "Employment Practices"; v_employment_risk; VStr "Medium"; VStr "Low"; VStr "HR policies, training"];
    [VStr "Environmental"; v_environmental_risk; VStr "Low"; VStr "Low"; VStr "Compliance monitoring"]
  ] in
  let categories_table := Table categories_data [1.5 * inch; 1 * inch; 1 * inch; 1 * inch; 1.5 * inch]%Q in
  let categories_table := setStyle categories_table (TableStyle [
    cmd "BACKGROUND" (0, 0) (-1, 0) [arg_c colors.grey];
    cmd "TEXTCOLOR" (0, 0) (-1, 0) [arg_c colors.whitesmoke];
    cmd "ALIGN" (0, 0) (-1, -1) [arg_s "CENTER"];
    cmd "FONTNAME" (0, 0) (-1, 0) [arg_s "Helvetica-Bold"];
    cmd "FONTSIZE" (0, 0) (-1, -1) [arg_n 8];
    cmd "BOTTOMPADDING" (0, 0) (-1, -1) [arg_n 6];
    cmd "GRID" (0, 0) (-1, -1) [arg_n 1; arg_c colors.black]
  ]) in
  story.append categories_table;;
  story.append (Spacer 1 20);;
  let recommendations_title := Paragraph "RECOMMENDATIONS" (styles "Heading2") in
  story.append recommendations_title;;
  v_recommended_gl_limit ← getitem risk_data "recommended_gl_limit";
  s_recommended_gl_limit ← format v_recommended_gl_limit grouped;
  v_recommended_pl_limit ← getitem risk_data "recommended_pl_limit";
  s_recommended_pl_limit ← format v_recommended_pl_limit grouped;
  v_recommended_cyber_limit ← getitem risk_data "recommended_cyber_limit";
  s_recommended_cyber_limit ← format v_recommended_cyber_limit grouped;
  v_improvement_1 ← getitem risk_data "improvement_1";
  v_improvement_2 ← getitem risk_data "improvement_2";
  v_improvement_3 ← getitem risk_data "improvement_3";
  let recommendations_text := ("
    Based on this risk assessment, we recommend the following:
    
    1. Insurance Coverage:
       • General Liability: $" +:+ s_recommended_gl_limit +:+ " per occurrence
       • Professional Liability: $" +:+ s_recommended_pl_limit +:+ " per claim
       • Cyber Liability: $" +:+ s_recommended_cyber_limit +:+ " per incident
    
    2. Risk Management Improvements:
       • " +:+ str v_improvement_1 +:+ "
       • " +:+ str v_improvement_2 +:+ "
       • " +:+ str v_improvement_3 +:+ "
    
    3. Review Schedule:
       • Annual risk assessment review
       • Quarterly policy updates as needed
       • Immediate notification of significant business changes
    
    Implementation of these recommendations should reduce the overall risk profile and 
    potentially lead to more favorable insurance terms.
    ") in
  let recommendations_para := Paragraph recommendations_text (styles "Normal") in
  story.append recommendations_para;;
  story.append (Spacer 1 20);;
  let cert_title := Paragraph "ASSESSOR CERTIFICATION" (styles "Heading2") in
  story.append cert_title;;
  v_assessor_signature ← getitem risk_data "assessor_signature";
  v_assessor_certification ← getitem risk_data "assessor_certification";
  v_signature_date ← getitem risk_data "signature_date";
  let cert_text := ("
    This assessment was conducted in accordance with industry standard risk assessment practices.
    The information contained in this report is based on data provided by the client and 
    observations made during the assessment process.
    
    Assessor: " +:+ str v_assessor_signature +:+ "
    Certification: " +:+ str v_assessor_certification +:+ "
    Date: " +:+ str v_signature_date +:+ "
    ") in
  let cert_para := Paragraph cert_text (styles "Normal") in
  story.append cert_para;;
  let footer := Paragraph "This is a sample document for testing purposes only. All information is fictional." (ParagraphStyle "Footer" 8 colors.grey) in
  story.append (Spacer 1 30);;
  story.append footer;;
  ret tt.

Definition risk_assessment_document (risk_data : Record) : Result Document :=
  platypus_document letter (risk_assessment_body risk_data).

(** Create a risk assessment report *)
Definition create_risk_assessment (filename : string) (risk_data : Record) : IO unit :=
  save filename (risk_assessment_document risk_data).

End Renderers.

#[global] Hint Unfold business_registration_body business_registration_document : renderers.
#[global] Hint Unfold financial_statement_body financial_statement_document : renderers.
#[global] Hint Unfold liability_policy_body liability_policy_document : renderers.
#[global] Hint Unfold contract_document_body contract_document_document : renderers.
#[global] Hint Unfold risk_assessment_body risk_assessment_document : renderers.

(** The literal sample records of [generate_liability_insurance_docs]. *)
Definition business_data : Record := list_to_map [
  ("registration_number", VStr "BRN-2024-456789");
  ("issue_date", VStr "2024-01-15");
  ("expiration_date", VStr "2025-01-15");
  ("business_name", VStr "TechSolutions Consulting LLC");
  ("dba_name", VStr "TechSolutions");
  ("business_type", VStr "Limited Liability Company");
  ("industry", VStr "Information Technology Services");
  ("federal_ein", VStr "12-3456789");
  ("state_tax_id", VStr "ST-789456123");
  ("street_address", VStr "456 Innovation Drive, Suite 200");
  ("city", VStr "Chicago");
  ("state", VStr "Illinois");
  ("zip_code", VStr "60601");
  ("phone", VStr "(312) 555-0123");
  ("email", VStr "info@techsolutions.com");
  ("principal_owner", VStr "Jennifer Martinez");
  ("owner_title", VStr "Managing Member");
  ("ownership_percentage", VStr "75%");
  ("owner_address", VStr "123 Elm Street, Chicago, IL 60602");
  ("activities", VList ["Software development and consulting";
      "IT infrastructure design and implementation";
      "Cybersecurity consulting";
      "Data analytics and business intelligence";
      "Cloud computing services"])
].

Definition financial_data : Record := list_to_map [
  ("company_name", VStr "TechSolutions Consulting LLC");
  ("period_start", VStr "2024-01-01");
  ("period_end", VStr "2024-12-31");
  ("statement_date", VStr "2024-12-31");
  ("prepared_by", VStr "Johnson & Associates CPA");
  ("cpa_firm", VStr "Johnson & Associates CPA");
  ("cash", VInt 125000);
  ("accounts_receivable", VInt 85000);
  ("inventory", VInt 15000);
  ("prepaid_expenses", VInt 12000);
  ("total_current_assets", VInt 237000);
  ("ppe", VInt 95000);
  ("accumulated_depreciation", VInt 28000);
  ("net_fixed_assets", VInt 67000);
  ("total_assets", VInt 304000);
  ("accounts_payable", VInt 45000);
  ("accrued_expenses", VInt 22000);
  ("short_term_debt", VInt 18000);
  ("total_current_liabilities", VInt 85000);
  ("long_term_debt", VInt 45000);
  ("total_liabilities", VInt 130000);
  ("common_stock", VInt 50000);
  ("retained_earnings", VInt 124000);
  ("total_equity", VInt 174000);
  ("total_liab_equity", VInt 304000);
  ("revenue", VInt 850000);
  ("cogs", VInt 425000);
  ("gross_profit", VInt 425000);
  ("salaries", VInt 245000);
  ("rent_utilities", VInt 48000);
  ("marketing", VInt 25000);
  ("professional_services", VInt 15000);
  ("other_expenses", VInt 32000);
  ("total_operating_expenses", VInt 365000);
  ("operating_income", VInt 60000);
  ("interest_expense", VInt 5000);
  ("income_before_taxes", VInt 55000);
  ("tax_expense", VInt 12000);
  ("net_income", VInt 43000)
].

Definition policy_data : Record := list_to_map [
  ("policy_number", VStr "GL-2024-789012");
  ("effective_date", VStr "2024-01-01");
  ("expiration_date", VStr "2024-12-31");
  ("insurance_company", VStr "Metropolitan Business Insurance Co.");
  ("agent_name", VStr "Sarah Thompson, CIC");
  ("issue_date", VStr "2023-12-15");
  ("business_name", VStr "TechSolutions Consulting LLC");
  ("business_address", VStr "456 Innovation Drive, Suite 200, Chicago, IL 60601");
  ("business_phone", VStr "(312) 555-0123");
  ("principal_contact", VStr "Jennifer Martinez");
  ("industry_classification", VStr "Computer Systems Design Services");
  ("each_occurrence", VInt 1000000);
  ("general_aggregate", VInt 2000000);
  ("personal_injury_limit", VInt 1000000);
  ("products_ops_occurrence", VInt 1000000);
  ("products_ops_aggregate", VInt 2000000);
  ("medical_expenses", VInt 5000);
  ("bd_pd_premium", VInt 2850);
  ("personal_injury_premium", VInt 450);
  ("products_ops_premium", VInt 675);
  ("medical_premium", VInt 125);
  ("total_premium", VInt 4100);
  ("deductible", VInt 2500);
  ("claims_phone", VStr "(800) 555-CLAIM");
  ("claims_hotline", VStr "(800) 555-2524");
  ("claims_website", VStr "www.metrobusiness.com/claims")
].

Definition contract_data : Record := list_to_map [
  ("contract_number", VStr "SA-2024-3456");
  ("effective_date", VStr "2024-09-01");
  ("contract_term", VStr "12 months");
  ("contract_value", VInt 125000);
  ("provider_name", VStr "TechSolutions Consulting LLC");
  ("provider_address", VStr "456 Innovation Drive, Suite 200, Chicago, IL 60601");
  ("provider_contact", VStr "Jennifer Martinez");
  ("provider_phone", VStr "(312) 555-0123");
  ("provider_email", VStr "jennifer@techsolutions.com");
  ("client_name", VStr "Global Manufacturing Corp");
  ("client_address", VStr "789 Industrial Blvd, Springfield, IL 62701");
  ("client_contact", VStr "Robert Johnson");
  ("client_phone", VStr "(217) 555-7890");
  ("client_email", VStr "rjohnson@globalmanufacturing.com");
  ("scope_of_work", VStr "Implementation of comprehensive ERP system including:
• System analysis and requirements gathering
• Software configuration and customization  
• Data migration from legacy systems
• User training and documentation
• Go-live support and warranty period");
  ("service_location", VStr "Client facilities at 789 Industrial Blvd, Springfield, IL 62701");
  ("completion_date", VStr "2025-02-28");
  ("initial_payment", VInt 31250);
  ("initial_due_date", VStr "2024-09-15");
  ("progress_payment_1", VInt 37500);
  ("progress_due_1", VStr "2024-11-30");
  ("progress_payment_2", VInt 37500);
  ("progress_due_2", VStr "2025-01-31");
  ("final_payment", VInt 18750);
  ("final_due_date", VStr "2025-03-15");
  ("total_payments", VInt 125000);
  ("required_gl_coverage", VInt 1000000);
  ("required_pl_coverage", VInt 1000000);
  ("required_auto_coverage", VInt 500000);
  ("provider_signatory", VStr "Jennifer Martinez");
  ("provider_title", VStr "Managing Member");
  ("client_signatory", VStr "Robert Johnson");
  ("client_title", VStr "IT Director")
].

Definition risk_data : Record := list_to_map [
  ("assessment_id", VStr "RA-2024-7890");
  ("assessment_date", VStr "2024-08-15");
  ("assessor_name", VStr "Michael Davis, ARM");
  ("company_name", VStr "TechSolutions Consulting LLC");
  ("industry", VStr "Information Technology Services");
  ("assessment_type", VStr "Comprehensive Liability Risk Assessment");
  ("overall_risk_rating", VStr "MODERATE");
  ("key_concerns", VStr "cyber security exposures and professional liability risks");
  ("strengths", VStr "strong financial position and established risk management procedures");
  ("premises_risk", VStr "Low");
  ("product_risk", VStr "Medium");
  ("professional_risk", VStr "High");
  ("cyber_risk", VStr "High");
  ("employment_risk", VStr "Low");
  ("environmental_risk", VStr "Low");
  ("recommended_gl_limit", VInt 1000000);
  ("recommended_pl_limit", VInt 2000000);
  ("recommended_cyber_limit", VInt 1000000);
  ("improvement_1", VStr "Implement formal cybersecurity training program");
  ("improvement_2", VStr "Establish written professional services standards");
  ("improvement_3", VStr "Regular third-party security assessments");
  ("assessor_signature", VStr "Michael Davis, ARM");
  ("assessor_certification", VStr "Associate in Risk Management (ARM)");
  ("signature_date", VStr "2024-08-20")
].

(** Generate all liability insurance documents *)
Definition generate_liability_insurance_docs `{PyBuiltins} : IO unit :=
  (create_business_registration "test-documents/liability-insurance/business_registration_certificate.pdf" business_data;;
   create_financial_statement "test-documents/liability-insurance/financial_statement.pdf" financial_data;;
   create_liability_policy "test-documents/liability-insurance/liability_insurance_policy.pdf" policy_data;;
   create_contract_document "test-documents/liability-insurance/service_contract.pdf" contract_data;;
   create_risk_assessment "test-documents/liability-insurance/risk_assessment_report.pdf" risk_data)%io.

End generate_liability_insurance_pdfs.
(** ** [src/generate_general_forms_pdfs.py] *)
Module generate_general_forms_pdfs.

Section Renderers.
Context `{PyBuiltins}.

(** The statements of [create_id_card], from the creation of the
    canvas to the call that saves it. *)
Definition id_card_body (id_data : Record) : Py (list CanvasOp) unit :=
  let '(width, height) := (3.375 * inch, 2.125 * inch)%Q in
  c.setFillColor colors.lightblue;;
  c.rect 0 0 width height 1;;
  c.setFillColor colors.black;;
  c.setFont "Helvetica-Bold" 8;;
  c.drawString 5 (height - 15) "IDENTIFICATION CARD";;
  c.setFont "Helvetica" 6;;
  v_id_number ← getitem id_data "id_number";
  c.drawString 5 (height - 30) ("ID Number: " +:+ str v_id_number);;
  v_issue_date ← getitem id_data "issue_date";
  c.drawString 5 (height - 42) ("Issued: " +:+ str v_issue_date);;
  v_expiry_date ← getitem id_data "expiry_date";
  c.drawString 5 (height - 54) ("Expires: " +:+ str v_expiry_date);;
  v_name_redacted ← getitem id_data "name_redacted";
  c.drawString 5 (height - 75) ("Name: " +:+ str v_name_redacted);;
  v_dob_redacted ← getitem id_data "dob_redacted";
  c.drawString 5 (height - 87) ("DOB: " +:+ str v_dob_redacted);;
  v_address_redacted ← getitem id_data "address_redacted";
  c.drawString 5 (height - 99) ("Address: " +:+ str v_address_redacted);;
  c.setFillColor colors.grey;;
  c.rect (width - 60) (height - 90) 55 70 1;;
  c.setFillColor colors.white;;
  c.setFont "Helvetica" 5;;
  c.drawString (width - 55) (height - 55) "PHOTO";;
  c.drawString (width - 58) (height - 48) "REDACTED";;
  c.setFillColor colors.red;;
  c.setFont "Helvetica-Bold" 5;;
  c.drawString 5 10 "SAMPLE DOCUMENT - PERSONAL INFO REDACTED FOR PRIVACY";;
  ret tt.

Definition id_card_document (id_data : Record) : Result Document :=
  canvas_document (3.375 * inch, 2.125 * inch)%Q (id_card_body id_data).

(** Create a sample ID card (redacted for privacy) *)
Definition create_id_card (filename : string) (id_data : Record) : IO unit :=
  save filename (id_card_document id_data).

(** The statements of [create_passport_sample], from the creation of the
    canvas to the call that saves it. *)
Definition passport_sample_body (passport_data : Record) : Py (list CanvasOp) unit :=
  let '(width, height) := (4.25 * inch, 5.5 * inch)%Q in
  c.setFillColor colors.lightcyan;;
  c.rect 0 0 width height 1;;
  c.setFillColor colors.black;;
  c.setFont "Helvetica-Bold" 10;;
  c.drawString 10 (height - 25) "UNITED STATES OF AMERICA";;
  c.setFont "Helvetica-Bold" 8;;
  c.drawString 10 (height - 40) "PASSPORT";;
  c.setFont "Helvetica" 6;;
  v_passport_number ← getitem passport_data "passport_number";
  c.drawString 10 (height - 60) ("Passport No: " +:+ str v_passport_number);;
  v_passport_type ← getitem passport_data "passport_type";
  c.drawString 10 (height - 72) ("Type: " +:+ str v_passport_type);;
  v_issue_date ← getitem passport_data "issue_date";
  c.drawString 10 (height - 84) ("Issued: " +:+ str v_issue_date);;
  v_expiry_date ← getitem passport_data "expiry_date";
  c.drawString 10 (height - 96) ("Expires: " +:+ str v_expiry_date);;
  c.setFont "Helvetica-Bold" 7;;
  c.drawString 10 (height - 120) "PERSONAL DATA (REDACTED)";;
  c.setFont "Helvetica" 6;;
  v_surname_redacted ← getitem passport_data "surname_redacted";
  v_given_names_redacted ← getitem passport_data "given_names_redacted";
  v_nationality ← getitem passport_data "nationality";
  v_dob_redacted ← getitem passport_data "dob_redacted";
  v_pob_redacted ← getitem passport_data "pob_redacted";
  v_sex_redacted ← getitem passport_data "sex_redacted";
  let personal_data : list string := [
    ("Surname: " +:+ str v_surname_redacted);
    ("Given Names: " +:+ str v_given_names_redacted);
    ("Nationality: " +:+ str v_nationality);
    ("Date of Birth: " +:+ str v_dob_redacted);
    ("Place of Birth: " +:+ str v_pob_redacted);
    ("Sex: " +:+ str v_sex_redacted)
  ] in
  let y_pos := (height - 140)%Q in
  y_pos ← for_acc personal_data y_pos (fun y_pos data =>
      c.drawString 10 y_pos data;;
      let y_pos := (y_pos - 12)%Q in
      ret y_pos);
  c.setFillColor colors.grey;;
  c.rect (width - 80) (height - 180) 70 90 1;;
  c.setFillColor colors.white;;
  c.setFont "Helvetica" 5;;
  c.drawString (width - 75) (height - 135) "PHOTO";;
  c.drawString (width - 78) (height - 128) "REDACTED";;
  c.setFillColor colors.darkgrey;;
  c.rect 10 20 (width - 20) 30 1;;
  c.setFillColor colors.white;;
  c.setFont "Courier" 5;;
  c.drawString 15 40 ("P<USA" +:+ str_repeat "X" 25);;
  c.drawString 15 32 (str_repeat "X" 30);;
  c.drawString 15 24 "MACHINE READABLE ZONE REDACTED";;
  c.setFillColor colors.red;;
  c.setFont "Helvetica-Bold" 5;;
  c.drawString 10 5 "SAMPLE DOCUMENT - PERSONAL INFO REDACTED FOR PRIVACY";;
  ret tt.

Definition passport_sample_document (passport_data : Record) : Result Document :=
  canvas_document (4.25 * inch, 5.5 * inch)%Q (passport_sample_body passport_data).

(** Create a sample passport page (redacted for privacy) *)
Definition create_passport_sample (filename : string) (passport_data : Record) : IO unit :=
  save filename (passport_sample_document passport_data).

(** The statements of [create_proof_of_address], from the creation of the
    story to the call that saves it. *)
Definition proof_of_address_body (address_data : Record) : Py (list Flowable) unit :=
  let title := Paragraph "CITY UTILITIES COMPANY" (styles "Title") in
  story.append title;;
  story.append (Paragraph "123 Utility Street, Springfield, IL 62701" (styles "Normal"));;
  story.append (Paragraph "Phone: (555) 123-UTIL | www.cityutilities.com" (styles "Normal"));;
  story.append (Spacer 1 20);;
  v_account_number ← getitem address_data "account_number";
  v_service_address ← getitem address_data "service_address";
  v_billing_start ← getitem address_data "billing_start";
  v_billing_end ← getitem address_data "billing_end";
  v_bill_date ← getitem address_data "bill_date";
  v_due_date ← getitem address_data "due_date";
  let account_info : list (list Value) := [
    [VStr "Account Number:"; v_account_number];
    [VStr "Service Address:"; v_service_address];
    [VStr "Billing Period:"; VStr (str v_billing_start +:+ " to " +:+ str v_billing_end)];
    [VStr "Bill Date:"; v_bill_date];
    [VStr "Due Date:"; v_due_date]
  ] in
  let info_table := Table account_info [2 * inch; 4 * inch]%Q in
  let info_table := setStyle info_table (TableStyle [
    cmd "ALIGN" (0, 0) (-1, -1) [arg_s "LEFT"];
    cmd "FONTNAME" (0, 0) (0, -1) [arg_s "Helvetica-Bold"];
    cmd "FONTSIZE" (0, 0) (-1, -1) [arg_n 11];
    cmd "BOTTOMPADDING" (0, 0) (-1, -1) [arg_n 8]
  ]) in
  story.append info_table;;
  story.append (Spacer 1 20);;
  let customer_title := Paragraph "BILLING INFORMATION" (styles "Heading2") in
  story.append customer_title;;
  v_customer_name ← getitem address_data "customer_name";
  v_billing_address ← getitem address_data "billing_address";
  v_account_type ← getitem address_data "account_type";
  v_service_type ← getitem address_data "service_type";
  let customer_info : list (list Value) := [
    [VStr "Customer Name:"; v_customer_name];
    [VStr "Billing Address:"; v_billing_address];
    [VStr "Account Type:"; v_account_type];
    [VStr "Service Type:"; v_service_type]
  ] in
  let customer_table := Table customer_info [2 * inch; 4 * inch]%Q in
  let customer_table := setStyle customer_table (TableStyle [
    cmd "ALIGN" (0, 0) (-1, -1) [arg_s "LEFT"];
    cmd "FONTNAME" (0, 0) (0, -1) [arg_s "Helvetica-Bold"];
    cmd "FONTSIZE" (0, 0) (-1, -1) [arg_n 10];
    cmd "BOTTOMPADDING" (0, 0) (-1, -1) [arg_n 6]
  ]) in
  story.append customer_table;;
  story.append (Spacer 1 20);;
  let charges_title := Paragraph "CURRENT CHARGES" (styles "Heading2") in
  story.append charges_title;;
  v_kwh_usage ← getitem address_data "kwh_usage";
  v_kwh_rate ← getitem address_data "kwh_rate";
  s_kwh_rate ← format v_kwh_rate (fixed 4);
  v_electric_charge ← getitem address_data "electric_charge";
  s_electric_charge ← format v_electric_charge (fixed 2);
  v_gas_usage ← getitem address_data "gas_usage";
  v_gas_rate ← getitem address_data "gas_rate";
  s_gas_rate ← format v_gas_rate (fixed 4);
  v_gas_charge ← getitem address_data "gas_charge";
  s_gas_charge ← format v_gas_charge (fixed 2);
  v_water_usage ← getitem address_data "water_usage";
  v_water_rate ← getitem address_data "water_rate";
  s_water_rate ← format v_water_rate (fixed 4);
  v_water_charge ← getitem address_data "water_charge";
  s_water_charge ← format v_water_charge (fixed 2);
  v_service_fee ← getitem address_data "service_fee";
  s_service_fee ← format v_service_fee (fixed 2);
  v_service_fee_2 ← getitem address_data "service_fee";
  s_service_fee_2 ← format v_service_fee_2 (fixed 2);
  v_taxes ← getitem address_data "taxes";
  s_taxes ← format v_taxes (fixed 2);
  v_total_due ← getitem address_data "total_due";
  s_total_due ← format v_total_due (fixed 2);
  let charges_data : list (list Value) := [
    [VStr "Service"; VStr "Usage"; VStr "Rate"; VStr "Amount"];
    [VStr "Electricity"; VStr (str v_kwh_usage +:+ " kWh"); VStr ("$" +:+ s_kwh_rate +:+ "/kWh"); VStr ("$" +:+ s_electric_charge)];
    [VStr "Natural Gas"; VStr (str v_gas_usage +:+ " Therms"); VStr ("$" +:+ s_gas_rate +:+ "/Therm"); VStr ("$" +:+ s_gas_charge)];
    [VStr "Water/Sewer"; VStr (str v_water_usage +:+ " Gallons"); VStr ("$" +:+ s_water_rate +:+ "/Gal"); VStr ("$" +:+ s_water_charge)];
    [VStr "Service Fee"; VStr "1"; VStr ("$" +:+ s_service_fee); VStr ("$" +:+ s_service_fee_2)];
    [VStr "Taxes"; VStr EmptyString; VStr EmptyString; VStr ("$" +:+ s_taxes)];
    [VStr "Total Amount Due"; VStr EmptyString; VStr EmptyString; VStr ("$" +:+ s_total_due)]
  ] in
  let charges_table := Table charges_data [1.5 * inch; 1 * inch; 1 * inch; 1 * inch]%Q in
  let charges_table := setStyle charges_table (TableStyle [
    cmd "BACKGROUND" (0, 0) (-1, 0) [arg_c colors.grey];
    cmd "TEXTCOLOR" (0, 0) (-1, 0) [arg_c colors.whitesmoke];
    cmd "ALIGN" (0, 0) (-1, -1) [arg_s "CENTER"];
    cmd "FONTNAME" (0, 0) (-1, 0) [arg_s "Helvetica-Bold"];
    cmd "FONTNAME" (0, -1) (-1, -1) [arg_s "Helvetica-Bold"];
    cmd "FONTSIZE" (0, 0) (-1, -1) [arg_n 9];
    cmd "BOTTOMPADDING" (0, 0) (-1, -1) [arg_n 6];
    cmd "GRID" (0, 0) (-1, -2) [arg_n 1; arg_c colors.black];
    cmd "LINEABOVE" (0, -1) (-1, -1) [arg_n 2; arg_c colors.black]
  ]) in
  story.append charges_table;;
  story.append (Spacer 1 20);;
  let payment_title := Paragraph "PAYMENT INFORMATION" (styles "Heading2") in
  story.append payment_title;;
  v_due_date_2 ← getitem address_data "due_date";
  let payment_text := ("
    Please remit payment by " +:+ str v_due_date_2 +:+ "
    
    Payment Options:
    • Online: www.cityutilities.com/pay
    • Phone: (555) 123-UTIL
    • Mail: City Utilities, PO Box 12345, Springfield, IL 62701
    • In Person: 123 Utility Street, Springfield, IL
    
    Thank you for your business!
    ") in
  let payment_para := Paragraph payment_text (styles "Normal") in
  story.append payment_para;;
  let footer := Paragraph "This is a sample document for testing purposes only. All information is fictional." (ParagraphStyle "Footer" 8 colors.grey) in
  story.append (Spacer 1 30);;
  story.append footer;;
  ret tt.

Definition proof_of_address_document (address_data : Record) : Result Document :=
  platypus_document letter (proof_of_address_body address_data).

(** Create a proof of address document (utility bill style) *)
Definition create_proof_of_address (filename : string) (address_data : Record) : IO unit :=
  save filename (proof_of_address_document address_data).

(** The statements of [create_bank_statement], from the creation of the
    story to the call that saves it. *)
Definition bank_statement_body (bank_data : Record) : Py (list Flowable) unit :=
  let title := Paragraph "FIRST NATIONAL BANK" (styles "Title") in
  story.append title;;
  story.append (Paragraph "456 Banking Street, Chicago, IL 60601" (styles "Normal"));;
  story.append (Paragraph "Phone: (312) 555-BANK | www.firstnationalbank.com" (styles "Normal"));;
  story.append (Spacer 1 20);;
  let statement_title := Paragraph "MONTHLY ACCOUNT STATEMENT" (styles "Heading1") in
  story.append statement_title;;
  story.append (Spacer 1 12);;
  v_account_holder ← getitem bank_data "account_holder";
  v_account_number_redacted ← getitem bank_data "account_number_redacted";
  v_account_type ← getitem bank_data "account_type";
  v_statement_start ← getitem bank_data "statement_start";
  v_statement_end ← getitem bank_data "statement_end";
  v_statement_date ← getitem bank_data "statement_date";
  let account_info : list (list Value) := [
    [VStr "Account Holder:"; v_account_holder];
    [VStr "Account Number:"; v_account_number_redacted];
    [VStr "Account Type:"; v_account_type];
    [VStr "Statement Period:"; VStr (str v_statement_start +:+ " to " +:+ str v_statement_end)];
    [VStr "Statement Date:"; v_statement_date]
  ] in
  let info_table := Table account_info [2 * inch; 4 * inch]%Q in
  let info_table := setStyle info_table (TableStyle [
    cmd "ALIGN" (0, 0) (-1, -1) [arg_s "LEFT"];
    cmd "FONTNAME" (0, 0) (0, -1) [arg_s "Helvetica-Bold"];
    cmd "FONTSIZE" (0, 0) (-1, -1) [arg_n 11];
    cmd "BOTTOMPADDING" (0, 0) (-1, -1) [arg_n 8]
  ]) in
  story.append info_table;;
  story.append (Spacer 1 20);;
  let summary_title := Paragraph "ACCOUNT SUMMARY" (styles "Heading2") in
  story.append summary_title;;
  v_beginning_balance ← getitem bank_data "beginning_balance";
  s_beginning_balance ← format v_beginning_balance (fixed 2);
  v_total_deposits ← getitem bank_data "total_deposits";
  s_total_deposits ← format v_total_deposits (fixed 2);
  v_total_withdrawals ← getitem bank_data "total_withdrawals";
  s_total_withdrawals ← format v_total_withdrawals (fixed 2);
  v_service_charges ← getitem bank_data "service_charges";
  s_service_charges ← format v_service_charges (fixed 2);
  v_interest_earned ← getitem bank_data "interest_earned";
  s_interest_earned ← format v_interest_earned (fixed 2);
  v_ending_balance ← getitem bank_data "ending_balance";
  s_ending_balance ← format v_ending_balance (fixed 2);
  let summary_info : list (list Value) := [
    [VStr "Beginning Balance:"; VStr ("$" +:+ s_beginning_balance)];
    [VStr "Total Deposits:"; VStr ("$" +:+ s_total_deposits)];
    [VStr "Total Withdrawals:"; VStr ("$" +:+ s_total_withdrawals)];
    [VStr "Service Charges:"; VStr ("$" +:+ s_service_charges)];
    [VStr "Interest Earned:"; VStr ("$" +:+ s_interest_earned)];
    [VStr "Ending Balance:"; VStr ("$" +:+ s_ending_balance)]
  ] in
  let summary_table := Table summary_info [2 * inch; 2 * inch]%Q in
  let summary_table := setStyle summary_table (TableStyle [
    cmd "ALIGN" (0, 0) (-1, -1) [arg_s "LEFT"];
    cmd "ALIGN" (1, 0) (1, -1) [arg_s "RIGHT"];
    cmd "FONTNAME" (0, 0) (0, -1) [arg_s "Helvetica-Bold"];
    cmd "FONTNAME" (0, -1) (-1, -1) [arg_s "Helvetica-Bold"];
    cmd "FONTSIZE" (0, 0) (-1, -1) [arg_n 10];
    cmd "BOTTOMPADDING" (0, 0) (-1, -1) [arg_n 6];
    cmd "LINEABOVE" (0, -1) (-1, -1) [arg_n 1; arg_c colors.black]
  ]) in
  story.append summary_table;;
  story.append (Spacer 1 20);;
  let transactions_title := Paragraph "TRANSACTION HISTORY (SAMPLE)" (styles "Heading2") in
  story.append transactions_title;;
  v_statement_start_2 ← getitem bank_data "statement_start";
  v_beginning_balance_2 ← getitem bank_data "beginning_balance";
  s_beginning_balance_2 ← format v_beginning_balance_2 (fixed 2);
  v_statement_end_2 ← getitem bank_data "statement_end";
  v_ending_balance_2 ← getitem bank_data "ending_balance";
  s_ending_balance_2 ← format v_ending_balance_2 (fixed 2);
  let transaction_data : list (list Value) := [
    [VStr "Date"; VStr "Description"; VStr "Withdrawal"; VStr "Deposit"; VStr "Balance"];
    [v_statement_start_2; VStr "Beginning Balance"; VStr EmptyString; VStr EmptyString; VStr ("$" +:+ s_beginning_balance_2)];
    [VStr "XX/XX/XXXX"; VStr "DEPOSIT - PAYROLL [REDACTED]"; VStr EmptyString; VStr "XXX.XX"; VStr "XXX.XX"];
    [VStr "XX/XX/XXXX"; VStr "DEBIT CARD PURCHASE [REDACTED]"; VStr "XXX.XX"; VStr EmptyString; VStr "XXX.XX"];
    [VStr "XX/XX/XXXX"; VStr "ONLINE TRANSFER [REDACTED]"; VStr "XXX.XX"; VStr EmptyString; VStr "XXX.XX"];
    [VStr "XX/XX/XXXX"; VStr "ATM WITHDRAWAL [REDACTED]"; VStr "XXX.XX"; VStr EmptyString; VStr "XXX.XX"];
    [VStr "XX/XX/XXXX"; VStr "DEPOSIT - MOBILE [REDACTED]"; VStr EmptyString; VStr "XXX.XX"; VStr "XXX.XX"];
    [v_statement_end_2; VStr "Ending Balance"; VStr EmptyString; VStr EmptyString; VStr ("$" +:+ s_ending_balance_2)]
  ] in
  let transaction_table := Table transaction_data [1 * inch; 2.5 * inch; 1 * inch; 1 * inch; 1 * inch]%Q in
  let transaction_table := setStyle transaction_table (TableStyle [
    cmd "BACKGROUND" (0, 0) (-1, 0) [arg_c colors.grey];
    cmd "TEXTCOLOR" (0, 0) (-1, 0) [arg_c colors.whitesmoke];
    cmd "ALIGN" (0, 0) (-1, -1) [arg_s "CENTER"];
    cmd "FONTNAME" (0, 0) (-1, 0) [arg_s "Helvetica-Bold"];
    cmd "FONTNAME" (0, -1) (-1, -1) [arg_s "Helvetica-Bold"];
    cmd "FONTSIZE" (0, 0) (-1, -1) [arg_n 8];
    cmd "BOTTOMPADDING" (0, 0) (-1, -1) [arg_n 4];
    cmd "GRID" (0, 0) (-1, -1) [arg_n 1; arg_c colors.black]
  ]) in
  story.append transaction_table;;
  story.append (Spacer 1 20);;
  let redaction_notice := Paragraph "<b>PRIVACY NOTICE:</b> Specific transaction details and amounts have been redacted for privacy protection. This statement demonstrates format and layout only." (ParagraphStyle "Notice" 9 colors.red) in
  story.append redaction_notice;;
  let footer := Paragraph "This is a sample document for testing purposes only. All information is fictional." (ParagraphStyle "Footer" 8 colors.grey) in
  story.append (Spacer 1 30);;
  story.append footer;;
  ret tt.

Definition bank_statement_document (bank_data : Record) : Result Document :=
  platypus_document letter (bank_statement_body bank_data).

(** Create a sample bank statement (redacted) *)
Definition create_bank_statement (filename : string) (bank_data : Record) : IO unit :=
  save filename (bank_statement_document bank_data).

(** The statements of [create_employment_letter], from the creation of the
    story to the call that saves it. *)
Definition employment_letter_body (employment_data : Record) : Py (list Flowable) unit :=
  let company_title := Paragraph "GLOBAL TECHNOLOGY SOLUTIONS INC." (styles "Title") in
  story.append company_title;;
  story.append (Paragraph "789 Business Park Drive, Suite 500" (styles "Normal"));;
  story.append (Paragraph "Chicago, Illinois 60601" (styles "Normal"));;
  story.append (Paragraph "Phone: (312) 555-0199 | Fax: (312) 555-0198" (styles "Normal"));;
  story.append (Spacer 1 30);;
  v_letter_date ← getitem employment_data "letter_date";
  let date_para := Paragraph ("Date: " +:+ str v_letter_date) (styles "Normal") in
  story.append date_para;;
  story.append (Spacer 1 20);;
  let subject_title := Paragraph "EMPLOYMENT VERIFICATION LETTER" (styles "Heading1") in
  story.append subject_title;;
  story.append (Spacer 1 20);;
  let salutation := Paragraph "To Whom It May Concern:" (styles "Normal") in
  story.append salutation;;
  story.append (Spacer 1 12);;
  v_employee_name ← getitem employment_data "employee_name";
  v_employee_name_2 ← getitem employment_data "employee_name";
  v_employee_id ← getitem employment_data "employee_id";
  v_position ← getitem employment_data "position";
  v_department ← getitem employment_data "department";
  v_employment_status ← getitem employment_data "employment_status";
  v_start_date ← getitem employment_data "start_date";
  v_current_status ← getitem employment_data "current_status";
  v_annual_salary ← getitem employment_data "annual_salary";
  s_annual_salary ← format v_annual_salary grouped;
  v_pay_frequency ← getitem employment_data "pay_frequency";
  v_employment_type ← getitem employment_data "employment_type";
  v_standard_hours ← getitem employment_data "standard_hours";
  v_work_location ← getitem employment_data "work_location";
  v_employee_name_3 ← getitem employment_data "employee_name";
  v_performance_note ← getitem employment_data "performance_note";
  let body_text := ("
    This letter serves to verify the employment of <b>" +:+ str v_employee_name +:+ "</b> 
    with Global Technology Solutions Inc.
    
    Employee Details:
    • Full Name: " +:+ str v_employee_name_2 +:+ "
    • Employee ID: " +:+ str v_employee_id +:+ "
    • Position/Title: " +:+ str v_position +:+ "
    • Department: " +:+ str v_department +:+ "
    • Employment Status: " +:+ str v_employment_status +:+ "
    • Employment Start Date: " +:+ str v_start_date +:+ "
    • Current Employment: " +:+ str v_current_status +:+ "
    
    Compensation Information:
    • Current Annual Salary: $" +:+ s_annual_salary +:+ "
    • Pay Frequency: " +:+ str v_pay_frequency +:+ "
    • Employment Type: " +:+ str v_employment_type +:+ "
    
    Work Schedule:
    • Standard Hours: " +:+ str v_standard_hours +:+ " hours per week
    • Work Location: " +:+ str v_work_location +:+ "
    
    " +:+ str v_employee_name_3 +:+ " is a valued member of our team and has consistently 
    demonstrated " +:+ str v_performance_note +:+ ". This employment verification is 
    provided for official purposes only.
    
    If you require any additional information or have questions regarding this verification, 
    please feel free to contact our Human Resources department at (312) 555-0199 ext. 1234 
    or via email at hr@globaltechsolutions.com.
    ") in
  let body_para := Paragraph body_text (styles "Normal") in
  story.append body_para;;
  story.append (Spacer 1 30);;
  let closing_text := "
    Sincerely,
    
    
    
    
    Sarah Johnson
    Director of Human Resources
    Global Technology Solutions Inc.
    Phone: (312) 555-0199 ext. 1234
    Email: sjohnson@globaltechsolutions.com
    " in
  let closing_para := Paragraph closing_text (styles "Normal") in
  story.append closing_para;;
  story.append (Spacer 1 20);;
  let disclaimer := Paragraph "<i>This letter is confidential and intended solely for the purpose stated. Any unauthorized distribution or use is prohibited.</i>" (ParagraphStyle "Disclaimer" 8 colors.grey) in
  story.append disclaimer;;
  let footer := Paragraph "This is a sample document for testing purposes only. All information is fictional." (ParagraphStyle "Footer" 8 colors.grey) in
  story.append (Spacer 1 20);;
  story.append footer;;
  ret tt.

Definition employment_letter_document (employment_data : Record) : Result Document :=
  platypus_document letter (employment_letter_body employment_data).

(** Create an employment verification letter *)
Definition create_employment_letter (filename : string) (employment_data : Record) : IO unit :=
  save filename (employment_letter_document employment_data).

(** The statements of [create_medical_certificate], from the creation of the
    story to the call that saves it. *)
Definition medical_certificate_body (medical_data : Record) : Py (list Flowable) unit :=
  let practice_title := Paragraph "SPRINGFIELD MEDICAL CENTER" (styles "Title") in
  story.append practice_title;;
  story.append (Paragraph "123 Healthcare Drive, Springfield, IL 62701" (styles "Normal"));;
  story.append (Paragraph "Phone: (217) 555-CARE | Fax: (217) 555-CARE" (styles "Normal"));;
  story.append (Spacer 1 20);;
  let cert_title := Paragraph "MEDICAL CERTIFICATE" (styles "Heading1") in
  story.append cert_title;;
  story.append (Spacer 1 12);;
  v_certificate_number ← getitem medical_data "certificate_number";
  v_issue_date ← getitem medical_data "issue_date";
  v_physician_name ← getitem medical_data "physician_name";
  v_physician_license ← getitem medical_data "physician_license";
  v_physician_specialty ← getitem medical_data "physician_specialty";
  let cert_info : list (list Value) := [
    [VStr "Certificate Number:"; v_certificate_number];
    [VStr "Issue Date:"; v_issue_date];
    [VStr "Physician:"; v_physician_name];
    [VStr "License Number:"; v_physician_license];
    [VStr "Specialty:"; v_physician_specialty]
  ] in
  let info_table := Table cert_info [2 * inch; 4 * inch]%Q in
  let info_table := setStyle info_table (TableStyle [
    cmd "ALIGN" (0, 0) (-1, -1) [arg_s "LEFT"];
    cmd "FONTNAME" (0, 0) (0, -1) [arg_s "Helvetica-Bold"];
    cmd "FONTSIZE" (0, 0) (-1, -1) [arg_n 11];
    cmd "BOTTOMPADDING" (0, 0) (-1, -1) [arg_n 8]
  ]) in
  story.append info_table;;
  story.append (Spacer 1 20);;
  let patient_title := Paragraph "PATIENT INFORMATION" (styles "Heading2") in
  story.append patient_title;;
  v_patient_name ← getitem medical_data "patient_name";
  v_patient_dob ← getitem medical_data "patient_dob";
  v_patient_id ← getitem medical_data "patient_id";
  v_examination_date ← getitem medical_data "examination_date";
  let patient_info : list (list Value) := [
    [VStr "Patient Name:"; v_patient_name];
    [VStr "Date of Birth:"; v_patient_dob];
    [VStr "Patient ID:"; v_patient_id];
    [VStr "Examination Date:"; v_examination_date]
  ] in
  let patient_table := Table patient_info [2 * inch; 4 * inch]%Q in
  let patient_table := setStyle patient_table (TableStyle [
    cmd "ALIGN" (0, 0) (-1, -1) [arg_s "LEFT"];
    cmd "FONTNAME" (0, 0) (0, -1) [arg_s "Helvetica-Bold"];
    cmd "FONTSIZE" (0, 0) (-1, -1) [arg_n 10];
    cmd "BOTTOMPADDING" (0, 0) (-1, -1) [arg_n 6]
  ]) in
  story.append patient_table;;
  story.append (Spacer 1 20);;
  let findings_title := Paragraph "MEDICAL FINDINGS" (styles "Heading2") in
  story.append findings_title;;
  v_chief_complaint ← getitem medical_data "chief_complaint";
  v_history_present_illness ← getitem medical_data "history_present_illness";
  v_blood_pressure ← getitem medical_data "blood_pressure";
  v_heart_rate ← getitem medical_data "heart_rate";
  v_temperature ← getitem medical_data "temperature";
  v_respiratory_rate ← getitem medical_data "respiratory_rate";
  v_general_appearance ← getitem medical_data "general_appearance";
  v_relevant_findings ← getitem medical_data "relevant_findings";
  v_diagnostic_tests ← getitem medical_data "diagnostic_tests";
  v_diagnosis ← getitem medical_data "diagnosis";
  v_treatment ← getitem medical_data "treatment";
  v_restrictions ← getitem medical_data "restrictions";
  v_followup ← getitem medical_data "followup";
  let findings_text := ("
    <b>Chief Complaint:</b> " +:+ str v_chief_complaint +:+ "
    
    <b>History of Present Illness:</b>
    " +:+ str v_history_present_illness +:+ "
    
    <b>Physical Examination:</b>
    • Vital Signs: BP " +:+ str v_blood_pressure +:+ ", HR " +:+ str v_heart_rate +:+ ", 
      Temp " +:+ str v_temperature +:+ "°F, Resp " +:+ str v_respiratory_rate +:+ "
    • General Appearance: " +:+ str v_general_appearance +:+ "
    • Relevant Findings: " +:+ str v_relevant_findings +:+ "
    
    <b>Diagnostic Tests:</b>
    " +:+ str v_diagnostic_tests +:+ "
    
    <b>Assessment and Diagnosis:</b>
    " +:+ str v_diagnosis +:+ "
    
    <b>Treatment Provided:</b>
    " +:+ str v_treatment +:+ "
    
    <b>Work/Activity Restrictions:</b>
    " +:+ str v_restrictions +:+ "
    
    <b>Follow-up Care:</b>
    " +:+ str v_followup +:+ "
    ") in
  let findings_para := Paragraph findings_text (styles "Normal") in
  story.append findings_para;;
  story.append (Spacer 1 20);;
  v_examination_date_2 ← getitem medical_data "examination_date";
  v_physician_signature ← getitem medical_data "physician_signature";
  v_signature_date ← getitem medical_data "signature_date";
  v_physician_name_2 ← getitem medical_data "physician_name";
  v_physician_credentials ← getitem medical_data "physician_credentials";
  v_physician_specialty_2 ← getitem medical_data "physician_specialty";
  v_physician_license_2 ← getitem medical_data "physician_license";
  let cert_text := ("
    <b>PHYSICIAN CERTIFICATION:</b>
    
    I certify that I have examined the above-named patient on " +:+ str v_examination_date_2 +:+ " 
    and that the information provided in this certificate is accurate to the best of my 
    medical knowledge and professional judgment.
    
    This certificate is issued for insurance/legal purposes as requested.
    
    Physician Signature: " +:+ str v_physician_signature +:+ "
    Date: " +:+ str v_signature_date +:+ "
    
    Dr. " +:+ str v_physician_name_2 +:+ ", " +:+ str v_physician_credentials +:+ "
    " +:+ str v_physician_specialty_2 +:+ "
    License #: " +:+ str v_physician_license_2 +:+ "
    ") in
  let cert_para := Paragraph cert_text (styles "Normal") in
  story.append cert_para;;
  story.append (Spacer 1 20);;
  let disclaimer := Paragraph "<i>This medical certificate is confidential and contains protected health information. Distribution is restricted to authorized parties only.</i>" (ParagraphStyle "Disclaimer" 8 colors.grey) in
  story.append disclaimer;;
  let footer := Paragraph "This is a sample document for testing purposes only. All information is fictional." (ParagraphStyle "Footer" 8 colors.grey) in
  story.append (Spacer 1 20);;
  story.append footer;;
  ret tt.

Definition medical_certificate_document (medical_data : Record) : Result Document :=
  platypus_document letter (medical_certificate_body medical_data).

(** Create a medical certificate for general accident insurance *)
Definition create_medical_certificate (filename : string) (medical_data : Record) : IO unit :=
  save filename (medical_certificate_document medical_data).

End Renderers.

#[global] Hint Unfold id_card_body id_card_document : renderers.
#[global] Hint Unfold passport_sample_body passport_sample_document : renderers.
#[global] Hint Unfold proof_of_address_body proof_of_address_document : renderers.
#[global] Hint Unfold bank_statement_body bank_statement_document : renderers.
#[global] Hint Unfold employment_letter_body employment_letter_document : renderers.
#[global] Hint Unfold medical_certificate_body medical_certificate_document : renderers.

(** The literal sample records of [generate_general_forms_docs]. *)
Definition id_data : Record := list_to_map [
  ("id_number", VStr "ID-789456123");
  ("issue_date", VStr "2022-01-15");
  ("expiry_date", VStr "2027-01-15");
  ("name_redacted", VStr "XXXXXXX XXXXXXX");
  ("dob_redacted", VStr "XX/XX/XXXX");
  ("address_redacted", VStr "XXX XXXXXXX ST, XXXXXXX, XX XXXXX")
].

Definition passport_data : Record := list_to_map [
  ("passport_number", VStr "XXXXXXXXX");
  ("passport_type", VStr "P");
  ("issue_date", VStr "15 JAN 22");
  ("expiry_date", VStr "14 JAN 32");
  ("surname_redacted", VStr "XXXXXXX");
  ("given_names_redacted", VStr "XXXXXXX XXXXXXX");
  ("nationality", VStr "USA");
  ("dob_redacted", VStr "XX XXX XX");
  ("pob_redacted", VStr "XXXXXXX, XX, USA");
  ("sex_redacted", VStr "X")
].

Definition address_data : Record := list_to_map [
  ("account_number", VStr "UTIL-789456");
  ("service_address", VStr "123 Main Street, Springfield, IL 62701");
  ("billing_start", VStr "2024-08-01");
  ("billing_end", VStr "2024-08-31");
  ("bill_date", VStr "2024-09-01");
  ("due_date", VStr "2024-09-25");
  ("customer_name", VStr "John M. Smith");
  ("billing_address", VStr "123 Main Street, Springfield, IL 62701");
  ("account_type", VStr "Residential");
  ("service_type", VStr "Electric, Gas, Water");
  ("kwh_usage", VInt 1245);
  ("kwh_rate", VFloat (float_literal 1235 4));
  ("electric_charge", VFloat (float_literal 15376 2));
  ("gas_usage", VInt 45);
  ("gas_rate", VFloat (float_literal 8950 4));
  ("gas_charge", VFloat (float_literal 4028 2));
  ("water_usage", VInt 5680);
  ("water_rate", VFloat (float_literal 89 4));
  ("water_charge", VFloat (float_literal 5055 2));
  ("service_fee", VFloat (float_literal 2500 2));
  ("taxes", VFloat (float_literal 2718 2));
  ("total_due", VFloat (float_literal 29677 2))
].

Definition bank_data : Record := list_to_map [
  ("account_holder", VStr "John M. Smith");
  ("account_number_redacted", VStr "XXXX-XXXX-XXXX-5678");
  ("account_type", VStr "Personal Checking");
  ("statement_start", VStr "2024-08-01");
  ("statement_end", VStr "2024-08-31");
  ("statement_date", VStr "2024-09-01");
  ("beginning_balance", VFloat (float_literal 284752 2));
  ("total_deposits", VFloat (float_literal 425000 2));
  ("total_withdrawals", VFloat (float_literal 219567 2));
  ("service_charges", VFloat (float_literal 1500 2));
  ("interest_earned", VFloat (float_literal 215 2));
  ("ending_balance", VFloat (float_literal 488900 2))
].

Definition employment_data : Record := list_to_map [
  ("letter_date", VStr "2024-09-15");
  ("employee_name", VStr "Jennifer Martinez");
  ("employee_id", VStr "EMP-5678");
  ("position", VStr "Senior Software Engineer");
  ("department", VStr "Information Technology");
  ("employment_status", VStr "Full-Time Regular Employee");
  ("start_date", VStr "2021-03-15");
  ("current_status", VStr "Active as of this letter date");
  ("annual_salary", VInt 95000);
  ("pay_frequency", VStr "Bi-weekly");
  ("employment_type", VStr "Full-Time Exempt");
  ("standard_hours", VInt 40);
  ("work_location", VStr "Chicago, IL Office with Remote Work Options");
  ("performance_note", VStr "excellent technical skills and professional conduct")
].

Definition medical_data : Record := list_to_map [
  ("certificate_number", VStr "MED-CERT-789456");
  ("issue_date", VStr "2024-09-18");
  ("physician_name", VStr "Dr. Emily Rodriguez");
  ("physician_license", VStr "MD-123456");
  ("physician_specialty", VStr "Family Medicine");
  ("patient_name", VStr "Michael Thompson");
  ("patient_dob", VStr "1985-06-22");
  ("patient_id", VStr "PAT-456789");
  ("examination_date", VStr "2024-09-15");
  ("chief_complaint", VStr "Follow-up examination after minor motor vehicle accident");
  ("history_present_illness", VStr "Patient was involved in a minor rear-end collision on 2024-09-10. Reports mild neck soreness and headache for 2-3 days following incident. No loss of consciousness. Symptoms improving.");
  ("blood_pressure", VStr "128/78");
  ("heart_rate", VStr "72");
  ("temperature", VStr "98.6");
  ("respiratory_rate", VStr "16");
  ("general_appearance", VStr "Alert, well-appearing, no acute distress");
  ("relevant_findings", VStr "Mild cervical muscle tenderness, full range of motion. No neurological deficits.");
  ("diagnostic_tests", VStr "Cervical spine X-rays performed - no fractures or acute abnormalities detected");
  ("diagnosis", VStr "Cervical strain (ICD-10: S13.4), Post-concussion symptoms, mild (ICD-10: F07.81)");
  ("treatment", VStr "NSAIDs for pain management, muscle relaxants as needed, physical therapy referral");
  ("restrictions", VStr "May return to regular activities. Avoid heavy lifting (>20 lbs) for 1 week. Cleared for work with standard duties.");
  ("followup", VStr "Follow-up in 2 weeks if symptoms persist. Return sooner if symptoms worsen.");
  ("physician_signature", VStr "Emily Rodriguez, MD");
  ("signature_date", VStr "2024-09-18");
  ("physician_credentials", VStr "MD, FAAFP")
].

(** Generate all general forms documents *)
Definition generate_general_forms_docs `{PyBuiltins} : IO unit :=
  (create_id_card "test-documents/general-forms/sample_id_card_redacted.pdf" id_data;;
   create_passport_sample "test-documents/general-forms/sample_passport_redacted.pdf" passport_data;;
   create_proof_of_address "test-documents/general-forms/proof_of_address_utility_bill.pdf" address_data;;
   create_bank_statement "test-documents/general-forms/bank_statement_sample.pdf" bank_data;;
   create_employment_letter "test-documents/general-forms/employment_verification_letter.pdf" employment_data;;
   create_medical_certificate "test-documents/general-forms/medical_certificate.pdf" medical_data)%io.

End generate_general_forms_pdfs.
(** * Document types and their templates *)

(** What a renderer does with the value of a field once it has looked it up. *)
Inductive Use : Type :=
  | any                          (* passed on as it is, or through [str] *)
  | formatted (spec : FormatSpec)
  | lowered
  | weighted (w : spec_float)    (* [int(v * w)] *)
  | iterated.

(** One access to the record: [d[k]], [d.get(k, default)], or [d[k]] under
    [if d.get(k)]. *)
Inductive Field : Type :=
  | required (key : string) (use : Use)
  | optional (key : string) (use : Use)
  | when_truthy (key : string) (use : Use).

Definition field_key (f : Field) : string :=
  match f with required k _ | optional k _ | when_truthy k _ => k end.

(** The fields a template reads with [d[k]] outside any test. *)
Fixpoint required_keys (t : list Field) : list string :=
  match t with
  | [] => []
  | required k _ :: t' => k :: required_keys t'
  | _ :: t' => required_keys t'
  end.

(** The document types: one per renderer function; the claim form has two
    modes. *)
Inductive DocType : Type :=
  | VehicleRegistration
  | DriversLicense
  | VehicleInspectionReport
  | InsurancePolicy
  | ClaimForm (is_blank : bool)
  | PropertyDeed
  | BuildingPermit
  | FireSafetyCertificate
  | PropertyValuation
  | ConstructionSpecifications
  | BusinessRegistration
  | FinancialStatement
  | LiabilityPolicy
  | ContractDocument
  | RiskAssessment
  | IdCard
  | PassportSample
  | ProofOfAddress
  | BankStatement
  | EmploymentLetter
  | MedicalCertificate.


Section Model.
Context `{PyBuiltins}.

(** The exception a use raises on a value, if any. *)
Definition check (u : Use) (v : Value) : option PyError :=
  match u with
  | any => None
  | formatted spec => error_of (format_value v spec)
  | lowered => error_of (lower_value v)
  | weighted w =>
      match mul_value v w with
      | Ok x => error_of (int_of_float x)
      | Raise e => Some e
      end
  | iterated => error_of (iter_value v)
  end.

(** The first exception met when the accesses are made in order. *)
Fixpoint first_error (t : list Field) (d : Record) : option PyError :=
  match t with
  | [] => None
  | required k u :: t' =>
      match d !! k with
      | None => Some (KeyError k)
      | Some v => match check u v with Some e => Some e | None => first_error t' d end
      end
  | optional k u :: t' =>
      match d !! k with
      | None => first_error t' d
      | Some v => match check u v with Some e => Some e | None => first_error t' d end
      end
  | when_truthy k u :: t' =>
      if truthy (d !! k) then
        match d !! k with
        | None => Some (KeyError k)
        | Some v => match check u v with Some e => Some e | None => first_error t' d end
        end
      else first_error t' d
  end.

(** The drawing phase of each renderer. *)
Definition document (T : DocType) (data : Record) : Result Document :=
  match T with
  | VehicleRegistration => generate_test_pdfs.vehicle_registration_document data
  | DriversLicense => generate_test_pdfs.drivers_license_document data
  | VehicleInspectionReport => generate_test_pdfs.vehicle_inspection_report_document data
  | InsurancePolicy => generate_test_pdfs.insurance_policy_document data
  | ClaimForm is_blank => generate_test_pdfs.claim_form_document data is_blank
  | PropertyDeed => generate_fire_insurance_pdfs.property_deed_document data
  | BuildingPermit => generate_fire_insurance_pdfs.building_permit_document data
  | FireSafetyCertificate => generate_fire_insurance_pdfs.fire_safety_certificate_document data
  | PropertyValuation => generate_fire_insurance_pdfs.property_valuation_document data
  | ConstructionSpecifications => generate_fire_insurance_pdfs.construction_specifications_document data
  | BusinessRegistration => generate_liability_insurance_pdfs.business_registration_document data
  | FinancialStatement => generate_liability_insurance_pdfs.financial_statement_document data
  | LiabilityPolicy => generate_liability_insurance_pdfs.liability_policy_document data
  | ContractDocument => generate_liability_insurance_pdfs.contract_document_document data
  | RiskAssessment => generate_liability_insurance_pdfs.risk_assessment_document data
  | IdCard => generate_general_forms_pdfs.id_card_document data
  | PassportSample => generate_general_forms_pdfs.passport_sample_document data
  | ProofOfAddress => generate_general_forms_pdfs.proof_of_address_document data
  | BankStatement => generate_general_forms_pdfs.bank_statement_document data
  | EmploymentLetter => generate_general_forms_pdfs.employment_letter_document data
  | MedicalCertificate => generate_general_forms_pdfs.medical_certificate_document data
  end.

(** [render T filename data] is the renderer of [T]: draw, then save. *)
Definition render (T : DocType) (filename : string) (data : Record) : IO unit :=
  save filename (document T data).

(** The accesses each renderer makes to its record, in evaluation order. *)
Definition template (T : DocType) : list Field :=
  match T with
  | VehicleRegistration =>
      [required "doc_number" any;
       required "issue_date" any;
       required "reg_number" any;
       required "make" any;
       required "model" any;
       required "year" any;
       required "engine_number" any;
       required "chassis_number" any;
       required "color" any;
       required "fuel_type" any;
       required "owner_name" any;
       required "owner_address" any;
       required "owner_id" any;
       required "owner_phone" any]
  | DriversLicense =>
      [required "license_number" any;
       required "license_class" any;
       required "expiry_date" any;
       required "full_name" any;
       required "date_of_birth" any;
       required "address" any;
       optional "restrictions" iterated]
  | VehicleInspectionReport =>
      [required "inspection_date" any;
       required "inspector_name" any;
       required "inspector_license" any;
       required "station_name" any;
       required "certificate_number" any;
       required "reg_number" any;
       required "make" any;
       required "model" any;
       required "year" any;
       required "mileage" any;
       required "vin" any;
       required "result" any]
  | InsurancePolicy =>
      [required "policy_number" any;
       required "start_date" any;
       required "end_date" any;
       required "company_name" any;
       required "agent_name" any;
       required "issue_date" any;
       required "insured_name" any;
       required "insured_address" any;
       required "insured_phone" any;
       required "insured_email" any;
       required "license_number" any;
       required "vehicle_year" any;
       required "vehicle_make" any;
       required "vehicle_model" any;
       required "vehicle_vin" any;
       required "license_plate" any;
       required "vehicle_use" any]
  | ClaimForm is_blank =>
      if is_blank then [] else
      [required "claim_number" any;
       required "report_date" any;
       required "policy_number" any;
       required "insured_name" any;
       required "phone" any;
       required "email" any;
       required "loss_date" any;
       required "loss_time" any;
       required "location" any;
       required "description" any;
       required "vehicle" any;
       required "license_plate" any;
       required "vin" any;
       required "estimated_damage" any;
       required "signature" any;
       required "signature_date" any]
  | PropertyDeed =>
      [required "deed_number" any;
       required "recording_date" any;
       required "county" any;
       required "legal_description" any;
       required "street_address" any;
       required "city" any;
       required "state" any;
       required "zip_code" any;
       required "parcel_id" any;
       required "lot_size" any;
       required "current_owner" any;
       required "previous_owner" any;
       required "transfer_date" any;
       required "purchase_price" (formatted grouped);
       required "property_type" any;
       when_truthy "encumbrances" iterated]
  | BuildingPermit =>
      [required "permit_number" any;
       required "issue_date" any;
       required "expiration_date" any;
       required "property_address" any;
       required "parcel_number" any;
       required "zoning" any;
       required "property_owner" any;
       required "owner_phone" any;
       required "work_description" any;
       required "construction_type" any;
       required "estimated_cost" (formatted grouped);
       required "square_footage" any;
       required "stories" any;
       required "contractor_name" any;
       required "contractor_license" any;
       required "contractor_phone" any;
       required "contractor_address" any;
       optional "approvals" iterated]
  | FireSafetyCertificate =>
      [required "certificate_number" any;
       required "issue_date" any;
       required "expiration_date" any;
       required "issuing_authority" any;
       required "inspector_name" any;
       required "property_address" any;
       required "building_type" any;
       required "occupancy_type" any;
       required "floor_area" any;
       required "number_of_floors" any;
       required "alarm_test_date" any;
       required "sprinkler_test_date" any;
       required "exit_test_date" any;
       required "extinguisher_test_date" any;
       required "lighting_test_date" any;
       required "door_test_date" any;
       required "inspection_date" any;
       required "expiration_date" any;
       required "marshal_signature" any;
       required "signature_date" any;
       required "badge_number" any]
  | PropertyValuation =>
      [required "report_number" any;
       required "valuation_date" any;
       required "report_date" any;
       required "appraiser_name" any;
       required "appraiser_license" any;
       required "purpose" any;
       required "property_address" any;
       required "legal_description" any;
       required "property_type" any;
       required "year_built" any;
       required "living_area" (formatted grouped);
       required "lot_size" (formatted grouped);
       required "bedrooms" any;
       required "bathrooms" any;
       required "sales_comparison" (formatted grouped);
       required "sales_comparison" (weighted (float_literal 6 1));
       required "cost_approach" (formatted grouped);
       required "cost_approach" (weighted (float_literal 25 2));
       required "income_approach" (formatted grouped);
       required "income_approach" (weighted (float_literal 15 2));
       required "final_value" (formatted grouped);
       required "market_conditions" any;
       required "low_comp" (formatted grouped);
       required "high_comp" (formatted grouped);
       required "market_trend" any;
       required "market_activity" any;
       required "days_on_market" any;
       required "appraiser_signature" any;
       required "signature_date" any]
  | ConstructionSpecifications =>
      [required "project_name" any;
       required "project_address" any;
       required "architect" any;
       required "contractor" any;
       required "project_manager" any;
       required "spec_date" any]
  | BusinessRegistration =>
      [required "registration_number" any;
       required "issue_date" any;
       required "expiration_date" any;
       required "business_name" any;
       required "dba_name" any;
       required "business_type" any;
       required "industry" any;
       required "federal_ein" any;
       required "state_tax_id" any;
       required "street_address" any;
       required "city" any;
       required "state" any;
       required "zip_code" any;
       required "phone" any;
       required "email" any;
       required "principal_owner" any;
       required "owner_title" any;
       required "ownership_percentage" any;
       required "owner_address" any;
       optional "activities" iterated]
  | FinancialStatement =>
      [required "company_name" any;
       required "period_start" any;
       required "period_end" any;
       required "statement_date" any;
       required "prepared_by" any;
       required "cpa_firm" any;
       required "cash" (formatted grouped);
       required "accounts_receivable" (formatted grouped);
       required "inventory" (formatted grouped);
       required "prepaid_expenses" (formatted grouped);
       required "total_current_assets" (formatted grouped);
       required "ppe" (formatted grouped);
       required "accumulated_depreciation" (formatted grouped);
       required "net_fixed_assets" (formatted grouped);
       required "total_assets" (formatted grouped);
       required "accounts_payable" (formatted grouped);
       required "accrued_expenses" (formatted grouped);
       required "short_term_debt" (formatted grouped);
       required "total_current_liabilities" (formatted grouped);
       required "long_term_debt" (formatted grouped);
       required "total_liabilities" (formatted grouped);
       required "common_stock" (formatted grouped);
       required "retained_earnings" (formatted grouped);
       required "total_equity" (formatted grouped);
       required "total_liab_equity" (formatted grouped);
       required "revenue" (formatted grouped);
       required "cogs" (formatted grouped);
       required "gross_profit" (formatted grouped);
       required "salaries" (formatted grouped);
       required "rent_utilities" (formatted grouped);
       required "marketing" (formatted grouped);
       required "professional_services" (formatted grouped);
       required "other_expenses" (formatted grouped);
       required "total_operating_expenses" (formatted grouped);
       required "operating_income" (formatted grouped);
       required "interest_expense" (formatted grouped);
       required "income_before_taxes" (formatted grouped);
       required "tax_expense" (formatted grouped);
       required "net_income" (formatted grouped)]
  | LiabilityPolicy =>
      [required "policy_number" any;
       required "effective_date" any;
       required "expiration_date" any;
       required "insurance_company" any;
       required "agent_name" any;
       required "issue_date" any;
       required "business_name" any;
       required "business_address" any;
       required "business_phone" any;
       required "principal_contact" any;
       required "industry_classification" any;
       required "each_occurrence" (formatted grouped);
       required "general_aggregate" (formatted grouped);
       required "bd_pd_premium" (formatted grouped);
       required "personal_injury_limit" (formatted grouped);
       required "personal_injury_premium" (formatted grouped);
       required "products_ops_occurrence" (formatted grouped);
       required "products_ops_aggregate" (formatted grouped);
       required "products_ops_premium" (formatted grouped);
       required "medical_expenses" (formatted grouped);
       required "medical_premium" (formatted grouped);
       required "total_premium" (formatted grouped);
       required "deductible" (formatted grouped);
       required "claims_phone" any;
       required "claims_hotline" any;
       required "claims_website" any]
  | ContractDocument =>
      [required "contract_number" any;
       required "effective_date" any;
       required "contract_term" any;
       required "contract_value" (formatted grouped);
       required "provider_name" any;
       required "provider_address" any;
       required "provider_contact" any;
       required "provider_phone" any;
       required "provider_email" any;
       required "client_name" any;
       required "client_address" any;
       required "client_contact" any;
       required "client_phone" any;
       required "client_email" any;
       required "scope_of_work" any;
       required "service_location" any;
       required "completion_date" any;
       required "initial_payment" (formatted grouped);
       required "initial_due_date" any;
       required "progress_payment_1" (formatted grouped);
       required "progress_due_1" any;
       required "progress_payment_2" (formatted grouped);
       required "progress_due_2" any;
       required "final_payment" (formatted grouped);
       required "final_due_date" any;
       required "total_payments" (formatted grouped);
       required "required_gl_coverage" (formatted grouped);
       required "required_pl_coverage" (formatted grouped);
       required "required_auto_coverage" (formatted grouped);
       required "provider_signatory" any;
       required "client_signatory" any;
       required "provider_title" any;
       required "client_title" any]
  | RiskAssessment =>
      [required "assessment_id" any;
       required "assessment_date" any;
       required "assessor_name" any;
       required "company_name" any;
       required "industry" any;
       required "assessment_type" any;
       required "overall_risk_rating" any;
       required "company_name" any;
       required "overall_risk_rating" lowered;
       required "key_concerns" any;
       required "strengths" any;
       required "premises_risk" any;
       required "product_risk" any;
       required "professional_risk" any;
       required "cyber_risk" any;
       required "employment_risk" any;
       required "environmental_risk" any;
       required "recommended_gl_limit" (formatted grouped);
       required "recommended_pl_limit" (formatted grouped);
       required "recommended_cyber_limit" (formatted grouped);
       required "improvement_1" any;
       required "improvement_2" any;
       required "improvement_3" any;
       required "assessor_signature" any;
       required "assessor_certification" any;
       required "signature_date" any]
  | IdCard =>
      [required "id_number" any;
       required "issue_date" any;
       required "expiry_date" any;
       required "name_redacted" any;
       required "dob_redacted" any;
       required "address_redacted" any]
  | PassportSample =>
      [required "passport_number" any;
       required "passport_type" any;
       required "issue_date" any;
       required "expiry_date" any;
       required "surname_redacted" any;
       required "given_names_redacted" any;
       required "nationality" any;
       required "dob_redacted" any;
       required "pob_redacted" any;
       required "sex_redacted" any]
  | ProofOfAddress =>
      [required "account_number" any;
       required "service_address" any;
       required "billing_start" any;
       required "billing_end" any;
       required "bill_date" any;
       required "due_date" any;
       required "customer_name" any;
       required "billing_address" any;
       required "account_type" any;
       required "service_type" any;
       required "kwh_usage" any;
       required "kwh_rate" (formatted (fixed 4));
       required "electric_charge" (formatted (fixed 2));
       required "gas_usage" any;
       required "gas_rate" (formatted (fixed 4));
       required "gas_charge" (formatted (fixed 2));
       required "water_usage" any;
       required "water_rate" (formatted (fixed 4));
       required "water_charge" (formatted (fixed 2));
       required "service_fee" (formatted (fixed 2));
       required "service_fee" (formatted (fixed 2));
       required "taxes" (formatted (fixed 2));
       required "total_due" (formatted (fixed 2));
       required "due_date" any]
  | BankStatement =>
      [required "account_holder" any;
       required "account_number_redacted" any;
       required "account_type" any;
       required "statement_start" any;
       required "statement_end" any;
       required "statement_date" any;
       required "beginning_balance" (formatted (fixed 2));
       required "total_deposits" (formatted (fixed 2));
       required "total_withdrawals" (formatted (fixed 2));
       required "service_charges" (formatted (fixed 2));
       required "interest_earned" (formatted (fixed 2));
       required "ending_balance" (formatted (fixed 2));
       required "statement_start" any;
       required "beginning_balance" (formatted (fixed 2));
       required "statement_end" any;
       required "ending_balance" (formatted (fixed 2))]
  | EmploymentLetter =>
      [required "letter_date" any;
       required "employee_name" any;
       required "employee_name" any;
       required "employee_id" any;
       required "position" any;
       required "department" any;
       required "employment_status" any;
       required "start_date" any;
       required "current_status" any;
       required "annual_salary" (formatted grouped);
       required "pay_frequency" any;
       required "employment_type" any;
       required "standard_hours" any;
       required "work_location" any;
       required "employee_name" any;
       required "performance_note" any]
  | MedicalCertificate =>
      [required "certificate_number" any;
       required "issue_date" any;
       required "physician_name" any;
       required "physician_license" any;
       required "physician_specialty" any;
       required "patient_name" any;
       required "patient_dob" any;
       required "patient_id" any;
       required "examination_date" any;
       required "chief_complaint" any;
       required "history_present_illness" any;
       required "blood_pressure" any;
       required "heart_rate" any;
       required "temperature" any;
       required "respiratory_rate" any;
       required "general_appearance" any;
       required "relevant_findings" any;
       required "diagnostic_tests" any;
       required "diagnosis" any;
       required "treatment" any;
       required "restrictions" any;
       required "followup" any;
       required "examination_date" any;
       required "physician_signature" any;
       required "signature_date" any;
       required "physician_name" any;
       required "physician_credentials" any;
       required "physician_specialty" any;
       required "physician_license" any]
  end.

(** A record is valid for [T] when no access raises. *)
Definition valid (T : DocType) (d : Record) : Prop :=
  first_error (template T) d = None.

End Model.
(** * Reasoning about the renderers *)

(** ** Loops *)

(** What a loop emits when its body appends one item and updates the local
    variable. *)
Fixpoint emitted {A B S} (g : B -> A -> B) (h : B -> A -> S) (l : list A) (acc : B)
  : list S :=
  match l with
  | [] => []
  | x :: l' => h acc x :: emitted g h l' (g acc x)
  end.

Lemma for_acc_emit {A B S} (l : list A) (body : B -> A -> Py (list S) B)
    (g : B -> A -> B) (h : B -> A -> S) :
  (forall a x s, body a x s = Ok (g a x, s ++ [h a x])) ->
  forall acc s,
    for_acc l acc body s = Ok (fold_left g l acc, s ++ emitted g h l acc).
Proof.
  intros Hbody. induction l as [|x l IH]; intros acc s; cbn.
  - now rewrite app_nil_r.
  - rewrite Hbody, IH. now rewrite <- app_assoc.
Qed.

Lemma for_emit {A S} (l : list A) (body : A -> Py (list S) unit) (h : A -> S) :
  (forall x s, body x s = Ok (tt, s ++ [h x])) ->
  forall s, for_ l body s = Ok (tt, s ++ map h l).
Proof.
  intros Hbody. induction l as [|x l IH]; intros s; cbn.
  - now rewrite app_nil_r.
  - rewrite Hbody, IH. now rewrite <- app_assoc.
Qed.

Lemma emitted_length {A B S} (g : B -> A -> B) (h : B -> A -> S) l acc :
  length (emitted g h l acc) = length l.
Proof. revert acc. induction l; intros; cbn; auto. Qed.

(** ** Walking through a renderer

    [step] takes the first operation that can raise (the scrutinee at the
    head of the goal) and splits on its outcome; the loops over a list that
    is not known are replaced by what they emit. *)
Ltac head_scrutinee t :=
  lazymatch t with
  | match ?X with _ => _ end => head_scrutinee X
  | (match ?X with _ => _ end) _ => head_scrutinee X
  | _ => t
  end.

Ltac step :=
  lazymatch goal with
  | |- match ?M with _ => _ end =>
      let X := head_scrutinee M in
      lazymatch X with
      | context [?d !! ?k] =>
          first [ match goal with E : d !! k = _ |- _ => rewrite E end
                | destruct (d !! k) eqn:? ]
      | for_acc _ _ _ _ => erewrite for_acc_emit by (intros; reflexivity)
      | for_ _ _ _ => erewrite for_emit by (intros; reflexivity)
      | _ => destruct X eqn:?
      end; cbn -[In]
  end.

(** Membership in a list that ends in known items. *)
Ltac find_in :=
  first [ apply in_eq
        | apply in_cons; find_in
        | apply in_or_app; right; find_in
        | apply in_or_app; left; find_in ].

(** ** The notice every document carries *)

Definition testing_notice : string :=
  "This is a sample document for testing purposes only".

Definition redaction_notice : string :=
  "SAMPLE DOCUMENT - PERSONAL INFO REDACTED FOR PRIVACY".

Definition notice (T : DocType) : string :=
  match T with
  | IdCard | PassportSample => redaction_notice
  | _ => testing_notice
  end.

(** A document emits a line when a [drawString] draws it, or when a
    paragraph starts with it. *)
Definition emits (doc : Document) (line : string) : Prop :=
  match doc with
  | CanvasDoc _ ops => exists x y, In (DrawString x y (VStr line)) ops
  | PlatypusDoc _ fl => exists rest sty, In (Paragraph (line +:+ rest) sty) fl
  end.
Arguments emits : simpl never.

Section Renderers.
Context `{PyBuiltins}.

Ltac emits_notice :=
  unfold emits;
  first [ exists 50%Q, 50%Q; find_in
        | exists 10%Q, 20%Q; find_in
        | exists 5%Q, 10%Q; find_in
        | exists 10%Q, 5%Q; find_in
        | exists ". All information is fictional.",
                 (ParagraphStyle "Footer" 8 colors.grey); find_in ].

(** The outcome of the drawing phase: the first exception of the template,
    or a document that carries the notice. *)
Definition outcome (T : DocType) (d : Record) : Prop :=
  match document T d with
  | Raise e => first_error (template T) d = Some e
  | Ok doc => first_error (template T) d = None /\ emits doc (notice T)
  end.

Ltac outcome_proof :=
  unfold outcome, document; autounfold with renderers; cbn;
  repeat (step; try reflexivity);
  (split; [reflexivity | emits_notice]).

Lemma document_outcome (T : DocType) (d : Record) : outcome T d.
Proof. destruct T as [| | | |[]| | | | | | | | | | | | | | | |]; outcome_proof. Qed.

End Renderers.
(** * Missing fields *)

Section Errors.
Context `{PyBuiltins}.

Lemma document_error (T : DocType) (d : Record) :
  error_of (document T d) = first_error (template T) d.
Proof.
  pose proof (document_outcome T d) as Ho. unfold outcome in Ho.
  destruct (document T d); cbn; [now destruct Ho | now rewrite Ho].
Qed.

Lemma document_notice (T : DocType) (d : Record) (doc : Document) :
  document T d = Ok doc -> emits doc (notice T).
Proof.
  intros Hd. pose proof (document_outcome T d) as Ho. unfold outcome in Ho.
  rewrite Hd in Ho. apply Ho.
Qed.

Lemma valid_document (T : DocType) (d : Record) :
  valid T d <-> exists doc, document T d = Ok doc.
Proof.
  unfold valid. rewrite <- document_error. destruct (document T d); cbn.
  - split; eauto.
  - split; [discriminate | intros [doc Hdoc]; discriminate].
Qed.

Lemma truthy_is_Some (o : option Value) : truthy o = true -> is_Some o.
Proof. destruct o; [eauto | discriminate]. Qed.

(** A missing required field makes the accesses fail. *)
Lemma first_error_missing (t : list Field) (d : Record) (k : string) :
  In k (required_keys t) -> d !! k = None -> first_error t d <> None.
Proof.
  induction t as [|[k' u|k' u|k' u] t IH]; cbn; intros Hin Hk; [easy | | |].
  - destruct Hin as [->|Hin].
    + now rewrite Hk.
    + destruct (d !! k'); [destruct (check u v)|]; auto; discriminate.
  - destruct (d !! k'); [destruct (check u v)|]; auto; discriminate.
  - destruct (truthy (d !! k')); auto.
    destruct (d !! k'); [destruct (check u v)|]; auto; discriminate.
Qed.

(** Removing one required field from a valid record: the first exception is
    the [KeyError] that names it. *)
Lemma first_error_delete (t : list Field) (d : Record) (k : string) :
  first_error t d = None -> In k (required_keys t) ->
  first_error t (delete k d) = Some (KeyError k).
Proof.
  induction t as [|[k' u|k' u|k' u] t IH]; cbn; intros Hv Hin; [easy | | |].
  - destruct (decide (k' = k)) as [->|Hne].
    + now rewrite lookup_delete_eq.
    + rewrite lookup_delete_ne by congruence.
      destruct Hin as [->|Hin]; [congruence|].
      destruct (d !! k'); [destruct (check u v)|]; auto; discriminate.
  - destruct (decide (k' = k)) as [->|Hne].
    + rewrite lookup_delete_eq. apply IH; auto.
      destruct (d !! k); [destruct (check u v)|]; auto; discriminate.
    + rewrite lookup_delete_ne by congruence.
      destruct (d !! k'); [destruct (check u v)|]; auto; discriminate.
  - destruct (decide (k' = k)) as [->|Hne].
    + rewrite lookup_delete_eq. cbn. apply IH; auto.
      destruct (truthy (d !! k)); auto.
      destruct (d !! k); [destruct (check u v)|]; auto; discriminate.
    + rewrite lookup_delete_ne by congruence.
      destruct (truthy (d !! k')); auto.
      destruct (d !! k'); [destruct (check u v)|]; auto; discriminate.
Qed.

(** With every required field present no access raises a [KeyError]. *)
Lemma first_error_present (t : list Field) (d : Record) (k : string) :
  (forall k', In k' (required_keys t) -> is_Some (d !! k')) ->
  first_error t d <> Some (KeyError k).
Proof.
  assert (Hcheck : forall u v, check u v <> Some (KeyError k)).
  { intros u v. destruct u; cbn; try discriminate.
    - destruct v, spec; cbn; try discriminate.
      unfold float_of_int. destruct (binary_normalize _ _ _ _ _); cbn; discriminate.
    - destruct v; cbn; discriminate.
    - destruct v; cbn; try discriminate.
      + unfold float_of_int.
        destruct (binary_normalize _ _ _ _ _); cbn; try discriminate;
          match goal with |- context [int_of_float ?x] =>
            destruct x; cbn; discriminate end.
      + destruct (float_mul f w); cbn; discriminate.
    - destruct v; cbn; discriminate. }
  induction t as [|[k' u|k' u|k' u] t IH]; cbn; intros Hall; [discriminate | | |].
  - destruct (Hall k') as [v ->]; [now left|].
    specialize (Hcheck u v). destruct (check u v); [congruence|].
    apply IH. intros; apply Hall; now right.
  - destruct (d !! k') as [v|]; [|now apply IH].
    specialize (Hcheck u v). destruct (check u v); [congruence|]. now apply IH.
  - destruct (truthy (d !! k')) eqn:Ht; [|now apply IH].
    destruct (truthy_is_Some _ Ht) as [v ->].
    specialize (Hcheck u v). destruct (check u v); [congruence|]. now apply IH.
Qed.

End Errors.
(** * The renderers: missing fields, determinism, notice *)

Section RendererClaims.
Context `{PyBuiltins}.


(** Saving never changes the directories. *)
Lemma save_dirs (filename : string) (drawn : Result Document) (fs : FileSystem) :
  dirs (snd (save filename drawn fs)) = dirs fs.
Proof.
  unfold save, write_file. destruct drawn; [|reflexivity].
  destruct (writable fs filename); reflexivity.
Qed.

Lemma save_ok (filename : string) (drawn : Result Document) (fs fs' : FileSystem) :
  save filename drawn fs = (Ok tt, fs') ->
  exists doc, drawn = Ok doc /\ writable fs filename = true
              /\ fs' = {| dirs := dirs fs; files := <[filename := doc]> (files fs) |}.
Proof.
  unfold save, write_file. destruct drawn as [doc|e]; [|discriminate].
  destruct (writable fs filename); [|discriminate].
  intros [= <-]. eauto.
Qed.


(** C10.  Every document a renderer produces carries a fixed notice, whatever
    the record: the redaction notice for the ID card and the passport, the
    testing notice for all the others. *)
Theorem C10_notice (T : DocType) (d : Record) (doc : Document) :
  document T d = Ok doc ->
  match T with
  | IdCard | PassportSample =>
      emits doc "SAMPLE DOCUMENT - PERSONAL INFO REDACTED FOR PRIVACY"
  | _ => emits doc "This is a sample document for testing purposes only"
  end.
Proof.
  intros Hd. pose proof (document_notice T d doc Hd) as Hn.
  destruct T; exact Hn.
Qed.

End RendererClaims.
(** * The claim form and the fire safety certificate *)

Definition underscores (n : nat) : string := str_repeat "_" n.

(** The data fields of the claim form that stand on one line, each with the
    label the form prints before it. *)
Definition claim_field_labels : list (string * string) := [
  ("claim_number", "Claim Number: ");
  ("report_date", "Date of Report: ");
  ("policy_number", "Policy Number: ");
  ("insured_name", "Insured Name: ");
  ("phone", "Phone Number: ");
  ("email", "Email: ");
  ("loss_date", "Date of Loss: ");
  ("loss_time", "Time of Loss: ");
  ("location", "Location: ");
  ("vehicle", "Year/Make/Model: ");
  ("license_plate", "License Plate: ");
  ("vin", "VIN: ");
  ("estimated_damage", "Estimated Damage: $");
  ("signature", "Signature: ");
  ("signature_date", "Date: ")
].

Section Scenarios.
Context `{PyBuiltins}.

Import generate_test_pdfs generate_fire_insurance_pdfs.

Ltac unfold_document :=
  unfold document; autounfold with renderers; cbn.

(** The completed form prints every field after its label. *)
Lemma claim_form_completed (d : Record) :
  match claim_form_document d false with
  | Ok (PlatypusDoc _ fl) =>
      (forall key label, In (key, label) claim_field_labels ->
         exists v, d !! key = Some v
                   /\ In (Paragraph (label +:+ str v) (styles "Normal")) fl)
      /\ exists v, d !! "description" = Some v
                   /\ In (Paragraph ("Description: " +:+ str v) (styles "Normal")) fl
  | Ok (CanvasDoc _ _) => False
  | Raise _ => True
  end.
Proof.
  autounfold with renderers; cbn.
  repeat (step; try exact I).
  split.
  - intros key label Hin. cbn in Hin.
    repeat (destruct Hin as [[= <- <-]|Hin];
            [eexists; split; [eassumption | find_in]|]).
    destruct Hin.
  - eexists; split; [reflexivity | find_in].
Qed.

(** C8.  In blank mode the claim form never reads the record: every record
    gives the document of the empty record.  That document is built without
    an exception; each one-line field of the completed form is replaced by
    its label followed by underscores only, the description by a heading and
    three lines of underscores; and it is written wherever the output path is
    writable. *)
Theorem C8_blank_claim_form (d : Record) :
  claim_form_document d true = claim_form_document ∅ true
  /\ exists fl,
       claim_form_document ∅ true = Ok (PlatypusDoc letter fl)
       /\ (forall key label, In (key, label) claim_field_labels ->
             exists n, (24 <= n)%nat
                       /\ In (Paragraph (label +:+ underscores n) (styles "Normal")) fl)
       /\ (exists i,
             fl !! i = Some (Paragraph "Description of Incident:" (styles "Normal"))
             /\ fl !! (i + 1)%nat = Some (Paragraph (underscores 64) (styles "Normal"))
             /\ fl !! (i + 2)%nat = Some (Paragraph (underscores 64) (styles "Normal"))
             /\ fl !! (i + 3)%nat = Some (Paragraph (underscores 64) (styles "Normal")))
       /\ (forall filename fs, writable fs filename = true ->
             exists fs', create_claim_form filename ∅ true fs = (Ok tt, fs')
                         /\ files fs' !! filename = Some (PlatypusDoc letter fl)).
Proof.
  split; [reflexivity|].
  unfold create_claim_form, save, write_file.
  destruct (claim_form_document ∅ true) as [doc|e] eqn:Hdoc;
    vm_compute in Hdoc; [|discriminate].
  injection Hdoc as <-.
  eexists. split; [reflexivity|]. split; [|split].
  - intros key label Hin. cbn in Hin.
    repeat (destruct Hin as [[= <- <-]|Hin];
            [first [ exists 24%nat; split; [lia | vm_compute; tauto]
                   | exists 48%nat; split; [lia | vm_compute; tauto] ]|]).
    destruct Hin.
  - exists 15%nat. vm_compute. repeat split.
  - intros filename fs Hw.
    rewrite Hw. eexists. split; [reflexivity|]. cbn.
    now rewrite lookup_insert_eq.
Qed.

(** The first table of the fire safety certificate. *)
Lemma fire_safety_certificate_info (d : Record) :
  match fire_safety_certificate_document d with
  | Ok (PlatypusDoc _ fl) =>
      exists v1 v2 v3 rows colWidths style,
        d !! "certificate_number" = Some v1
        /\ d !! "issue_date" = Some v2
        /\ d !! "expiration_date" = Some v3
        /\ fl !! 2%nat = Some (MkTable ([VStr "Certificate Number:"; v1]
                                        :: [VStr "Issue Date:"; v2]
                                        :: [VStr "Expiration Date:"; v3]
                                        :: rows) colWidths style)
  | Ok (CanvasDoc _ _) => False
  | Raise _ => True
  end.
Proof.
  autounfold with renderers; cbn.
  repeat (step; try exact I).
  do 6 eexists. repeat split; reflexivity.
Qed.

(** C9.  A record that is valid for the fire safety certificate and holds the
    three values of the scenario is rendered without an exception, and the
    first table of the document (the certificate information) shows each
    value in the row of its label. *)
Theorem C9_fire_safety_certificate (d : Record) :
  valid FireSafetyCertificate d ->
  d !! "certificate_number" = Some (VStr "FSC-2024-3456") ->
  d !! "issue_date" = Some (VStr "2024-07-20") ->
  d !! "expiration_date" = Some (VStr "2025-07-20") ->
  exists fl rows colWidths style,
    fire_safety_certificate_document d = Ok (PlatypusDoc letter fl)
    /\ fl !! 2%nat = Some (MkTable ([VStr "Certificate Number:"; VStr "FSC-2024-3456"]
                                    :: [VStr "Issue Date:"; VStr "2024-07-20"]
                                    :: [VStr "Expiration Date:"; VStr "2025-07-20"]
                                    :: rows) colWidths style).
Proof.
  intros Hv H1 H2 H3.
  apply valid_document in Hv. destruct Hv as [doc Hdoc]. cbn in Hdoc.
  pose proof (fire_safety_certificate_info d) as Hinfo. rewrite Hdoc in Hinfo.
  destruct doc as [|ps fl]; [destruct Hinfo|].
  destruct Hinfo as (v1 & v2 & v3 & rows & w & st & E1 & E2 & E3 & Hfl).
  assert (ps = letter) as ->.
  { revert Hdoc. unfold fire_safety_certificate_document, platypus_document.
    destruct (fire_safety_certificate_body d []) as [[? ?]|]; congruence. }
  exists fl, rows, w, st. split; [exact Hdoc|].
  rewrite Hfl. congruence.
Qed.

End Scenarios.
(** * Optional list fields *)

(** The lines a canvas loop draws for the entries of a list: one per entry,
    each [step] below the one before. *)
Fixpoint bullet_lines (x y step : Q) (mark : string) (l : list string)
  : list CanvasOp :=
  match l with
  | [] => []
  | s :: l' => DrawString x y (VStr (mark +:+ s)) :: bullet_lines x (y - step)%Q step mark l'
  end.

Definition bullet_paragraph (s : string) : Flowable :=
  Paragraph ("• " +:+ s) (styles "Normal").

Section OptionalLists.
Context `{PyBuiltins}.

Import generate_test_pdfs generate_fire_insurance_pdfs generate_liability_insurance_pdfs.

Lemma emitted_bullet_lines (x step : Q) (mark : string) (l : list string) (y : Q) :
  emitted (fun (a : Q) (_ : Value) => (a - step)%Q)
          (fun (a : Q) (v : Value) => DrawString x a (VStr (mark +:+ str v)))
          (map VStr l) y
  = bullet_lines x y step mark l.
Proof. revert y. induction l as [|s l IH]; intros y; cbn; [reflexivity|]. now rewrite IH. Qed.

Lemma map_bullet_paragraph (l : list string) :
  map (fun v : Value => Paragraph ("• " +:+ str v) (styles "Normal")) (map VStr l)
  = map bullet_paragraph l.
Proof. rewrite map_map. reflexivity. Qed.

(** Rewrites the lookups in a record that differs from [d] at one key. *)
Ltac other_keys :=
  rewrite ?lookup_delete_eq, ?lookup_insert_eq;
  rewrite ?lookup_delete_ne by discriminate;
  rewrite ?lookup_insert_ne by discriminate.

Ltac known_lookups :=
  repeat match goal with
         | E : _ !! _ = _ |- _ => rewrite E
         | E : format_value _ _ = _ |- _ => rewrite E
         end.

Lemma property_deed_encumbrances (d : Record) :
  match property_deed_document (delete "encumbrances" d) with
  | Ok (PlatypusDoc ps fl) =>
      ps = letter
      /\ exists before after,
           fl = before
                ++ [Paragraph "None recorded as of the date of this deed." (styles "Normal")]
                ++ after
           /\ forall l, l <> [] ->
                property_deed_document (<["encumbrances" := VList l]> d)
                = Ok (PlatypusDoc letter (before ++ map bullet_paragraph l ++ after))
  | Ok (CanvasDoc _ _) => False
  | Raise _ => True
  end.
Proof.
  autounfold with renderers. cbn -[In]. other_keys. cbn -[In].
  repeat (step; try exact I).
  split; [reflexivity|].
  lazymatch goal with
  | |- exists b a, ?fl = _ /\ _ => exists (firstn 11 fl), (skipn 12 fl)
  end.
  split; [reflexivity|].
  intros l Hl. destruct l as [|s l]; [congruence|].
  repeat (progress (other_keys; known_lookups; cbn -[In])).
  erewrite for_emit by (intros; reflexivity). cbn -[In].
  rewrite <- map_bullet_paragraph. cbn. rewrite <- ?app_assoc. reflexivity.
Qed.

Ltac split_ops n :=
  lazymatch goal with
  | |- exists b a, ?ops = _ /\ _ =>
      exists (firstn (length ops - n) ops), (skipn (length ops - n) ops)
  | |- exists b a y, ?ops = _ /\ _ =>
      exists (firstn (length ops - n) ops), (skipn (length ops - n) ops)
  end.

Ltac with_list mark x step :=
  repeat (progress (other_keys; known_lookups; cbn -[In]));
  erewrite for_acc_emit by (intros; reflexivity); cbn -[In];
  rewrite (emitted_bullet_lines x step mark); cbn;
  rewrite <- ?app_assoc; reflexivity.

Lemma building_permit_approvals (d : Record) :
  match building_permit_document (delete "approvals" d) with
  | Ok (CanvasDoc ps ops) =>
      ps = letter
      /\ exists before after y,
           ops = before ++ after
           /\ forall l,
                building_permit_document (<["approvals" := VList l]> d)
                = Ok (CanvasDoc letter (before ++ bullet_lines 70 y 20 "☑ " l ++ after))
  | Ok (PlatypusDoc _ _) => False
  | Raise _ => True
  end.
Proof.
  autounfold with renderers. cbn -[In]. other_keys. cbn -[In].
  repeat (step; try exact I).
  split; [reflexivity|]. split_ops 5%nat. eexists.
  split; [reflexivity|].
  intros l. with_list "☑ " 70%Q 20%Q.
Qed.

Lemma business_registration_activities (d : Record) :
  match business_registration_document (delete "activities" d) with
  | Ok (CanvasDoc ps ops) =>
      ps = letter
      /\ exists before after y,
           ops = before ++ after
           /\ forall l,
                business_registration_document (<["activities" := VList l]> d)
                = Ok (CanvasDoc letter (before ++ bullet_lines 70 y 20 "• " l ++ after))
  | Ok (PlatypusDoc _ _) => False
  | Raise _ => True
  end.
Proof.
  autounfold with renderers. cbn -[In]. other_keys. cbn -[In].
  repeat (step; try exact I).
  split; [reflexivity|]. split_ops 5%nat. eexists.
  split; [reflexivity|].
  intros l. with_list "• " 70%Q 20%Q.
Qed.

Lemma drivers_license_restrictions (d : Record) :
  match drivers_license_document (delete "restrictions" d) with
  | Ok (CanvasDoc ps ops) =>
      exists before after y,
        ops = before ++ bullet_lines 10 y 15 "• " ["NONE"] ++ after
        /\ forall l,
             drivers_license_document (<["restrictions" := VList l]> d)
             = Ok (CanvasDoc ps (before ++ bullet_lines 10 y 15 "• " l ++ after))
  | Ok (PlatypusDoc _ _) => False
  | Raise _ => True
  end.
Proof.
  autounfold with renderers. cbn -[In]. other_keys. cbn -[In].
  repeat (step; try exact I).
  lazymatch goal with
  | |- exists b a y, ?ops = _ /\ _ =>
      exists (firstn (length ops - 2) ops), (skipn (length ops - 1) ops)
  end.
  eexists. split; [reflexivity|].
  intros l. with_list "• " 10%Q 15%Q.
Qed.

(** An absent key and the empty list are not told apart where the default of
    the lookup is the empty list, or where the lookup is only tested. *)
Ltac absent_empty :=
  autounfold with renderers; cbn -[In];
  repeat (progress (other_keys; cbn -[In])); reflexivity.

Lemma property_deed_absent_empty (d : Record) :
  property_deed_document (delete "encumbrances" d)
  = property_deed_document (<["encumbrances" := VList []]> d).
Proof. absent_empty. Qed.

Lemma building_permit_absent_empty (d : Record) :
  building_permit_document (delete "approvals" d)
  = building_permit_document (<["approvals" := VList []]> d).
Proof. absent_empty. Qed.

Lemma business_registration_absent_empty (d : Record) :
  business_registration_document (delete "activities" d)
  = business_registration_document (<["activities" := VList []]> d).
Proof. absent_empty. Qed.

(** C2 (as amended).  What a renderer does with its optional list depends on
    the renderer.  Below, [delete k d] stands for any record without the key
    [k].  In every case a list with entries gives one bulleted line per entry,
    in the order of the list, at the place of the placeholder if there is
    one.
    - The property deed shows a fixed line, None recorded as of the date of
      this deed, when [encumbrances] is absent, and the same document when it
      is the empty list.
    - The building permit and the business registration have no placeholder:
      without [approvals] or [activities], and with the empty list, nothing
      is drawn at that place.
    - The driver's license draws the line [• NONE] when [restrictions] is
      absent, and nothing when it is the empty list. *)
Theorem C2_optional_lists (d : Record) :
  (property_deed_document (delete "encumbrances" d)
   = property_deed_document (<["encumbrances" := VList []]> d)
   /\ forall doc, property_deed_document (delete "encumbrances" d) = Ok doc ->
        exists before after,
          doc = PlatypusDoc letter
                  (before
                   ++ [Paragraph "None recorded as of the date of this deed."
                                 (styles "Normal")]
                   ++ after)
          /\ forall l, l <> [] ->
               property_deed_document (<["encumbrances" := VList l]> d)
               = Ok (PlatypusDoc letter (before ++ map bullet_paragraph l ++ after)))
  /\ (forall doc, building_permit_document (delete "approvals" d) = Ok doc ->
        exists before after y,
          doc = CanvasDoc letter (before ++ after)
          /\ forall l,
               building_permit_document (<["approvals" := VList l]> d)
               = Ok (CanvasDoc letter (before ++ bullet_lines 70 y 20 "☑ " l ++ after)))
  /\ (forall doc, business_registration_document (delete "activities" d) = Ok doc ->
        exists before after y,
          doc = CanvasDoc letter (before ++ after)
          /\ forall l,
               business_registration_document (<["activities" := VList l]> d)
               = Ok (CanvasDoc letter (before ++ bullet_lines 70 y 20 "• " l ++ after)))
  /\ (forall doc, drivers_license_document (delete "restrictions" d) = Ok doc ->
        exists ps before after y,
          doc = CanvasDoc ps (before ++ [DrawString 10 y (VStr "• NONE")] ++ after)
          /\ forall l,
               drivers_license_document (<["restrictions" := VList l]> d)
               = Ok (CanvasDoc ps (before ++ bullet_lines 10 y 15 "• " l ++ after))).
Proof.
  split; [split|split; [|split]].
  - apply property_deed_absent_empty.
  - intros doc Hdoc. pose proof (property_deed_encumbrances d) as Hl.
    rewrite Hdoc in Hl. destruct doc as [|ps fl]; [destruct Hl|].
    destruct Hl as (-> & before & after & -> & Hl). eauto.
  - intros doc Hdoc. pose proof (building_permit_approvals d) as Hl.
    rewrite Hdoc in Hl. destruct doc as [ps ops|]; [|destruct Hl].
    destruct Hl as (-> & before & after & y & -> & Hl). eauto.
  - intros doc Hdoc. pose proof (business_registration_activities d) as Hl.
    rewrite Hdoc in Hl. destruct doc as [ps ops|]; [|destruct Hl].
    destruct Hl as (-> & before & after & y & -> & Hl). eauto.
  - intros doc Hdoc. pose proof (drivers_license_restrictions d) as Hl.
    rewrite Hdoc in Hl. destruct doc as [ps ops|]; [|destruct Hl].
    destruct Hl as (before & after & y & -> & Hl). exists ps, before, after, y.
    split; [reflexivity | exact Hl].
Qed.

End OptionalLists.
(** * The text of numbers *)

Definition is_digit (a : ascii) : bool :=
  let n := nat_of_ascii a in ((48 <=? n) && (n <=? 57))%nat.

Definition not_comma (a : ascii) : bool := negb (Ascii.eqb a comma).

Definition not_dot (a : ascii) : bool := negb (Ascii.eqb a dot).

Definition is_finite (x : spec_float) : bool :=
  match x with
  | S754_zero _ | S754_finite _ _ _ => true
  | _ => false
  end.

(** The shape the claim asks of a currency text: a thousands separator
    somewhere, and a point followed by exactly two digits at the end. *)
Definition has_thousands_separator (s : string) : bool :=
  existsb (Ascii.eqb comma) (list_ascii_of_string s).

Definition has_two_decimals (s : string) : bool :=
  match rev (list_ascii_of_string s) with
  | d2 :: d1 :: p :: _ => is_digit d2 && is_digit d1 && Ascii.eqb p dot
  | _ => false
  end.

Lemma digit_not_comma (a : ascii) : is_digit a = true -> not_comma a = true.
Proof.
  unfold not_comma. destruct (Ascii.eqb_spec a comma) as [->|]; [|reflexivity].
  vm_compute. discriminate.
Qed.

Lemma digit_not_dot (a : ascii) : is_digit a = true -> not_dot a = true.
Proof.
  unfold not_dot. destruct (Ascii.eqb_spec a dot) as [->|]; [|reflexivity].
  vm_compute. discriminate.
Qed.

Lemma uint_digits_digit (u : Decimal.uint) :
  Forall (fun a => is_digit a = true) (uint_digits u).
Proof. induction u; cbn; constructor; auto. Qed.

Lemma digits_digit (n : N) : Forall (fun a => is_digit a = true) (digits n).
Proof.
  destruct n; cbn; [repeat constructor | apply uint_digits_digit].
Qed.

Lemma digit_char_digit (z : Z) : is_digit (digit_char (z mod 10)) = true.
Proof.
  pose proof (Z.mod_pos_bound z 10 eq_refl) as Hb.
  unfold digit_char.
  assert (Hk : (Z.to_nat (z mod 10) < 10)%nat) by lia.
  destruct (Z.to_nat (z mod 10)) as [|[|[|[|[|[|[|[|[|[|k]]]]]]]]]];
    try reflexivity; lia.
Qed.

(** ** Groups of three *)

Lemma group3_cons (a b c e : ascii) (rest : list ascii) :
  group3 (a :: b :: c :: e :: rest) = a :: b :: c :: comma :: group3 (e :: rest).
Proof. reflexivity. Qed.

Lemma filter_all {A} (f : A -> bool) (l : list A) :
  Forall (fun a => f a = true) l -> List.filter f l = l.
Proof. induction 1 as [|a l Ha _ IH]; cbn; [reflexivity|]. now rewrite Ha, IH. Qed.

Lemma digits_not_comma (l : list ascii) :
  Forall (fun a => is_digit a = true) l -> Forall (fun a => not_comma a = true) l.
Proof. induction 1; constructor; auto using digit_not_comma. Qed.

(** Taking the commas out gives the digits back. *)
Lemma group3_filter (n : nat) : forall l,
  (length l <= n)%nat -> Forall (fun a => not_comma a = true) l ->
  List.filter not_comma (group3 l) = l.
Proof.
  induction n as [|n IH]; intros l Hlen Hd.
  - destruct l; [reflexivity | cbn in Hlen; lia].
  - destruct l as [|a [|b [|c [|e rest]]]]; try (apply filter_all; assumption).
    inversion Hd as [|? ? Ha Hd1]; subst.
    inversion Hd1 as [|? ? Hb Hd2]; subst.
    inversion Hd2 as [|? ? Hc Hd3]; subst.
    rewrite group3_cons. cbn [List.filter]. rewrite Ha, Hb, Hc.
    change (not_comma comma) with false. cbn iota.
    do 3 f_equal. apply IH; [cbn in *; lia | assumption].
Qed.

(** Read from the right, the commas stand at every fourth place. *)
Lemma group3_nth (n : nat) : forall l i,
  (length l <= n)%nat -> Forall (fun a => not_comma a = true) l ->
  (i < length (group3 l))%nat ->
  (nth i (group3 l) "0"%char = comma <-> (i mod 4 = 3)%nat).
Proof.
  assert (Hno : forall a, not_comma a = true -> a = comma -> False).
  { intros a Ha ->. discriminate Ha. }
  assert (Hshort : forall l i, (length l <= 3)%nat ->
            Forall (fun a => not_comma a = true) l -> (i < length l)%nat ->
            (nth i l "0"%char = comma <-> (i mod 4 = 3)%nat)).
  { intros l i Hl Hd Hi. split.
    - intros Hc. exfalso. apply (Hno (nth i l "0"%char)); [|exact Hc].
      rewrite Forall_forall in Hd. apply Hd. apply list_elem_of_In, nth_In, Hi.
    - intros Hm. rewrite Nat.mod_small in Hm by lia. lia. }
  induction n as [|n IH]; intros l i Hlen Hd Hi.
  - destruct l; [cbn in Hi; lia | cbn in Hlen; lia].
  - destruct l as [|a [|b [|c [|e rest]]]];
      try (apply Hshort; [cbn; lia | assumption | exact Hi]).
    inversion Hd as [|? ? Ha Hd1]; subst.
    inversion Hd1 as [|? ? Hb Hd2]; subst.
    inversion Hd2 as [|? ? Hc Hd3]; subst.
    rewrite group3_cons in *. destruct i as [|[|[|[|i]]]]; cbn [nth].
    + split; [intros E; destruct (Hno _ Ha E) | cbn; lia].
    + split; [intros E; destruct (Hno _ Hb E) | cbn; lia].
    + split; [intros E; destruct (Hno _ Hc E) | cbn; lia].
    + split; [reflexivity | reflexivity].
    + replace (S (S (S (S i)))) with (i + 1 * 4)%nat by lia.
      rewrite Nat.Div0.mod_add. apply IH; [cbn in *; lia | assumption |].
      cbn [length] in Hi. lia.
Qed.

Lemma no_dot_in_digits (l : list ascii) :
  Forall (fun a => is_digit a = true) l -> Forall (fun a => not_dot a = true) l.
Proof. induction 1; constructor; auto using digit_not_dot. Qed.

Lemma group3_no_dot (n : nat) : forall l,
  (length l <= n)%nat -> Forall (fun a => not_dot a = true) l ->
  Forall (fun a => not_dot a = true) (group3 l).
Proof.
  induction n as [|n IH]; intros l Hlen Hd.
  - destruct l; [constructor | cbn in Hlen; lia].
  - destruct l as [|a [|b [|c [|e rest]]]]; try assumption.
    inversion Hd as [|? ? Ha Hd1]; subst.
    inversion Hd1 as [|? ? Hb Hd2]; subst.
    inversion Hd2 as [|? ? Hc Hd3]; subst.
    rewrite group3_cons. repeat (constructor; [assumption|]).
    constructor; [reflexivity|]. apply IH; [cbn in *; lia | assumption].
Qed.

(** ** The text of [format(n, ',')] *)

Lemma sign_not_dot (b : bool) : Forall (fun a => not_dot a = true) (sign_of b).
Proof. destruct b; repeat constructor. Qed.

Lemma sign_not_comma (b : bool) : Forall (fun a => not_comma a = true) (sign_of b).
Proof. destruct b; repeat constructor. Qed.

Lemma int_grouped_no_dot (n : Z) :
  Forall (fun a => not_dot a = true) (list_ascii_of_string (int_grouped n)).
Proof.
  unfold int_grouped. rewrite list_ascii_of_string_of_list_ascii.
  apply Forall_app. split; [apply sign_not_dot|].
  apply Forall_rev. eapply group3_no_dot; [reflexivity|].
  apply Forall_rev, no_dot_in_digits, digits_digit.
Qed.

(** Without its commas the grouped text is [str(n)]. *)
Lemma int_grouped_digits (n : Z) :
  List.filter not_comma (list_ascii_of_string (int_grouped n))
  = list_ascii_of_string (str_of_int n).
Proof.
  unfold int_grouped, str_of_int. rewrite !list_ascii_of_string_of_list_ascii.
  rewrite List.filter_app. f_equal; [apply filter_all, sign_not_comma|].
  rewrite List.filter_rev, (group3_filter _ _ (Nat.le_refl _)).
  - apply rev_involutive.
  - apply Forall_rev, digits_not_comma, digits_digit.
Qed.

Lemma no_dot_no_decimals (s : string) :
  Forall (fun a => not_dot a = true) (list_ascii_of_string s) ->
  has_two_decimals s = false.
Proof.
  intros Hd. apply Forall_rev in Hd. unfold has_two_decimals.
  destruct (rev (list_ascii_of_string s)) as [|d2 [|d1 [|p l]]]; try reflexivity.
  inversion Hd as [|? ? _ Hd1]; subst. inversion Hd1 as [|? ? _ Hd2]; subst.
  inversion Hd2 as [|? ? Hp _]; subst.
  unfold not_dot in Hp. apply negb_true_iff in Hp. rewrite Hp.
  apply andb_false_r.
Qed.

Lemma dollar_chars (s : string) :
  list_ascii_of_string ("$" +:+ s) = "$"%char :: list_ascii_of_string s.
Proof. reflexivity. Qed.

Lemma dollar_int_grouped_no_decimals (n : Z) :
  has_two_decimals ("$" +:+ int_grouped n) = false.
Proof.
  apply no_dot_no_decimals. rewrite dollar_chars.
  constructor; [reflexivity | apply int_grouped_no_dot].
Qed.

(** ** The text of [format(x, '.2f')] *)

Lemma frac_digits_digit (d : nat) : forall x,
  Forall (fun a => is_digit a = true) (frac_digits d x).
Proof.
  induction d as [|d IH]; intros x; cbn; [constructor|].
  apply Forall_app. split; [apply IH|].
  constructor; [apply digit_char_digit | constructor].
Qed.

Lemma fixed_digits_two (q : Z) :
  exists l d1 d2,
    fixed_digits 2 q = l ++ [dot; d1; d2]
    /\ Forall (fun a => is_digit a = true) l
    /\ is_digit d1 = true /\ is_digit d2 = true.
Proof.
  unfold fixed_digits. do 3 eexists. split; [reflexivity|].
  repeat split; [apply digits_digit | apply digit_char_digit ..].
Qed.

Lemma float_fixed_two (x : spec_float) :
  is_finite x = true ->
  exists s l d1 d2,
    list_ascii_of_string (float_fixed 2 x) = sign_of s ++ l ++ [dot; d1; d2]
    /\ Forall (fun a => is_digit a = true) l
    /\ is_digit d1 = true /\ is_digit d2 = true.
Proof.
  destruct x as [s| | |s m e]; try discriminate; intros _; unfold float_fixed;
    rewrite list_ascii_of_string_of_list_ascii;
    [destruct (fixed_digits_two 0) as (l & d1 & d2 & -> & Hl)
    |destruct (fixed_digits_two (scaled 2 m e)) as (l & d1 & d2 & -> & Hl)];
    exists s, l, d1, d2; (split; [reflexivity | exact Hl]).
Qed.

Lemma dollar_float_fixed_two (x : spec_float) :
  is_finite x = true ->
  has_two_decimals ("$" +:+ float_fixed 2 x) = true
  /\ has_thousands_separator ("$" +:+ float_fixed 2 x) = false.
Proof.
  intros Hx. destruct (float_fixed_two x Hx) as (s & l & d1 & d2 & E & Hl & H1 & H2).
  unfold has_two_decimals, has_thousands_separator.
  rewrite dollar_chars, E. split.
  - change ("$"%char :: sign_of s ++ l ++ [dot; d1; d2])
      with (("$"%char :: sign_of s) ++ l ++ [dot; d1; d2]).
    rewrite !rev_app_distr. cbn [rev List.app]. rewrite H1, H2. reflexivity.
  - apply not_true_is_false. intros Hc. apply existsb_exists in Hc.
    destruct Hc as (a & Hin & Ha). apply Ascii.eqb_eq in Ha. subst a.
    assert (Hall : Forall (fun a => not_comma a = true)
                     ("$"%char :: sign_of s ++ l ++ [dot; d1; d2])).
    { constructor; [reflexivity|]. apply Forall_app. split; [apply sign_not_comma|].
      apply Forall_app. split; [apply digits_not_comma, Hl|].
      repeat constructor; auto using digit_not_comma. }
    rewrite Forall_forall in Hall. apply list_elem_of_In in Hin.
    specialize (Hall _ Hin). discriminate Hall.
Qed.
(** * Currency cells *)

(** A row of some table of the document. *)
Definition has_row (doc : Document) (row : list Value) : Prop :=
  match doc with
  | PlatypusDoc _ fl =>
      exists rows colWidths style, In (MkTable rows colWidths style) fl /\ In row rows
  | CanvasDoc _ _ => False
  end.

Arguments has_row : simpl never.

(** Looks for the table first, then for the row in it; a table without the
    row is given up for the next one. *)
Ltac find_any :=
  (apply in_eq) + (apply in_cons; find_any)
  + (apply in_or_app; right; find_any) + (apply in_or_app; left; find_any).

Ltac show_row :=
  unfold has_row; do 3 eexists; split; [find_any | solve [find_in]].

Section Currency.
Context `{PyBuiltins}.

Import generate_fire_insurance_pdfs generate_general_forms_pdfs.

(** The purchase price of the deed is written with [:,]. *)
Lemma property_deed_purchase_price (d : Record) :
  match property_deed_document d with
  | Ok doc =>
      exists v s, d !! "purchase_price" = Some v
                  /\ format_value v grouped = Ok s
                  /\ has_row doc [VStr "Purchase Price:"; VStr ("$" +:+ s)]
  | Raise _ => True
  end.
Proof.
  autounfold with renderers; cbn.
  repeat (step; try exact I).
  all: do 2 eexists; split; [reflexivity|]; split; [eassumption|]; show_row.
Qed.

(** The amount due of the utility bill is written with [:.2f]. *)
Lemma proof_of_address_total_due (d : Record) :
  match proof_of_address_document d with
  | Ok doc =>
      exists v s, d !! "total_due" = Some v
                  /\ format_value v (fixed 2) = Ok s
                  /\ has_row doc [VStr "Total Amount Due"; VStr EmptyString;
                                  VStr EmptyString; VStr ("$" +:+ s)]
  | Raise _ => True
  end.
Proof.
  autounfold with renderers; cbn.
  repeat (step; try exact I).
  all: do 2 eexists; split; [reflexivity|]; split; [eassumption|]; show_row.
Qed.

(** The balances of the bank statement are written with [:.2f]. *)
Lemma bank_statement_beginning_balance (d : Record) :
  match bank_statement_document d with
  | Ok doc =>
      exists v s, d !! "beginning_balance" = Some v
                  /\ format_value v (fixed 2) = Ok s
                  /\ has_row doc [VStr "Beginning Balance:"; VStr ("$" +:+ s)]
  | Raise _ => True
  end.
Proof.
  autounfold with renderers; cbn.
  repeat (step; try exact I).
  all: do 2 eexists; split; [reflexivity|]; split; [eassumption|]; show_row.
Qed.


End Currency.
(** * Total rows and weighted values *)

(** [int(v * w)], the only arithmetic a renderer does on a field. *)
Definition weighted_value (v : Value) (w : spec_float) : Result Z :=
  match mul_value v w with
  | Ok x => int_of_float x
  | Raise e => Raise e
  end.

Section Totals.
Context `{PyBuiltins}.

Import generate_fire_insurance_pdfs.

(** The total of the motor policy is a literal of the script. *)
Lemma insurance_policy_total (d : Record) :
  match generate_test_pdfs.insurance_policy_document d with
  | Ok doc =>
      has_row doc [VStr EmptyString; VStr EmptyString;
                   VStr "Total Annual Premium:"; VStr "$1,125.00"]
  | Raise _ => True
  end.
Proof.
  autounfold with renderers; cbn.
  repeat (step; try exact I).
  all: show_row.
Qed.

(** The total of the liability policy is the field [total_premium]. *)
Lemma liability_policy_total (d : Record) :
  match generate_liability_insurance_pdfs.liability_policy_document d with
  | Ok doc =>
      exists v s, d !! "total_premium" = Some v
                  /\ format_value v grouped = Ok s
                  /\ has_row doc [VStr EmptyString; VStr EmptyString;
                                  VStr "Total Annual Premium:"; VStr ("$" +:+ s)]
  | Raise _ => True
  end.
Proof.
  autounfold with renderers; cbn.
  repeat (step; try exact I).
  all: do 2 eexists; split; [reflexivity|]; split; [eassumption|]; show_row.
Qed.

(** The table of the appraisal: each weighted value is computed from the
    estimate of its own row, and the final value is the field
    [final_value]. *)
Lemma property_valuation_approaches (d : Record) :
  match property_valuation_document d with
  | Ok doc =>
      exists v1 v2 v3 s1 s2 s3 n1 n2 n3 v s,
        (d !! "sales_comparison" = Some v1
         /\ d !! "cost_approach" = Some v2
         /\ d !! "income_approach" = Some v3
         /\ d !! "final_value" = Some v)
        /\ (format_value v1 grouped = Ok s1
            /\ format_value v2 grouped = Ok s2
            /\ format_value v3 grouped = Ok s3
            /\ format_value v grouped = Ok s)
        /\ (weighted_value v1 (float_literal 6 1) = Ok n1
            /\ weighted_value v2 (float_literal 25 2) = Ok n2
            /\ weighted_value v3 (float_literal 15 2) = Ok n3)
        /\ has_row doc [VStr "Sales Comparison"; VStr ("$" +:+ s1);
                        VStr "60%"; VStr ("$" +:+ int_grouped n1)]
        /\ has_row doc [VStr "Cost Approach"; VStr ("$" +:+ s2);
                        VStr "25%"; VStr ("$" +:+ int_grouped n2)]
        /\ has_row doc [VStr "Income Approach"; VStr ("$" +:+ s3);
                        VStr "15%"; VStr ("$" +:+ int_grouped n3)]
        /\ has_row doc [VStr EmptyString; VStr EmptyString;
                        VStr "Final Value:"; VStr ("$" +:+ s)]
  | Raise _ => True
  end.
Proof.
  autounfold with renderers; cbn.
  repeat (step; try exact I).
  all: do 11 eexists; split; [repeat split; reflexivity|];
    split; [repeat split; eassumption|];
    split; [unfold weighted_value;
            repeat match goal with E : _ = Ok _ |- _ => rewrite E end;
            repeat split; reflexivity|];
    repeat split; show_row.
Qed.


End Totals.
(** * The batch drivers *)

(** One call of a driver: the output path and the document drawn from the
    sample record. *)
Definition Job : Type := string * Result Document.

(** The calls in sequence, as a driver makes them: the first exception ends
    the run. *)
Fixpoint run_jobs (jobs : list Job) : IO unit :=
  match jobs with
  | [] => io_ret tt
  | [j] => save (fst j) (snd j)
  | j :: js => io_bind (save (fst j) (snd j)) (fun _ => run_jobs js)
  end.

Definition is_ok {A} (r : Result A) : bool :=
  match r with Ok _ => true | Raise _ => false end.

(** The files that the jobs leave when all of them succeed. *)
Fixpoint write_all (jobs : list Job) (m : gmap string Document)
  : gmap string Document :=
  match jobs with
  | [] => m
  | (p, Ok doc) :: js => write_all js (<[p := doc]> m)
  | (_, Raise _) :: js => write_all js m
  end.

Definition paths (jobs : list Job) : list string := map fst jobs.

Inductive Driver : Type := Motor | Fire | Liability | General.

Definition category (D : Driver) : string :=
  match D with
  | Motor => "test-documents/motor-insurance"
  | Fire => "test-documents/fire-insurance"
  | Liability => "test-documents/liability-insurance"
  | General => "test-documents/general-forms"
  end.

Definition file_count (D : Driver) : nat :=
  match D with Motor => 8 | Fire => 5 | Liability => 5 | General => 6 end.

Lemma run_jobs_cons (j : Job) (js : list Job) (fs : FileSystem) :
  run_jobs (j :: js) fs
  = match save (fst j) (snd j) fs with
    | (Ok _, fs') => run_jobs js fs'
    | (Raise e, fs') => (Raise e, fs')
    end.
Proof.
  destruct js as [|j' js]; [|reflexivity].
  cbn. destruct (save (fst j) (snd j) fs) as [[[]|e] fs']; reflexivity.
Qed.

Lemma writable_files (fs : FileSystem) (m : gmap string Document) (p : string) :
  writable {| dirs := dirs fs; files := m |} p = writable fs p.
Proof. reflexivity. Qed.

(** When every document is drawn and every path is writable, all the files
    are written. *)
Lemma run_jobs_ok (jobs : list Job) : forall fs,
  Forall (fun j => is_ok (snd j) = true /\ writable fs (fst j) = true) jobs ->
  run_jobs jobs fs
  = (Ok tt, {| dirs := dirs fs; files := write_all jobs (files fs) |}).
Proof.
  induction jobs as [|[p [doc|e]] js IH]; intros fs Hall.
  - destruct fs; reflexivity.
  - inversion Hall as [|? ? [_ Hw] Hjs]; subst. cbn in Hw.
    rewrite run_jobs_cons. cbn [fst snd save]. unfold write_file. rewrite Hw.
    rewrite IH; [reflexivity|].
    eapply Forall_impl; [exact Hjs|]. intros j [Hok Hwj]. split; [exact Hok|].
    rewrite writable_files. exact Hwj.
  - inversion Hall as [|? ? [Hok _] _]; subst. discriminate Hok.
Qed.

(** The first call that fails ends the run with its exception; the files of
    the calls before it stay, and no later call is made. *)
Lemma run_jobs_fail (done rest : list Job) (j : Job) (fs : FileSystem) (e : PyError) :
  Forall (fun j => is_ok (snd j) = true /\ writable fs (fst j) = true) done ->
  (snd j = Raise e \/ (is_ok (snd j) = true /\ writable fs (fst j) = false
                       /\ e = IOError (fst j))) ->
  run_jobs (done ++ j :: rest) fs
  = (Raise e, {| dirs := dirs fs; files := write_all done (files fs) |}).
Proof.
  revert fs. induction done as [|[p [doc|e']] js IH]; intros fs Hall Hj.
  - cbn [List.app write_all]. rewrite run_jobs_cons. destruct j as [p drawn].
    cbn [fst snd] in *. destruct Hj as [->|(Hok & Hw & ->)].
    + destruct fs; reflexivity.
    + destruct drawn as [doc|]; [|discriminate]. cbn. unfold write_file.
      rewrite Hw. destruct fs; reflexivity.
  - inversion Hall as [|? ? [_ Hw] Hjs]; subst. cbn in Hw.
    cbn [List.app]. rewrite run_jobs_cons. cbn [fst snd save]. unfold write_file.
    rewrite Hw. rewrite IH; [reflexivity| |exact Hj].
    eapply Forall_impl; [exact Hjs|]. intros j' [Hok Hwj]. split; [exact Hok|].
    rewrite writable_files. exact Hwj.
  - inversion Hall as [|? ? [Hok _] _]; subst. discriminate Hok.
Qed.

Lemma write_all_lookup_other (jobs : list Job) (p : string) : forall m,
  ~ In p (paths jobs) -> write_all jobs m !! p = m !! p.
Proof.
  induction jobs as [|[q [doc|e]] js IH]; intros m Hp; [reflexivity| |].
  - cbn in *. rewrite IH by tauto. apply lookup_insert_ne. intros ->. tauto.
  - cbn in *. apply IH. tauto.
Qed.

Lemma write_all_lookup (jobs : list Job) (p : string) (doc : Document) : forall m,
  List.NoDup (paths jobs) -> In (p, Ok doc) jobs -> write_all jobs m !! p = Some doc.
Proof.
  induction jobs as [|[q [doc'|e]] js IH]; intros m Hnd Hin; [destruct Hin| |].
  - cbn in Hnd. apply List.NoDup_cons_iff in Hnd. destruct Hnd as [Hq Hnd].
    destruct Hin as [[= -> ->]|Hin].
    + cbn. rewrite write_all_lookup_other by exact Hq. apply lookup_insert_eq.
    + cbn. apply IH; assumption.
  - cbn in Hnd. apply List.NoDup_cons_iff in Hnd. destruct Hnd as [Hq Hnd].
    destruct Hin as [[=]|Hin]. cbn. apply IH; assumption.
Qed.

Lemma write_all_dom (jobs : list Job) : forall m,
  Forall (fun j => is_ok (snd j) = true) jobs ->
  dom (write_all jobs m) = dom m ∪ list_to_set (paths jobs).
Proof.
  induction jobs as [|[q [doc|e]] js IH]; intros m Hall.
  - cbn. set_solver.
  - inversion Hall; subst. cbn. rewrite IH by assumption.
    rewrite dom_insert_L. set_solver.
  - inversion Hall as [|? ? Hok _]; subst. discriminate Hok.
Qed.

Lemma nodup_app_disjoint {A} (l1 l2 : list A) (x : A) :
  List.NoDup (l1 ++ l2) -> In x l1 -> In x l2 -> False.
Proof.
  induction l1 as [|a l1 IH]; intros Hnd H1 H2; [destruct H1|].
  cbn in Hnd. apply List.NoDup_cons_iff in Hnd. destruct Hnd as [Ha Hnd].
  destruct H1 as [->|H1]; [|now apply IH].
  apply Ha, in_or_app. now right.
Qed.

Lemma run_jobs_dirs (jobs : list Job) : forall fs,
  dirs (snd (run_jobs jobs fs)) = dirs fs.
Proof.
  induction jobs as [|j js IH]; intros fs; [reflexivity|].
  rewrite run_jobs_cons. pose proof (save_dirs (fst j) (snd j) fs) as Hs.
  destruct (save (fst j) (snd j) fs) as [[[]|e] fs']; cbn in Hs.
  - now rewrite IH.
  - exact Hs.
Qed.

Lemma writable_in_category (fs : FileSystem) (p dir : string) :
  dirname p = dir -> dir ∈ dirs fs -> p ∉ dirs fs -> writable fs p = true.
Proof.
  intros Hd Hin Hp. unfold writable. apply bool_decide_eq_true.
  rewrite Hd. auto.
Qed.

Lemma unwritable_without_category (fs : FileSystem) (p dir : string) :
  dirname p = dir -> dir <> EmptyString -> dir ∉ dirs fs -> writable fs p = false.
Proof.
  intros Hd Hne Hin. unfold writable. apply bool_decide_eq_false.
  rewrite Hd. tauto.
Qed.

Section Drivers.
Context `{PyBuiltins}.

Import generate_test_pdfs generate_fire_insurance_pdfs
       generate_liability_insurance_pdfs generate_general_forms_pdfs.

(** The calls of each driver, in the order of the script. *)
Definition jobs (D : Driver) : list Job :=
  match D with
  | Motor =>
      [("test-documents/motor-insurance/vehicle_registration_1.pdf",
        vehicle_registration_document vehicle_data_1);
       ("test-documents/motor-insurance/vehicle_registration_2.pdf",
        vehicle_registration_document vehicle_data_2);
       ("test-documents/motor-insurance/drivers_license_1.pdf",
        drivers_license_document driver_data_1);
       ("test-documents/motor-insurance/drivers_license_2.pdf",
        drivers_license_document driver_data_2);
       ("test-documents/motor-insurance/vehicle_inspection_report.pdf",
        vehicle_inspection_report_document inspection_data);
       ("test-documents/motor-insurance/insurance_policy.pdf",
        insurance_policy_document generate_test_pdfs.policy_data);
       ("test-documents/motor-insurance/claim_form_completed.pdf",
        claim_form_document claim_data false);
       ("test-documents/motor-insurance/claim_form_blank.pdf",
        claim_form_document ∅ true)]
  | Fire =>
      [("test-documents/fire-insurance/property_deed.pdf",
        property_deed_document property_data);
       ("test-documents/fire-insurance/building_permit.pdf",
        building_permit_document permit_data);
       ("test-documents/fire-insurance/fire_safety_certificate.pdf",
        fire_safety_certificate_document safety_data);
       ("test-documents/fire-insurance/property_valuation_report.pdf",
        property_valuation_document valuation_data);
       ("test-documents/fire-insurance/construction_specifications.pdf",
        construction_specifications_document construction_data)]
  | Liability =>
      [("test-documents/liability-insurance/business_registration_certificate.pdf",
        business_registration_document business_data);
       ("test-documents/liability-insurance/financial_statement.pdf",
        financial_statement_document financial_data);
       ("test-documents/liability-insurance/liability_insurance_policy.pdf",
        liability_policy_document generate_liability_insurance_pdfs.policy_data);
       ("test-documents/liability-insurance/service_contract.pdf",
        contract_document_document contract_data);
       ("test-documents/liability-insurance/risk_assessment_report.pdf",
        risk_assessment_document risk_data)]
  | General =>
      [("test-documents/general-forms/sample_id_card_redacted.pdf",
        id_card_document id_data);
       ("test-documents/general-forms/sample_passport_redacted.pdf",
        passport_sample_document passport_data);
       ("test-documents/general-forms/proof_of_address_utility_bill.pdf",
        proof_of_address_document address_data);
       ("test-documents/general-forms/bank_statement_sample.pdf",
        bank_statement_document bank_data);
       ("test-documents/general-forms/employment_verification_letter.pdf",
        employment_letter_document employment_data);
       ("test-documents/general-forms/medical_certificate.pdf",
        medical_certificate_document medical_data)]
  end.

Definition run (D : Driver) : IO unit :=
  match D with
  | Motor => generate_motor_insurance_docs
  | Fire => generate_fire_insurance_docs
  | Liability => generate_liability_insurance_docs
  | General => generate_general_forms_docs
  end.

(** Each driver is the sequence of its calls. *)
Lemma run_is_run_jobs (D : Driver) : run D = run_jobs (jobs D).
Proof. destruct D; reflexivity. Qed.

(** The sample records of the scripts are complete: every document of a
    driver is drawn without an exception. *)
Lemma jobs_drawn (D : Driver) : Forall (fun j => is_ok (snd j) = true) (jobs D).
Proof. destruct D; repeat constructor; vm_compute; reflexivity. Qed.

Lemma jobs_paths (D : Driver) :
  length (paths (jobs D)) = file_count D
  /\ List.NoDup (paths (jobs D))
  /\ Forall (fun p => dirname p = category D) (paths (jobs D)).
Proof.
  split; [destruct D; reflexivity|]. split.
  -     destruct D; cbn; repeat (constructor; [cbn; intuition discriminate|]); constructor.
  - destruct D; repeat constructor.
Qed.

(** C5 (as amended).  A driver is a plain sequence of calls, with no handler
    around any of them.  Let the calls before [j] succeed and let [j] fail,
    either while its document is drawn or because its path cannot be
    written.  Then the sequence ends with the exception of [j]: the files of
    the earlier calls are there and nothing else has changed.  For the four
    drivers of the scripts the failure is the IOError of the path, since
    their sample records are complete, and the files of the calls after [j]
    are left as they were: these calls are not made. *)
Theorem C5_failure_aborts (D : Driver) (done rest : list Job) (j : Job)
    (fs : FileSystem) (e : PyError) :
  Forall (fun j' => is_ok (snd j') = true /\ writable fs (fst j') = true) done ->
  (snd j = Raise e
   \/ (is_ok (snd j) = true /\ writable fs (fst j) = false /\ e = IOError (fst j))) ->
  run_jobs (done ++ j :: rest) fs
  = (Raise e, {| dirs := dirs fs; files := write_all done (files fs) |})
  /\ (jobs D = done ++ j :: rest ->
      run D fs = (Raise (IOError (fst j)),
                  {| dirs := dirs fs; files := write_all done (files fs) |})
      /\ forall j', In j' rest ->
           write_all done (files fs) !! fst j' = files fs !! fst j').
Proof.
  intros Hdone Hj. split; [apply run_jobs_fail; assumption|].
  intros HD. split.
  - rewrite run_is_run_jobs, HD.
    apply run_jobs_fail; [assumption|]. right.
    assert (Hok : is_ok (snd j) = true).
    { pose proof (jobs_drawn D) as Hall. rewrite HD in Hall.
      apply Forall_app in Hall. destruct Hall as [_ Hall].
      now inversion Hall. }
    destruct Hj as [E|(_ & Hw & _)]; [rewrite E in Hok; discriminate|].
    auto.
  - intros j' Hin. apply write_all_lookup_other.
    destruct (jobs_paths D) as (_ & Hnd & _). rewrite HD in Hnd.
    unfold paths in *. rewrite map_app in Hnd. cbn in Hnd.
    intros Hin'. apply (nodup_app_disjoint _ _ _ Hnd Hin').
    right. apply in_map, Hin.
Qed.

(** C6 (as amended).  No driver creates a directory.  When the category
    directory exists and none of the paths is taken by a directory, the run
    succeeds and the new files are exactly the paths of the driver --- 8 for
    the motor insurance, 5 for the fire insurance, 5 for the liability
    insurance, 6 for the general forms, all distinct --- each holding the
    document of its call.  When the category directory does not exist, as in
    a fresh output directory, the first call fails with the IOError of its
    path and nothing is written. *)
Theorem C6_batch_generation (D : Driver) (fs : FileSystem) :
  dirs (snd (run D fs)) = dirs fs
  /\ length (paths (jobs D)) = file_count D
  /\ List.NoDup (paths (jobs D))
  /\ (category D ∈ dirs fs ->
      (forall p, In p (paths (jobs D)) -> p ∉ dirs fs) ->
      exists fs',
        run D fs = (Ok tt, fs')
        /\ dom (files fs') = dom (files fs) ∪ list_to_set (paths (jobs D))
        /\ (forall p doc, In (p, Ok doc) (jobs D) -> files fs' !! p = Some doc)
        /\ (forall p, ~ In p (paths (jobs D)) -> files fs' !! p = files fs !! p))
  /\ (category D ∉ dirs fs ->
      exists p rest,
        paths (jobs D) = p :: rest
        /\ run D fs = (Raise (IOError p), fs)).
Proof.
  destruct (jobs_paths D) as (Hlen & Hnd & Hdir).
  split; [rewrite run_is_run_jobs; apply run_jobs_dirs|].
  split; [exact Hlen|]. split; [exact Hnd|]. split.
  - intros Hcat Hfree. eexists. split; [|split; [|split]].
    + rewrite run_is_run_jobs. apply run_jobs_ok.
      pose proof (jobs_drawn D) as Hok.
      rewrite Forall_forall in Hok. rewrite Forall_forall in Hdir.
      apply Forall_forall.
      intros j Hj. split; [apply Hok, Hj|].
      assert (Hp : In (fst j) (paths (jobs D))).
      { apply in_map, list_elem_of_In, Hj. }
      eapply writable_in_category;
        [apply Hdir, list_elem_of_In, Hp | exact Hcat | apply Hfree, Hp].
    + cbn. apply write_all_dom, jobs_drawn.
    + intros p doc Hin. cbn. apply write_all_lookup; assumption.
    + intros p Hp. cbn. apply write_all_lookup_other, Hp.
  - intros Hcat.
    assert (Hne : category D <> EmptyString) by (destruct D; discriminate).
    pose proof (jobs_drawn D) as Hok.
    destruct (jobs D) as [|j rest] eqn:HD; [destruct D; discriminate|].
    exists (fst j), (paths rest). split; [reflexivity|].
    rewrite run_is_run_jobs, HD.
    change (j :: rest) with ([] ++ j :: rest).
    rewrite (run_jobs_fail [] rest j fs (IOError (fst j))).
    + destruct fs; reflexivity.
    + constructor.
    + right. inversion Hok; subst. inversion Hdir; subst.
      split; [assumption|]. split; [|reflexivity].
      eapply unwritable_without_category; eassumption.
Qed.

End Drivers.
(** * Further properties of the renderers *)

(** The fields a template reads, in any way. *)
Definition template_keys (T : DocType) : list string :=
  map field_key (template T).

(** Replaces the lookups of [d] by the lookups of a record that agrees with
    it on the keys of the template. *)
Ltac agree_lookups d Hagree :=
  repeat match goal with
         | |- context [d !! ?k] => rewrite (Hagree k) by find_in
         end.

Section MoreRenderers.
Context `{PyBuiltins}.

Import generate_test_pdfs generate_fire_insurance_pdfs
       generate_liability_insurance_pdfs generate_general_forms_pdfs.

Lemma document_agree (T : DocType) (d d' : Record) :
  (forall k, In k (template_keys T) -> d !! k = d' !! k) ->
  document T d = document T d'.
Proof.
  intros Hagree.
  destruct T as [| | | |[]| | | | | | | | | | | | | | | |];
    unfold template_keys, template in Hagree; cbn -[In] in Hagree;
    unfold document; autounfold with renderers; unfold getitem;
    agree_lookups d Hagree; reflexivity.
Qed.

(** Removing a field that is not read with [data[k]] keeps the accesses
    free of exceptions. *)
Lemma first_error_delete_optional (t : list Field) (d : Record) (k : string) :
  ~ In k (required_keys t) -> first_error t d = None ->
  first_error t (delete k d) = None.
Proof.
  induction t as [|[k' u|k' u|k' u] t IH]; cbn; intros Hk Hv; [reflexivity | | |].
  - assert (k' <> k) by tauto.
    rewrite lookup_delete_ne by congruence.
    destruct (d !! k'); [destruct (check u v)|]; try discriminate. apply IH; tauto.
  - destruct (decide (k' = k)) as [->|Hne].
    + rewrite lookup_delete_eq. apply IH; [assumption|].
      destruct (d !! k); [destruct (check u v)|]; auto; discriminate.
    + rewrite lookup_delete_ne by congruence.
      destruct (d !! k'); [destruct (check u v)|]; auto; discriminate.
  - destruct (decide (k' = k)) as [->|Hne].
    + rewrite lookup_delete_eq. cbn. apply IH; [assumption|].
      destruct (truthy (d !! k)); auto.
      destruct (d !! k); [destruct (check u v)|]; auto; discriminate.
    + rewrite lookup_delete_ne by congruence.
      destruct (truthy (d !! k')); auto.
      destruct (d !! k'); [destruct (check u v)|]; auto; discriminate.
Qed.

(** No use of a value raises a [KeyError]. *)
Lemma check_not_KeyError (u : Use) (v : Value) (k : string) :
  check u v <> Some (KeyError k).
Proof.
  destruct u; cbn; try discriminate.
  - destruct v, spec; cbn; try discriminate.
    unfold float_of_int. destruct (binary_normalize _ _ _ _ _); cbn; discriminate.
  - destruct v; cbn; discriminate.
  - destruct v; cbn; try discriminate.
    + unfold float_of_int.
      destruct (binary_normalize _ _ _ _ _); cbn; try discriminate;
        match goal with |- context [int_of_float ?x] =>
          destruct x; cbn; discriminate end.
    + destruct (float_mul f w); cbn; discriminate.
  - destruct v; cbn; discriminate.
Qed.

(** A [KeyError] comes from a field that is read with [data[k]] and that the
    record does not have. *)
Lemma first_error_KeyError (t : list Field) (d : Record) (k : string) :
  first_error t d = Some (KeyError k) ->
  In k (required_keys t) /\ d !! k = None.
Proof.
  induction t as [|[k' u|k' u|k' u] t IH]; cbn; intros He; [discriminate | | |].
  - destruct (d !! k') as [v|] eqn:Ek.
    + pose proof (check_not_KeyError u v k) as Hc.
      destruct (check u v); [congruence|].
      destruct (IH He). auto.
    + injection He as ->. auto.
  - destruct (d !! k') as [v|]; [|auto].
    pose proof (check_not_KeyError u v k) as Hc.
    destruct (check u v); [congruence | auto].
  - destruct (truthy (d !! k')) eqn:Ht; [|auto].
    destruct (truthy_is_Some _ Ht) as [v Ev]. rewrite Ev in He.
    pose proof (check_not_KeyError u v k) as Hc.
    destruct (check u v); [congruence | auto].
Qed.

(** A required field whose value cannot be used as the template uses it
    makes the accesses fail. *)
Lemma first_error_misused (t : list Field) (d : Record) (k : string) (u : Use)
    (v : Value) (e : PyError) :
  In (required k u) t -> d !! k = Some v -> check u v = Some e ->
  first_error t d <> None.
Proof.
  induction t as [|[k' u'|k' u'|k' u'] t IH]; cbn; intros Hin Hk Hc; [easy | | |].
  - destruct Hin as [[= -> ->]|Hin].
    + rewrite Hk, Hc. discriminate.
    + destruct (d !! k') as [v'|]; [destruct (check u' v')|]; auto; discriminate.
  - destruct Hin as [[=]|Hin].
    destruct (d !! k') as [v'|]; [destruct (check u' v')|]; auto; discriminate.
  - destruct Hin as [[=]|Hin].
    destruct (truthy (d !! k')); auto.
    destruct (d !! k') as [v'|]; [destruct (check u' v')|]; auto; discriminate.
Qed.


(** X2.  A renderer reads nothing of the record but the fields of its
    template: two records that agree on these fields give the same document,
    or the same exception.  Fields that the template does not name are
    ignored. *)
Theorem X2_only_template_fields (T : DocType) (d d' : Record) :
  (forall k, In k (template_keys T) -> d !! k = d' !! k) ->
  document T d = document T d'.
Proof. apply document_agree. Qed.

(** X3.  A field that a renderer reads only with [get] is optional: if a
    record is rendered without an exception, so is the record without that
    field. *)
Theorem X3_optional_field_removed (T : DocType) (d : Record) (k : string)
    (doc : Document) :
  ~ In k (required_keys (template T)) ->
  document T d = Ok doc ->
  exists doc', document T (delete k d) = Ok doc'.
Proof.
  intros Hk Hdoc. apply valid_document.
  apply first_error_delete_optional; [exact Hk|].
  apply valid_document. eauto.
Qed.

(** X4.  The completed claim form prints every field of the claim after its
    label: each of the fifteen one-line fields, and the description. *)
Theorem X4_claim_form_completed (d : Record) (doc : Document) :
  claim_form_document d false = Ok doc ->
  exists ps fl,
    doc = PlatypusDoc ps fl
    /\ (forall key label, In (key, label) claim_field_labels ->
          exists v, d !! key = Some v
                    /\ In (Paragraph (label +:+ str v) (styles "Normal")) fl)
    /\ exists v, d !! "description" = Some v
                 /\ In (Paragraph ("Description: " +:+ str v) (styles "Normal")) fl.
Proof.
  intros Hdoc. pose proof (claim_form_completed d) as Hc. rewrite Hdoc in Hc.
  destruct doc as [|ps fl]; [destruct Hc|]. exists ps, fl. split; [reflexivity|].
  exact Hc.
Qed.

(** X5.  The deed tests [encumbrances] for truth: any value that Python
    takes for false --- the empty list, the empty string, zero --- gives the
    document of a record without the field, with the placeholder line. *)
Theorem X5_falsy_encumbrances (d : Record) (v : Value) :
  truthy (Some v) = false ->
  property_deed_document (<["encumbrances" := v]> d)
  = property_deed_document (delete "encumbrances" d).
Proof.
  intros Hv. autounfold with renderers. unfold getitem.
  rewrite ?lookup_insert_eq, ?lookup_delete_eq.
  rewrite ?lookup_insert_ne by discriminate.
  rewrite ?lookup_delete_ne by discriminate.
  rewrite Hv. reflexivity.
Qed.

(** X10.  A KeyError of a renderer is never spurious: the field it names is
    one that the renderer reads with [data[k]], and the record does not have
    it. *)
Theorem X10_key_error_sound (T : DocType) (d : Record) (k : string) :
  document T d = Raise (KeyError k) ->
  In k (required_keys (template T)) /\ d !! k = None.
Proof.
  intros Hd. apply first_error_KeyError.
  rewrite <- document_error, Hd. reflexivity.
Qed.

(** X11.  The values of the fields are not converted: a field that the
    renderer formats with [:,] or [:.2f], multiplies, lower-cases or iterates
    must hold a value that Python accepts there.  If it does not --- a text
    where a number is formatted, a number where a text is lower-cased ---
    the renderer fails, whatever the rest of the record is. *)
Theorem X11_misused_field (T : DocType) (d : Record) (k : string) (u : Use)
    (v : Value) (e : PyError) :
  In (required k u) (template T) ->
  d !! k = Some v ->
  check u v = Some e ->
  exists e', document T d = Raise e'.
Proof.
  intros Hin Hk Hc.
  pose proof (first_error_misused _ _ _ _ _ _ Hin Hk Hc) as Hne.
  rewrite <- document_error in Hne.
  destruct (document T d) as [doc|e']; [now destruct Hne | eauto].
Qed.

End MoreRenderers.
(** * Further properties of the drivers *)

(** A call that goes through in [fs]: its document is drawn and its path can
    be written. *)
Definition goes_through (fs : FileSystem) (j : Job) : bool :=
  is_ok (snd j) && writable fs (fst j).

Lemma goes_through_spec (fs : FileSystem) (j : Job) :
  goes_through fs j = true <-> is_ok (snd j) = true /\ writable fs (fst j) = true.
Proof. unfold goes_through. apply andb_true_iff. Qed.

(** Either every call goes through, or there is a first one that does not. *)
Lemma first_failure (fs : FileSystem) (jobs : list Job) :
  Forall (fun j => goes_through fs j = true) jobs
  \/ exists done j rest,
       jobs = done ++ j :: rest
       /\ Forall (fun j => goes_through fs j = true) done
       /\ goes_through fs j = false.
Proof.
  induction jobs as [|j js IH]; [left; constructor|].
  destruct (goes_through fs j) eqn:Hj.
  - destruct IH as [Hall|(done & j' & rest & -> & Hdone & Hj')].
    + left. now constructor.
    + right. exists (j :: done), j', rest. repeat split; [|assumption].
      now constructor.
  - right. exists [], j, js. repeat split; [constructor | assumption].
Qed.

Lemma goes_through_all (fs : FileSystem) (jobs : list Job) :
  Forall (fun j => goes_through fs j = true) jobs ->
  Forall (fun j => is_ok (snd j) = true /\ writable fs (fst j) = true) jobs.
Proof.
  intros Hall. eapply Forall_impl; [exact Hall|].
  intros j. apply goes_through_spec.
Qed.

(** The exception of a call that does not go through. *)
Definition failure (j : Job) : PyError :=
  match snd j with
  | Raise e => e
  | Ok _ => IOError (fst j)
  end.

Lemma run_jobs_first_failure (done rest : list Job) (j : Job) (fs : FileSystem) :
  Forall (fun j => goes_through fs j = true) done ->
  goes_through fs j = false ->
  run_jobs (done ++ j :: rest) fs
  = (Raise (failure j), {| dirs := dirs fs; files := write_all done (files fs) |}).
Proof.
  intros Hdone Hj. apply run_jobs_fail; [now apply goes_through_all|].
  unfold goes_through, failure in *. destruct (snd j) as [doc|e]; cbn in *.
  - right. auto.
  - left. reflexivity.
Qed.

(** Writing the same files once more changes nothing. *)
Lemma write_all_twice (jobs : list Job) (m : gmap string Document) :
  List.NoDup (paths jobs) ->
  Forall (fun j => is_ok (snd j) = true) jobs ->
  write_all jobs (write_all jobs m) = write_all jobs m.
Proof.
  intros Hnd Hok. apply map_eq. intros p.
  destruct (in_dec string_dec p (paths jobs)) as [Hin|Hout].
  - unfold paths in Hin. apply in_map_iff in Hin.
    destruct Hin as ([q [doc|e]] & Hq & Hin); cbn in Hq; subst q.
    + now rewrite !(write_all_lookup jobs p doc) by assumption.
    + rewrite Forall_forall in Hok. apply list_elem_of_In in Hin.
      specialize (Hok _ Hin). discriminate Hok.
  - now rewrite !write_all_lookup_other by assumption.
Qed.

Section MoreDrivers.
Context `{PyBuiltins}.

(** X6.  A driver can fail in one way only.  Its sample records are
    complete, so no call fails while its document is drawn: a run that ends
    with an exception ends with the IOError of the first path that cannot be
    written, after it has written the files of the calls before that one,
    and nothing else. *)
Theorem X6_driver_failure (D : Driver) (fs fs' : FileSystem) (e : PyError) :
  run D fs = (Raise e, fs') ->
  exists done j rest,
    jobs D = done ++ j :: rest
    /\ Forall (fun j' => writable fs (fst j') = true) done
    /\ writable fs (fst j) = false
    /\ e = IOError (fst j)
    /\ fs' = {| dirs := dirs fs; files := write_all done (files fs) |}.
Proof.
  rewrite run_is_run_jobs. intros Hrun.
  pose proof (jobs_drawn D) as Hok.
  destruct (first_failure fs (jobs D)) as [Hall|(done & j & rest & HD & Hdone & Hj)].
  - rewrite run_jobs_ok in Hrun by now apply goes_through_all. discriminate Hrun.
  - rewrite HD in Hrun, Hok. rewrite run_jobs_first_failure in Hrun by assumption.
    injection Hrun as <- <-.
    apply Forall_app in Hok. destruct Hok as [_ Hok].
    inversion Hok as [|? ? Hjok _]; subst.
    exists done, j, rest. split; [exact HD|]. split.
    + eapply Forall_impl; [exact Hdone|]. intros j' Hj'.
      now apply goes_through_spec in Hj'.
    + unfold goes_through, failure in *. rewrite Hjok in Hj. cbn in Hj.
      destruct (snd j); [auto | discriminate].
Qed.

(** X7.  A driver succeeds exactly when each of its paths can be written:
    the directory of the category exists, and no path is taken by a
    directory. *)
Theorem X7_driver_success (D : Driver) (fs : FileSystem) :
  (exists fs', run D fs = (Ok tt, fs'))
  <-> Forall (fun p => writable fs p = true) (paths (jobs D)).
Proof.
  rewrite run_is_run_jobs. pose proof (jobs_drawn D) as Hok. split.
  - intros [fs' Hrun].
    destruct (first_failure fs (jobs D)) as [Hall|(done & j & rest & HD & Hdone & Hj)].
    + unfold paths. apply Forall_map. eapply Forall_impl; [exact Hall|].
      intros j Hj. now apply goes_through_spec in Hj.
    + rewrite HD in Hrun. rewrite run_jobs_first_failure in Hrun by assumption.
      discriminate Hrun.
  - intros Hw. eexists. apply run_jobs_ok.
    unfold paths in Hw. apply Forall_map in Hw.
    rewrite Forall_forall in Hok. rewrite Forall_forall in Hw.
    apply Forall_forall. intros j Hj. split; [apply Hok, Hj | apply Hw, Hj].
Qed.


End MoreDrivers.
(** * Where the list loops draw *)

(** The [i]-th line of a loop is drawn [i] steps below the first. *)
Lemma bullet_lines_lookup (x step : Q) (mark : string) (l : list string) :
  forall (y : Q) (i : nat) (s : string),
    l !! i = Some s ->
    exists y', (y' == y - inject_Z (Z.of_nat i) * step)%Q
               /\ bullet_lines x y step mark l !! i
                  = Some (DrawString x y' (VStr (mark +:+ s))).
Proof.
  induction l as [|s0 l IH]; intros y i s Hi; [discriminate|].
  destruct i as [|i].
  - injection Hi as ->. exists y. split; [|reflexivity].
    cbn. ring.
  - cbn in Hi. destruct (IH (y - step)%Q i s Hi) as (y' & Hy & Hl).
    exists y'. split; [|exact Hl].
    rewrite Hy, Nat2Z.inj_succ, <- Z.add_1_r, inject_Z_plus. ring.
Qed.

Section Layout.
Context `{PyBuiltins}.

Import generate_test_pdfs.

Lemma emitted_restrictions (l : list string) (y : Q) :
  emitted (fun (a : Q) (_ : Value) => (a - 15)%Q)
          (fun (a : Q) (v : Value) => DrawString 10 a (VStr ("• " +:+ str v)))
          (map VStr l) y
  = bullet_lines 10 y 15 "• " l.
Proof. revert y. induction l as [|s l IH]; intros y; cbn; [reflexivity|]. now rewrite IH. Qed.

(** The back side of the license, for any value of [restrictions] that can
    be iterated. *)
Lemma drivers_license_back (d : Record) (v : Value) (l : list string) :
  iter_value v = Ok (map VStr l) ->
  match drivers_license_document (<["restrictions" := v]> d) with
  | Ok doc =>
      exists before,
        doc = CanvasDoc (4 * inch, 2.5 * inch)%Q
                (before
                 ++ bullet_lines 10 (2.5 * inch - 40)%Q 15 "• " l
                 ++ [DrawString 10 20
                       (VStr "This is a sample document for testing purposes only")])
  | Raise _ => True
  end.
Proof.
  intros Hv. autounfold with renderers. cbn -[In].
  rewrite ?lookup_insert_eq. rewrite ?lookup_insert_ne by discriminate.
  cbn -[In]. rewrite Hv. cbn -[In].
  repeat (step; try exact I).
  rewrite emitted_restrictions.
  lazymatch goal with
  | |- exists b, CanvasDoc _ ?ops = _ => exists (firstn 24 ops)
  end.
  reflexivity.
Qed.

(** X9.  The license draws the restrictions one under the other without a
    bound.  Entry [i] of the list (from 0) is drawn at the left margin, 15
    points below the one before, at height 140 - 15 i of a page that is 180
    points high; the notice is drawn at height 20 after them.  So the ninth
    entry is drawn over the notice, and from the eleventh on the entries are
    drawn below the bottom edge of the page.  A string in place of the list
    is iterated too: it gives one line for each of its characters. *)
Theorem X9_license_restrictions (d : Record) (v : Value) (l : list string)
    (doc : Document) :
  iter_value v = Ok (map VStr l) ->
  drivers_license_document (<["restrictions" := v]> d) = Ok doc ->
  exists ops,
    doc = CanvasDoc (4 * inch, 2.5 * inch)%Q ops
    /\ (2.5 * inch == 180)%Q
    /\ In (DrawString 10 20 (VStr "This is a sample document for testing purposes only"))
          ops
    /\ forall (i : nat) (s : string),
         l !! i = Some s ->
         exists y, (y == 140 - 15 * inject_Z (Z.of_nat i))%Q
                   /\ In (DrawString 10 y (VStr ("• " +:+ s))) ops
                   /\ (i = 8%nat -> (y == 20)%Q)
                   /\ ((10 <= i)%nat -> (y < 0)%Q).
Proof.
  intros Hv Hdoc. pose proof (drivers_license_back d v l Hv) as Hb.
  rewrite Hdoc in Hb. destruct Hb as (before & ->).
  eexists. split; [reflexivity|]. split; [reflexivity|]. split.
  - apply in_or_app. right. apply in_or_app. right. apply in_eq.
  - intros i s Hi.
    destruct (bullet_lines_lookup 10 15 "• " l (2.5 * inch - 40)%Q i s Hi)
      as (y & Hy & Hl).
    assert (Hy' : (y == 140 - 15 * inject_Z (Z.of_nat i))%Q).
    { rewrite Hy. unfold inch. ring. }
    exists y. split; [exact Hy'|]. split; [|split].
    + apply in_or_app. right. apply in_or_app. left.
      apply list_elem_of_In. eapply list_elem_of_lookup_2. exact Hl.
    + intros ->. rewrite Hy'. reflexivity.
    + intros Hi10. rewrite Hy'.
      assert (H10 : (inject_Z 10 <= inject_Z (Z.of_nat i))%Q).
      { rewrite <- Zle_Qle. lia. }
      change (inject_Z 10) with 10%Q in H10.
      apply Qlt_minus_iff. ring_simplify.
      apply Qlt_le_trans with (15 * 10 - 140)%Q; [reflexivity|].
      apply Qplus_le_l. apply Qmult_le_l; [reflexivity | exact H10].
Qed.

End Layout.
(** * The sample records of the scripts

    The theorems above hold for every choice of the built-ins that are left
    abstract.  To evaluate the renderers on the sample records of the scripts
    the built-ins are fixed here: [str.lower] on the ASCII letters, the text
    of a list of plain strings, and a fixed-point text for floats.  No sample
    shows a float without a format, so the last choice is never seen in a
    document below. *)

Definition quoted (s : string) : string := "'" +:+ s +:+ "'".

Fixpoint join (sep : string) (l : list string) : string :=
  match l with
  | [] => EmptyString
  | [s] => s
  | s :: l' => s +:+ sep +:+ join sep l'
  end.

#[global] Instance sample_builtins : PyBuiltins := {|
  float_repr := float_fixed 1;
  float_grouped := float_fixed 1;
  list_repr := fun l => "[" +:+ join ", " (map quoted l) +:+ "]";
  str_lower := string_map ascii_lower
|}.

(** An output directory with nothing but the top directory in it. *)
Definition fresh_output : FileSystem :=
  {| dirs := {[ "test-documents" ]}; files := ∅ |}.

(** An output directory where the directory of the fire insurance exists,
    and the path of the building permit is taken by a directory. *)
Definition blocked_output : FileSystem :=
  {| dirs := {[ "test-documents"; "test-documents/fire-insurance";
                "test-documents/fire-insurance/building_permit.pdf" ]};
     files := ∅ |}.

(** An output directory with the four category directories. *)
Definition prepared_output : FileSystem :=
  {| dirs := {[ "test-documents"; "test-documents/motor-insurance";
                "test-documents/fire-insurance";
                "test-documents/liability-insurance";
                "test-documents/general-forms" ]};
     files := ∅ |}.

(** A canvas operation that draws a text starting with [prefix]. *)
Definition draws_prefix (prefix : string) (op : CanvasOp) : bool :=
  match op with
  | DrawString _ _ (VStr s) => String.prefix prefix s
  | _ => false
  end.

Definition canvas_ops (doc : Document) : list CanvasOp :=
  match doc with CanvasDoc _ ops => ops | PlatypusDoc _ _ => [] end.

(** A field of the record whose value is the int [n]. *)
Definition holds_int (n : Z) (kv : string * Value) : bool :=
  match snd kv with VInt m => m =? n | _ => false end.

Module Examples.

Import generate_test_pdfs generate_fire_insurance_pdfs
       generate_liability_insurance_pdfs generate_general_forms_pdfs.



(** The sample deed without its encumbrances shows the placeholder, and a
    list with entries takes its place. *)
Lemma C2_optional_lists_witness :
  exists before after,
    property_deed_document (delete "encumbrances" property_data)
    = Ok (PlatypusDoc letter
            (before
             ++ [Paragraph "None recorded as of the date of this deed." (styles "Normal")]
             ++ after))
    /\ forall l, l <> [] ->
         property_deed_document (<["encumbrances" := VList l]> property_data)
         = Ok (PlatypusDoc letter (before ++ map bullet_paragraph l ++ after)).
Proof.
  destruct (property_deed_document (delete "encumbrances" property_data))
    as [doc|] eqn:E; [|vm_compute in E; discriminate].
  destruct (proj2 (proj1 (C2_optional_lists property_data)) doc E)
    as (before & after & -> & Hl).
  exists before, after. split; [reflexivity | exact Hl].
Defined.

(** The first sample license without its restrictions shows [• NONE]; with
    the empty list it has one line less.  The sample permit without its
    approvals draws no line that starts with None recorded. *)
Lemma C2_counterexample :
  (exists ps ops ops',
      drivers_license_document (delete "restrictions" driver_data_1)
      = Ok (CanvasDoc ps ops)
      /\ drivers_license_document (<["restrictions" := VList []]> driver_data_1)
         = Ok (CanvasDoc ps ops')
      /\ existsb (draws_prefix "• NONE") ops = true
      /\ existsb (draws_prefix "• NONE") ops' = false
      /\ length ops = S (length ops'))
  /\ (exists ops,
        building_permit_document (delete "approvals" permit_data)
        = Ok (CanvasDoc letter ops)
        /\ existsb (draws_prefix "None recorded") ops = false).
Proof.
  split.
  - destruct (drivers_license_document (delete "restrictions" driver_data_1))
      as [[ps ops|]|] eqn:E1; vm_compute in E1; try discriminate.
    destruct (drivers_license_document (<["restrictions" := VList []]> driver_data_1))
      as [[ps' ops'|]|] eqn:E2; vm_compute in E2; try discriminate.
    injection E1 as <- <-. injection E2 as <- <-.
    do 3 eexists. repeat split; vm_compute; reflexivity.
  - destruct (building_permit_document (delete "approvals" permit_data))
      as [[ps ops|]|] eqn:E1; vm_compute in E1; try discriminate.
    injection E1 as <- <-.
    eexists. split; [vm_compute; reflexivity|]. vm_compute. reflexivity.
Qed.





(** The fire insurance driver where the path of the building permit is
    taken by a directory: the deed is written, the permit fails, and the run
    ends there. *)
Lemma C5_failure_aborts_witness :
  run Fire blocked_output
  = (Raise (IOError "test-documents/fire-insurance/building_permit.pdf"),
     {| dirs := dirs blocked_output;
        files := write_all [("test-documents/fire-insurance/property_deed.pdf",
                             property_deed_document property_data)] ∅ |}).
Proof.
  refine (proj1 (proj2 (C5_failure_aborts Fire
            [("test-documents/fire-insurance/property_deed.pdf",
              property_deed_document property_data)]
            [("test-documents/fire-insurance/fire_safety_certificate.pdf",
              fire_safety_certificate_document safety_data);
             ("test-documents/fire-insurance/property_valuation_report.pdf",
              property_valuation_document valuation_data);
             ("test-documents/fire-insurance/construction_specifications.pdf",
              construction_specifications_document construction_data)]
            ("test-documents/fire-insurance/building_permit.pdf",
             building_permit_document permit_data)
            blocked_output
            (IOError "test-documents/fire-insurance/building_permit.pdf") _ _) _)).
  - repeat constructor; vm_compute; reflexivity.
  - right. repeat split; vm_compute; reflexivity.
  - reflexivity.
Defined.

(** In that run the certificate, the appraisal and the specifications could
    have been written, but they are not: the driver stops at the permit. *)
Lemma C5_counterexample :
  exists fs',
    generate_fire_insurance_docs blocked_output
    = (Raise (IOError "test-documents/fire-insurance/building_permit.pdf"), fs')
    /\ is_Some (files fs' !! "test-documents/fire-insurance/property_deed.pdf")
    /\ (writable blocked_output
          "test-documents/fire-insurance/fire_safety_certificate.pdf" = true
        /\ is_ok (fire_safety_certificate_document safety_data) = true
        /\ files fs' !! "test-documents/fire-insurance/fire_safety_certificate.pdf" = None)
    /\ (writable blocked_output
          "test-documents/fire-insurance/property_valuation_report.pdf" = true
        /\ is_ok (property_valuation_document valuation_data) = true
        /\ files fs' !! "test-documents/fire-insurance/property_valuation_report.pdf" = None)
    /\ (writable blocked_output
          "test-documents/fire-insurance/construction_specifications.pdf" = true
        /\ is_ok (construction_specifications_document construction_data) = true
        /\ files fs' !! "test-documents/fire-insurance/construction_specifications.pdf"
           = None).
Proof.
  destruct (generate_fire_insurance_docs blocked_output) as [r fs'] eqn:E.
  vm_compute in E. injection E as <- <-.
  eexists. split; [reflexivity|]. split; [vm_compute; eauto|].
  repeat split; vm_compute; reflexivity.
Qed.

(** The general forms driver in an output directory that has the category
    directories: its six files are written. *)
Lemma C6_batch_generation_witness :
  exists fs',
    run General prepared_output = (Ok tt, fs')
    /\ dom (files fs') = dom (files prepared_output) ∪ list_to_set (paths (jobs General))
    /\ (forall p doc, In (p, Ok doc) (jobs General) -> files fs' !! p = Some doc)
    /\ (forall p, ~ In p (paths (jobs General)) ->
          files fs' !! p = files prepared_output !! p).
Proof.
  refine (proj1 (proj2 (proj2 (proj2 (C6_batch_generation General prepared_output)))) _ _).
  - vm_compute. reflexivity.
  - intros p Hp. cbn in Hp.
    repeat (destruct Hp as [<-|Hp]; [vm_compute; intros Hin; discriminate Hin|]).
    destruct Hp.
Defined.

(** In a fresh output directory every driver fails at its first file, and
    writes nothing. *)
Lemma C6_counterexample :
  generate_motor_insurance_docs fresh_output
  = (Raise (IOError "test-documents/motor-insurance/vehicle_registration_1.pdf"),
     fresh_output)
  /\ generate_fire_insurance_docs fresh_output
     = (Raise (IOError "test-documents/fire-insurance/property_deed.pdf"),
        fresh_output)
  /\ generate_liability_insurance_docs fresh_output
     = (Raise (IOError
                "test-documents/liability-insurance/business_registration_certificate.pdf"),
        fresh_output)
  /\ generate_general_forms_docs fresh_output
     = (Raise (IOError "test-documents/general-forms/sample_id_card_redacted.pdf"),
        fresh_output)
  /\ files fresh_output = ∅.
Proof. repeat split; vm_compute; reflexivity. Qed.


(** The sample certificate of the script holds the three values of the
    scenario. *)
Lemma C9_fire_safety_certificate_witness :
  exists fl rows colWidths style,
    fire_safety_certificate_document safety_data = Ok (PlatypusDoc letter fl)
    /\ fl !! 2%nat = Some (MkTable ([VStr "Certificate Number:"; VStr "FSC-2024-3456"]
                                    :: [VStr "Issue Date:"; VStr "2024-07-20"]
                                    :: [VStr "Expiration Date:"; VStr "2025-07-20"]
                                    :: rows) colWidths style).
Proof.
  refine (C9_fire_safety_certificate safety_data _ _ _ _); vm_compute; reflexivity.
Defined.

(** The sample ID card carries the redaction notice. *)
Lemma C10_notice_witness :
  exists doc, document IdCard id_data = Ok doc
              /\ emits doc "SAMPLE DOCUMENT - PERSONAL INFO REDACTED FOR PRIVACY".
Proof.
  eexists. split; [vm_compute; reflexivity|].
  refine (C10_notice IdCard id_data _ _). vm_compute. reflexivity.
Defined.

End Examples.
(** * More examples on the sample records *)

Module MoreExamples.

Import generate_test_pdfs generate_fire_insurance_pdfs
       generate_liability_insurance_pdfs generate_general_forms_pdfs.

(** A field that the registration does not know is ignored. *)
Lemma X2_only_template_fields_witness :
  document VehicleRegistration vehicle_data_1
  = document VehicleRegistration (<["note" := VStr "checked"]> vehicle_data_1).
Proof.
  apply X2_only_template_fields. intros k Hk.
  rewrite lookup_insert_ne; [reflexivity|].
  intros <-. unfold template_keys in Hk. cbn in Hk. intuition discriminate.
Defined.

(** The first sample license without its restrictions. *)
Lemma X3_optional_field_removed_witness :
  exists doc', document DriversLicense (delete "restrictions" driver_data_1) = Ok doc'.
Proof.
  eapply X3_optional_field_removed with (d := driver_data_1).
  - cbn. intuition discriminate.
  - vm_compute. reflexivity.
Defined.

(** The completed claim form of the script. *)
Lemma X4_claim_form_completed_witness :
  exists doc,
    claim_form_document claim_data false = Ok doc
    /\ exists ps fl,
         doc = PlatypusDoc ps fl
         /\ (forall key label, In (key, label) claim_field_labels ->
               exists v, claim_data !! key = Some v
                         /\ In (Paragraph (label +:+ str v) (styles "Normal")) fl)
         /\ exists v, claim_data !! "description" = Some v
                      /\ In (Paragraph ("Description: " +:+ str v) (styles "Normal")) fl.
Proof.
  eexists. split; [vm_compute; reflexivity|].
  apply X4_claim_form_completed. vm_compute. reflexivity.
Defined.

(** The sample deed with the number zero for its encumbrances. *)
Lemma X5_falsy_encumbrances_witness :
  property_deed_document (<["encumbrances" := VInt 0]> property_data)
  = property_deed_document (delete "encumbrances" property_data).
Proof. apply X5_falsy_encumbrances. reflexivity. Defined.

(** The fire insurance driver where the path of the permit is a directory. *)
Lemma X6_driver_failure_witness :
  exists fs' done j rest,
    jobs Fire = done ++ j :: rest
    /\ Forall (fun j' => writable blocked_output (fst j') = true) done
    /\ writable blocked_output (fst j) = false
    /\ IOError "test-documents/fire-insurance/building_permit.pdf" = IOError (fst j)
    /\ fs' = {| dirs := dirs blocked_output;
                files := write_all done (files blocked_output) |}.
Proof.
  destruct (run Fire blocked_output) as [r fs'] eqn:E.
  assert (Hr : r = Raise (IOError "test-documents/fire-insurance/building_permit.pdf")).
  { pose proof E as E'. vm_compute in E'. now injection E'. }
  subst r. exists fs'.
  exact (X6_driver_failure Fire blocked_output fs' _ E).
Defined.


(** The first sample license with a text in place of the list. *)
Lemma X9_license_restrictions_witness :
  exists doc ops,
    drivers_license_document (<["restrictions" := VStr "AB"]> driver_data_1) = Ok doc
    /\ doc = CanvasDoc (4 * inch, 2.5 * inch)%Q ops
    /\ (2.5 * inch == 180)%Q
    /\ In (DrawString 10 20 (VStr "This is a sample document for testing purposes only"))
          ops
    /\ forall (i : nat) (s : string),
         ["A"; "B"] !! i = Some s ->
         exists y, (y == 140 - 15 * inject_Z (Z.of_nat i))%Q
                   /\ In (DrawString 10 y (VStr ("• " +:+ s))) ops
                   /\ (i = 8%nat -> (y == 20)%Q)
                   /\ ((10 <= i)%nat -> (y < 0)%Q).
Proof.
  destruct (drivers_license_document (<["restrictions" := VStr "AB"]> driver_data_1))
    as [doc|] eqn:E; [|vm_compute in E; discriminate].
  destruct (X9_license_restrictions driver_data_1 (VStr "AB") ["A"; "B"] doc
              eq_refl E) as (ops & Hops).
  exists doc, ops. split; [reflexivity | exact Hops].
Defined.

(** The empty record: the registration fails on its first field. *)
Lemma X10_key_error_sound_witness :
  In "doc_number" (required_keys (template VehicleRegistration))
  /\ (∅ : Record) !! "doc_number" = None.
Proof. apply X10_key_error_sound. vm_compute. reflexivity. Defined.

(** The sample deed with its price as a text. *)
Lemma X11_misused_field_witness :
  exists e',
    document PropertyDeed (<["purchase_price" := VStr "485,000"]> property_data)
    = Raise e'.
Proof.
  eapply X11_misused_field
    with (k := "purchase_price") (u := formatted grouped) (v := VStr "485,000").
  - cbn -[In]. find_in.
  - reflexivity.
  - reflexivity.
Defined.

End MoreExamples.
